(** * FunKey menu: a model of [menu.cpp]

    The settings overlay of the FunKey library is one translation unit,
    [src/menu.cpp].  Its state is a handful of file-scope [static] variables
    plus the locals of [FK_RunMenu]; its behaviour is the event [switch] of
    [FK_RunMenu], the scroll animation that follows it in the loop body,
    [init_menu_system_values] and [draw_progress_bar].

    Conventions of the model.
    - C [int] is modelled by [Z].  No arithmetic of the menu can overflow on
      the values it reaches (every increment is guarded by a comparison), so
      no wrap-around is written for [int]; the narrow unsigned types of
      [draw_progress_bar] ([uint8_t], [uint16_t], the fields of [SDL_Rect])
      are reduced explicitly, and so is the conversion to [size_t] in the
      theme branch of the Right key.  A number read by [atoi] is the
      number written as long as it fits an [int]; what is stated of such a
      number is stated under that hypothesis.
    - [menu.h] is not part of the sources at hand.  The enumerators, return
      codes and key names are taken as they are spelled in [menu.cpp]; the
      numeric macros [STEP_CHANGE_VOLUME], [STEP_CHANGE_BRIGHTNESS] and
      [NB_ASPECT_RATIOS_TYPES] are section variables, and so is [SIZE_MAX],
      which depends on the platform.  All [HAS_MENU_*]
      features are taken as enabled: a zone type that is compiled out never
      occurs in [idx_menus], and then its branches are dead.
    - The outside world (shell commands, rendering, logging) is a log of
      calls kept in the state; the outcome of the [n]-th command is given by
      an oracle [world n]. *)

From Stdlib Require Import ZArith List Bool Lia String Ascii.
Import ListNotations.
Local Open Scope Z_scope.

(** ** Enumerations *)

Inductive ENUM_MENU_TYPE : Set :=
| MENU_TYPE_VOLUME
| MENU_TYPE_BRIGHTNESS
| MENU_TYPE_SAVE
| MENU_TYPE_LOAD
| MENU_TYPE_ASPECT_RATIO
| MENU_TYPE_RO_RW
| MENU_TYPE_EXIT
| MENU_TYPE_USB
| MENU_TYPE_THEME
| MENU_TYPE_LAUNCHER
| MENU_TYPE_POWERDOWN.

Definition menu_type_eqb (a b : ENUM_MENU_TYPE) : bool :=
  match a, b with
  | MENU_TYPE_VOLUME, MENU_TYPE_VOLUME
  | MENU_TYPE_BRIGHTNESS, MENU_TYPE_BRIGHTNESS
  | MENU_TYPE_SAVE, MENU_TYPE_SAVE
  | MENU_TYPE_LOAD, MENU_TYPE_LOAD
  | MENU_TYPE_ASPECT_RATIO, MENU_TYPE_ASPECT_RATIO
  | MENU_TYPE_RO_RW, MENU_TYPE_RO_RW
  | MENU_TYPE_EXIT, MENU_TYPE_EXIT
  | MENU_TYPE_USB, MENU_TYPE_USB
  | MENU_TYPE_THEME, MENU_TYPE_THEME
  | MENU_TYPE_LAUNCHER, MENU_TYPE_LAUNCHER
  | MENU_TYPE_POWERDOWN, MENU_TYPE_POWERDOWN => true
  | _, _ => false
  end.

Inductive ReturnCode : Set :=
| MENU_RETURN_OK
| MENU_RETURN_EXIT
| MENU_RETURN_ERROR.

(** The key symbols that [FK_RunMenu] distinguishes; every other symbol
    takes the [default] branch. *)
Inductive SDLKey : Set :=
| SDLK_a | SDLK_RETURN
| SDLK_b
| SDLK_q | SDLK_ESCAPE
| SDLK_d | SDLK_DOWN
| SDLK_u | SDLK_UP
| SDLK_l | SDLK_LEFT
| SDLK_r | SDLK_RIGHT
| SDLK_other.

Inductive SDL_Event : Set :=
| SDL_QUIT
| SDL_KEYDOWN (sym : SDLKey)
| SDL_other_event.

(** ** The outside world *)

(** Commands handed to [popen], [system] and [Utils::executeRawPath].  The
    two setters carry the value that [sprintf] appends to the command. *)
Inductive ShellCmd : Set :=
| SHELL_CMD_VOLUME_GET
| SHELL_CMD_BRIGHTNESS_GET
| SHELL_CMD_USB_DATA_CONNECTED
| SHELL_CMD_USB_CHECK_IS_SHARING
| SHELL_CMD_VOLUME_SET (percentage : Z)
| SHELL_CMD_BRIGHTNESS_SET (percentage : Z)
| SHELL_CMD_USB_MOUNT
| SHELL_CMD_USB_UNMOUNT
| SHELL_CMD_SET_LAUNCHER_GMENU2X
| SHELL_CMD_POWERDOWN
| SHELL_CMD_RO
| SHELL_CMD_RW.

Inductive Call : Set :=
| call_popen (cmd : ShellCmd)
| call_executeRawPath (cmd : ShellCmd)
| call_system (cmd : ShellCmd)
| call_exportCurrentLayout (layout : Z)
| call_MENU_ERROR_PRINTF
| call_menu_screen_refresh
    (menuItem prevItem scroll : Z) (menu_confirmation menu_action : bool).

(** ** Constants of [menu.cpp] *)

Definition SCROLL_SPEED_PX : Z := 30.
Definition MENU_ZONE_WIDTH : Z := 240.
Definition MENU_ZONE_HEIGHT : Z := 240.
Definition MAX_SAVE_SLOTS : Z := 9.

Definition MIN (a b : Z) : Z := if a <? b then a else b.
Definition MAX (a b : Z) : Z := if a >? b then a else b.

(** ** State: the file-scope variables, the locals of [FK_RunMenu], and the
    log of calls made to the outside. *)

Record State : Type := mkState {
  idx_menus : list ENUM_MENU_TYPE;
  menuItem : Z;
  stop_menu_loop : bool;
  volume_percentage : Z;
  brightness_percentage : Z;
  aspect_ratio : Z;
  indexChooseLayout : Z;
  layouts_size : Z;              (* config->layouts_.size() *)
  savestate_slot : Z;
  usb_data_connected : bool;
  usb_sharing : bool;
  read_write : bool;
  scroll : Z;
  start_scroll : Z;
  screen_refresh : bool;
  menu_confirmation : bool;
  prevItem : Z;
  returnCode : ReturnCode;
  ncmd : nat;                    (* commands issued so far *)
  trace : list Call
}.

(** Assignment to one variable. *)

Definition set_menuItem v (s : State) : State :=
  mkState (idx_menus s) v (stop_menu_loop s) (volume_percentage s)
    (brightness_percentage s) (aspect_ratio s) (indexChooseLayout s)
    (layouts_size s) (savestate_slot s) (usb_data_connected s) (usb_sharing s)
    (read_write s) (scroll s) (start_scroll s) (screen_refresh s)
    (menu_confirmation s) (prevItem s) (returnCode s) (ncmd s) (trace s).
Definition set_stop_menu_loop v (s : State) : State :=
  mkState (idx_menus s) (menuItem s) v (volume_percentage s)
    (brightness_percentage s) (aspect_ratio s) (indexChooseLayout s)
    (layouts_size s) (savestate_slot s) (usb_data_connected s) (usb_sharing s)
    (read_write s) (scroll s) (start_scroll s) (screen_refresh s)
    (menu_confirmation s) (prevItem s) (returnCode s) (ncmd s) (trace s).
Definition set_volume_percentage v (s : State) : State :=
  mkState (idx_menus s) (menuItem s) (stop_menu_loop s) v
    (brightness_percentage s) (aspect_ratio s) (indexChooseLayout s)
    (layouts_size s) (savestate_slot s) (usb_data_connected s) (usb_sharing s)
    (read_write s) (scroll s) (start_scroll s) (screen_refresh s)
    (menu_confirmation s) (prevItem s) (returnCode s) (ncmd s) (trace s).
Definition set_brightness_percentage v (s : State) : State :=
  mkState (idx_menus s) (menuItem s) (stop_menu_loop s) (volume_percentage s)
    v (aspect_ratio s) (indexChooseLayout s) (layouts_size s)
    (savestate_slot s) (usb_data_connected s) (usb_sharing s) (read_write s)
    (scroll s) (start_scroll s) (screen_refresh s) (menu_confirmation s)
    (prevItem s) (returnCode s) (ncmd s) (trace s).
Definition set_aspect_ratio v (s : State) : State :=
  mkState (idx_menus s) (menuItem s) (stop_menu_loop s) (volume_percentage s)
    (brightness_percentage s) v (indexChooseLayout s) (layouts_size s)
    (savestate_slot s) (usb_data_connected s) (usb_sharing s) (read_write s)
    (scroll s) (start_scroll s) (screen_refresh s) (menu_confirmation s)
    (prevItem s) (returnCode s) (ncmd s) (trace s).
Definition set_indexChooseLayout v (s : State) : State :=
  mkState (idx_menus s) (menuItem s) (stop_menu_loop s) (volume_percentage s)
    (brightness_percentage s) (aspect_ratio s) v (layouts_size s)
    (savestate_slot s) (usb_data_connected s) (usb_sharing s) (read_write s)
    (scroll s) (start_scroll s) (screen_refresh s) (menu_confirmation s)
    (prevItem s) (returnCode s) (ncmd s) (trace s).
Definition set_savestate_slot v (s : State) : State :=
  mkState (idx_menus s) (menuItem s) (stop_menu_loop s) (volume_percentage s)
    (brightness_percentage s) (aspect_ratio s) (indexChooseLayout s)
    (layouts_size s) v (usb_data_connected s) (usb_sharing s) (read_write s)
    (scroll s) (start_scroll s) (screen_refresh s) (menu_confirmation s)
    (prevItem s) (returnCode s) (ncmd s) (trace s).
Definition set_usb_data_connected v (s : State) : State :=
  mkState (idx_menus s) (menuItem s) (stop_menu_loop s) (volume_percentage s)
    (brightness_percentage s) (aspect_ratio s) (indexChooseLayout s)
    (layouts_size s) (savestate_slot s) v (usb_sharing s) (read_write s)
    (scroll s) (start_scroll s) (screen_refresh s) (menu_confirmation s)
    (prevItem s) (returnCode s) (ncmd s) (trace s).
Definition set_usb_sharing v (s : State) : State :=
  mkState (idx_menus s) (menuItem s) (stop_menu_loop s) (volume_percentage s)
    (brightness_percentage s) (aspect_ratio s) (indexChooseLayout s)
    (layouts_size s) (savestate_slot s) (usb_data_connected s) v
    (read_write s) (scroll s) (start_scroll s) (screen_refresh s)
    (menu_confirmation s) (prevItem s) (returnCode s) (ncmd s) (trace s).
Definition set_read_write v (s : State) : State :=
  mkState (idx_menus s) (menuItem s) (stop_menu_loop s) (volume_percentage s)
    (brightness_percentage s) (aspect_ratio s) (indexChooseLayout s)
    (layouts_size s) (savestate_slot s) (usb_data_connected s) (usb_sharing s)
    v (scroll s) (start_scroll s) (screen_refresh s) (menu_confirmation s)
    (prevItem s) (returnCode s) (ncmd s) (trace s).
Definition set_scroll v (s : State) : State :=
  mkState (idx_menus s) (menuItem s) (stop_menu_loop s) (volume_percentage s)
    (brightness_percentage s) (aspect_ratio s) (indexChooseLayout s)
    (layouts_size s) (savestate_slot s) (usb_data_connected s) (usb_sharing s)
    (read_write s) v (start_scroll s) (screen_refresh s) (menu_confirmation s)
    (prevItem s) (returnCode s) (ncmd s) (trace s).
Definition set_start_scroll v (s : State) : State :=
  mkState (idx_menus s) (menuItem s) (stop_menu_loop s) (volume_percentage s)
    (brightness_percentage s) (aspect_ratio s) (indexChooseLayout s)
    (layouts_size s) (savestate_slot s) (usb_data_connected s) (usb_sharing s)
    (read_write s) (scroll s) v (screen_refresh s) (menu_confirmation s)
    (prevItem s) (returnCode s) (ncmd s) (trace s).
Definition set_screen_refresh v (s : State) : State :=
  mkState (idx_menus s) (menuItem s) (stop_menu_loop s) (volume_percentage s)
    (brightness_percentage s) (aspect_ratio s) (indexChooseLayout s)
    (layouts_size s) (savestate_slot s) (usb_data_connected s) (usb_sharing s)
    (read_write s) (scroll s) (start_scroll s) v (menu_confirmation s)
    (prevItem s) (returnCode s) (ncmd s) (trace s).
Definition set_menu_confirmation v (s : State) : State :=
  mkState (idx_menus s) (menuItem s) (stop_menu_loop s) (volume_percentage s)
    (brightness_percentage s) (aspect_ratio s) (indexChooseLayout s)
    (layouts_size s) (savestate_slot s) (usb_data_connected s) (usb_sharing s)
    (read_write s) (scroll s) (start_scroll s) (screen_refresh s) v
    (prevItem s) (returnCode s) (ncmd s) (trace s).
Definition set_prevItem v (s : State) : State :=
  mkState (idx_menus s) (menuItem s) (stop_menu_loop s) (volume_percentage s)
    (brightness_percentage s) (aspect_ratio s) (indexChooseLayout s)
    (layouts_size s) (savestate_slot s) (usb_data_connected s) (usb_sharing s)
    (read_write s) (scroll s) (start_scroll s) (screen_refresh s)
    (menu_confirmation s) v (returnCode s) (ncmd s) (trace s).
Definition set_returnCode v (s : State) : State :=
  mkState (idx_menus s) (menuItem s) (stop_menu_loop s) (volume_percentage s)
    (brightness_percentage s) (aspect_ratio s) (indexChooseLayout s)
    (layouts_size s) (savestate_slot s) (usb_data_connected s) (usb_sharing s)
    (read_write s) (scroll s) (start_scroll s) (screen_refresh s)
    (menu_confirmation s) (prevItem s) v (ncmd s) (trace s).
Definition set_ncmd v (s : State) : State :=
  mkState (idx_menus s) (menuItem s) (stop_menu_loop s) (volume_percentage s)
    (brightness_percentage s) (aspect_ratio s) (indexChooseLayout s)
    (layouts_size s) (savestate_slot s) (usb_data_connected s) (usb_sharing s)
    (read_write s) (scroll s) (start_scroll s) (screen_refresh s)
    (menu_confirmation s) (prevItem s) (returnCode s) v (trace s).
Definition set_trace v (s : State) : State :=
  mkState (idx_menus s) (menuItem s) (stop_menu_loop s) (volume_percentage s)
    (brightness_percentage s) (aspect_ratio s) (indexChooseLayout s)
    (layouts_size s) (savestate_slot s) (usb_data_connected s) (usb_sharing s)
    (read_write s) (scroll s) (start_scroll s) (screen_refresh s)
    (menu_confirmation s) (prevItem s) (returnCode s) (ncmd s) v.

(** Control leaves [FK_RunMenu] either through its loop condition or through
    the [return] in the confirmed power-down branch. *)
Inductive Flow : Type :=
| Running (s : State)
| Returned (rc : ReturnCode) (s : State).

Definition nb_menu_zones (s : State) : Z := Z.of_nat (List.length (idx_menus s)).

(** [zones[i]]; [None] stands for an access outside the array. *)
Definition zone_at (zones : list ENUM_MENU_TYPE) (i : Z)
  : option ENUM_MENU_TYPE :=
  if i <? 0 then None else nth_error zones (Z.to_nat i).

(** [idx_menus[menuItem]] *)
Definition current_zone (s : State) : option ENUM_MENU_TYPE :=
  zone_at (idx_menus s) (menuItem s).

(** [idx_menus[menuItem] == t] *)
Definition zone_is (t : ENUM_MENU_TYPE) (s : State) : bool :=
  match current_zone s with
  | Some t' => menu_type_eqb t' t
  | None => false
  end.

Definition emit (c : Call) (s : State) : State :=
  set_trace (trace s ++ [c]) s.

Definition MENU_ERROR_PRINTF (s : State) : State :=
  emit call_MENU_ERROR_PRINTF s.

Definition menu_screen_refresh (menu_action : bool) (s : State) : State :=
  emit (call_menu_screen_refresh (menuItem s) (prevItem s) (scroll s)
          (menu_confirmation s) menu_action) s.

(** ** The C library functions used by [init_menu_system_values]

    A [char] buffer is modelled by the string it holds up to its
    terminating NUL. *)

Definition char_code (c : ascii) : Z := Z.of_nat (nat_of_ascii c).

(** [c < '0' || c > '9'] *)
Definition not_a_digit (c : ascii) : bool :=
  (char_code c <? 48) || (char_code c >? 57).

(** [res[0]]: the first character, the terminating NUL if the string is
    empty. *)
Definition first_char (res : string) : ascii :=
  match res with
  | EmptyString => zero
  | String c _ => c
  end.

(** What [fgets] stores for a stream holding [out]: characters are copied
    until [n] of them are stored or a newline has been stored. *)
Fixpoint read_line (n : nat) (out : string) : string :=
  match n, out with
  | O, _ => EmptyString
  | _, EmptyString => EmptyString
  | S n, String c out =>
      if (char_code c =? 10) then String c EmptyString
      else String c (read_line n out)
  end.

(** [fgets(res, size, fp)] on a fresh stream holding [out].  At end of file
    with nothing read, [fgets] returns NULL and leaves the buffer as it
    was; the caller here ignores the return value. *)
Definition fgets (res : string) (size : nat) (out : string) : string :=
  match out with
  | EmptyString => res
  | String _ _ => read_line (size - 1) out
  end.

Definition isspace (c : ascii) : bool :=
  (char_code c =? 32) || ((9 <=? char_code c) && (char_code c <=? 13)).

Fixpoint skip_spaces (s : string) : string :=
  match s with
  | String c rest => if isspace c then skip_spaces rest else s
  | EmptyString => s
  end.

Fixpoint digits_value (acc : Z) (s : string) : Z :=
  match s with
  | String c rest =>
      if not_a_digit c then acc
      else digits_value (10 * acc + (char_code c - 48)) rest
  | EmptyString => acc
  end.


(** [atoi]: optional white space, optional sign, decimal digits.  The result
    is the mathematical value of the digits, which is what [atoi] returns
    when that value fits an [int]; beyond [INT_MAX] C leaves the result
    undefined, and what is stated of a value read by [atoi] is stated under
    the hypothesis that it is at most [INT_MAX]. *)
Definition atoi (s : string) : Z :=
  match skip_spaces s with
  | String "-"%char rest => - digits_value 0 rest
  | String "+"%char rest => digits_value 0 rest
  | rest => digits_value 0 rest
  end.

(** What the outside answers to the queries of [init_menu_system_values]:
    the standard output of the two [popen] commands ([None]: [popen]
    returned NULL), the two USB checks, and whatever the uninitialised
    buffer [res] holds on entry. *)
Record Probe : Type := mkProbe {
  volume_get : option string;
  brightness_get : option string;
  usb_data_connected_get : bool;
  usb_check_is_sharing : bool;
  res_on_entry : string
}.

Section Menu.

(** Macros of [menu.h]. *)
Variable STEP_CHANGE_VOLUME : Z.
Variable STEP_CHANGE_BRIGHTNESS : Z.
Variable NB_ASPECT_RATIOS_TYPES : Z.

(** [SIZE_MAX] of [<stdint.h>], the largest value of [size_t]. *)
Variable SIZE_MAX : Z.

(** Conversion of an [int] to [size_t]: reduction modulo [SIZE_MAX + 1]. *)
Definition to_size_t (z : Z) : Z := z mod (SIZE_MAX + 1).

(** [world n] tells whether the command issued when [n] commands have
    already been issued succeeds: [popen] returns a stream,
    [executeRawPath] returns true, [system] returns a value [>= 0]. *)
Variable world : nat -> bool.

Definition run_cmd (c : Call) (s : State) : bool * State :=
  (world (ncmd s), set_ncmd (S (ncmd s)) (emit c s)).

(** [fp = popen(cmd, "r"); if (fp == NULL) MENU_ERROR_PRINTF(...)] *)
Definition popen_logged (cmd : ShellCmd) (s : State) : State :=
  let (fp, s) := run_cmd (call_popen cmd) s in
  if fp then s else MENU_ERROR_PRINTF s.

(** *** [case SDL_QUIT] *)
Definition on_quit (s : State) : State :=
  set_returnCode MENU_RETURN_EXIT (set_stop_menu_loop true s).

(** *** [case SDLK_b] *)
Definition on_key_b (s : State) : State :=
  if menu_confirmation s
  then set_screen_refresh true (set_menu_confirmation false s)
  else s.

(** *** [case SDLK_q: case SDLK_ESCAPE] *)
Definition on_key_escape (s : State) : State :=
  if usb_sharing s then s else set_stop_menu_loop true s.

(** [menuItem++; if (menuItem >= nb_menu_zones) menuItem = 0;] *)
Definition menuItem_next (s : State) : State :=
  let s := set_menuItem (menuItem s + 1) s in
  if menuItem s >=? nb_menu_zones s then set_menuItem 0 s else s.

(** [menuItem--; if (menuItem < 0) menuItem = nb_menu_zones - 1;] *)
Definition menuItem_prev (s : State) : State :=
  let s := set_menuItem (menuItem s - 1) s in
  if menuItem s <? 0 then set_menuItem (nb_menu_zones s - 1) s else s.

(** [idx_menus[menuItem] == MENU_TYPE_USB && !usb_data_connected] *)
Definition on_hidden_usb (s : State) : bool :=
  zone_is MENU_TYPE_USB s && negb (usb_data_connected s).

(** *** [case SDLK_d: case SDLK_DOWN] *)
Definition on_key_down (s : State) : State :=
  if usb_sharing s then s else
  let s := menuItem_next s in
  let s := if on_hidden_usb s then menuItem_next s else s in
  let s := set_start_scroll 1 s in
  let s := set_menu_confirmation false s in
  set_screen_refresh true s.

(** *** [case SDLK_u: case SDLK_UP] *)
Definition on_key_up (s : State) : State :=
  if usb_sharing s then s else
  let s := menuItem_prev s in
  let s := if on_hidden_usb s then menuItem_prev s else s in
  let s := set_start_scroll (-1) s in
  let s := set_menu_confirmation false s in
  set_screen_refresh true s.

(** *** [case SDLK_l: case SDLK_LEFT]

    In the theme branch the two arms of [?:] are brought to [size_t] and
    the result is stored in an [int]; for [indexChooseLayout - 1] the two
    conversions undo each other. *)
Definition on_key_left (s : State) : State :=
  if zone_is MENU_TYPE_VOLUME s then
    let s := set_volume_percentage
               (if volume_percentage s <? STEP_CHANGE_VOLUME then 0
                else volume_percentage s - STEP_CHANGE_VOLUME) s in
    let s := popen_logged (SHELL_CMD_VOLUME_SET (volume_percentage s)) s in
    set_screen_refresh true s
  else if zone_is MENU_TYPE_BRIGHTNESS s then
    let s := set_brightness_percentage
               (if brightness_percentage s <? STEP_CHANGE_BRIGHTNESS then 0
                else brightness_percentage s - STEP_CHANGE_BRIGHTNESS) s in
    let s := popen_logged
               (SHELL_CMD_BRIGHTNESS_SET (brightness_percentage s)) s in
    set_screen_refresh true s
  else if zone_is MENU_TYPE_SAVE s then
    let s := set_savestate_slot
               (if savestate_slot s =? 0 then MAX_SAVE_SLOTS - 1
                else savestate_slot s - 1) s in
    set_screen_refresh true s
  else if zone_is MENU_TYPE_LOAD s then
    let s := set_savestate_slot
               (if savestate_slot s =? 0 then MAX_SAVE_SLOTS - 1
                else savestate_slot s - 1) s in
    set_screen_refresh true s
  else if zone_is MENU_TYPE_ASPECT_RATIO s then
    let s := set_aspect_ratio
               (if aspect_ratio s =? 0 then NB_ASPECT_RATIOS_TYPES - 1
                else aspect_ratio s - 1) s in
    set_screen_refresh true s
  else if zone_is MENU_TYPE_THEME s then
    let s := set_indexChooseLayout
               (if indexChooseLayout s =? 0 then layouts_size s - 1
                else indexChooseLayout s - 1) s in
    set_screen_refresh true s
  else s.

(** *** [case SDLK_r: case SDLK_RIGHT]

    [%] is C's remainder, [Z.rem].  In the theme branch the right operand,
    [config->layouts_.size()], is a [size_t], so [indexChooseLayout + 1] is
    converted to [size_t] before the remainder is taken.  With no layout
    at all the code divides by zero; [layouts_size] is taken positive. *)
Definition on_key_right (s : State) : State :=
  if zone_is MENU_TYPE_VOLUME s then
    let s := set_volume_percentage
               (if volume_percentage s >? 100 - STEP_CHANGE_VOLUME then 100
                else volume_percentage s + STEP_CHANGE_VOLUME) s in
    let s := popen_logged (SHELL_CMD_VOLUME_SET (volume_percentage s)) s in
    set_screen_refresh true s
  else if zone_is MENU_TYPE_BRIGHTNESS s then
    let s := set_brightness_percentage
               (if brightness_percentage s >? 100 - STEP_CHANGE_BRIGHTNESS
                then 100
                else brightness_percentage s + STEP_CHANGE_BRIGHTNESS) s in
    let s := popen_logged
               (SHELL_CMD_BRIGHTNESS_SET (brightness_percentage s)) s in
    set_screen_refresh true s
  else if zone_is MENU_TYPE_SAVE s then
    let s := set_savestate_slot
               (Z.rem (savestate_slot s + 1) MAX_SAVE_SLOTS) s in
    set_screen_refresh true s
  else if zone_is MENU_TYPE_LOAD s then
    let s := set_savestate_slot
               (Z.rem (savestate_slot s + 1) MAX_SAVE_SLOTS) s in
    set_screen_refresh true s
  else if zone_is MENU_TYPE_ASPECT_RATIO s then
    let s := set_aspect_ratio
               (Z.rem (aspect_ratio s + 1) NB_ASPECT_RATIOS_TYPES) s in
    set_screen_refresh true s
  else if zone_is MENU_TYPE_THEME s then
    let s := set_indexChooseLayout
               (Z.rem (to_size_t (indexChooseLayout s + 1))
                  (layouts_size s)) s in
    set_screen_refresh true s
  else s.

(** [menu_confirmation = 1; screen_refresh = 1;] *)
Definition ask_confirmation (s : State) : State :=
  set_screen_refresh true (set_menu_confirmation true s).

(** *** [case SDLK_a: case SDLK_RETURN] *)
Definition on_key_return (s : State) : Flow :=
  if zone_is MENU_TYPE_SAVE s then
    if menu_confirmation s then
      let s := menu_screen_refresh true s in
      Running (set_stop_menu_loop true s)
    else Running (ask_confirmation s)
  else if zone_is MENU_TYPE_LOAD s then
    if menu_confirmation s then
      let s := menu_screen_refresh true s in
      Running (set_stop_menu_loop true s)
    else Running (ask_confirmation s)
  else if zone_is MENU_TYPE_USB s then
    if menu_confirmation s then
      let s := menu_screen_refresh true s in
      let (res, s) :=
        run_cmd (call_executeRawPath
                   (if usb_sharing s then SHELL_CMD_USB_UNMOUNT
                    else SHELL_CMD_USB_MOUNT)) s in
      let s := if negb res then MENU_ERROR_PRINTF s
               else set_usb_sharing (negb (usb_sharing s)) s in
      let s := set_menu_confirmation false s in
      Running (set_screen_refresh true s)
    else Running (ask_confirmation s)
  else if zone_is MENU_TYPE_THEME s then
    if menu_confirmation s then
      let s := menu_screen_refresh true s in
      let s := emit (call_exportCurrentLayout (indexChooseLayout s)) s in
      let s := set_stop_menu_loop true s in
      Running (set_returnCode MENU_RETURN_EXIT s)
    else Running (ask_confirmation s)
  else if zone_is MENU_TYPE_LAUNCHER s then
    if menu_confirmation s then
      let s := menu_screen_refresh true s in
      let (_, s) :=
        run_cmd (call_executeRawPath SHELL_CMD_SET_LAUNCHER_GMENU2X) s in
      let s := set_stop_menu_loop true s in
      Running (set_returnCode MENU_RETURN_EXIT s)
    else Running (ask_confirmation s)
  else if zone_is MENU_TYPE_EXIT s then
    if menu_confirmation s then
      let s := set_stop_menu_loop true s in
      Running (set_returnCode MENU_RETURN_EXIT s)
    else Running (ask_confirmation s)
  else if zone_is MENU_TYPE_POWERDOWN s then
    if menu_confirmation s then
      let s := menu_screen_refresh true s in
      let s := popen_logged SHELL_CMD_POWERDOWN s in
      Returned MENU_RETURN_EXIT s
    else Running (ask_confirmation s)
  else if zone_is MENU_TYPE_RO_RW s then
    if menu_confirmation s then
      let s := menu_screen_refresh true s in
      let (ok, s) :=
        run_cmd (call_system
                   (if read_write s then SHELL_CMD_RO else SHELL_CMD_RW)) s in
      let s := if negb ok then MENU_ERROR_PRINTF s
               else set_read_write (negb (read_write s)) s in
      let s := set_menu_confirmation false s in
      Running (set_screen_refresh true s)
    else Running (ask_confirmation s)
  else Running s.

(** *** The [switch] on [event.type] and on the key symbol *)
Definition handle_event (s : State) (e : SDL_Event) : Flow :=
  match e with
  | SDL_QUIT => Running (on_quit s)
  | SDL_KEYDOWN sym =>
      match sym with
      | SDLK_b => Running (on_key_b s)
      | SDLK_q | SDLK_ESCAPE => Running (on_key_escape s)
      | SDLK_d | SDLK_DOWN => Running (on_key_down s)
      | SDLK_u | SDLK_UP => Running (on_key_up s)
      | SDLK_l | SDLK_LEFT => Running (on_key_left s)
      | SDLK_r | SDLK_RIGHT => Running (on_key_right s)
      | SDLK_a | SDLK_RETURN => on_key_return s
      | SDLK_other => Running s
      end
  | SDL_other_event => Running s
  end.

(** [while (SDL_PollEvent(&event)) switch ...]: the pending events are
    handled in order; only a [return] leaves the loop early. *)
Fixpoint poll_events (s : State) (queue : list SDL_Event) : Flow :=
  match queue with
  | [] => Running s
  | e :: queue =>
      match handle_event s e with
      | Running s => poll_events s queue
      | Returned rc s => Returned rc s
      end
  end.

(** *** The scroll effect

    The first [if]/[else if] moves the offset, the second [if] commits. *)
Definition scroll_advance (s : State) : State :=
  if (scroll s >? 0) || (start_scroll s >? 0) then
    let s := set_scroll
               (scroll s + MIN SCROLL_SPEED_PX (MENU_ZONE_HEIGHT - scroll s))
               s in
    let s := set_start_scroll 0 s in
    set_screen_refresh true s
  else if (scroll s <? 0) || (start_scroll s <? 0) then
    let s := set_scroll
               (scroll s - MIN SCROLL_SPEED_PX (MENU_ZONE_HEIGHT + scroll s))
               s in
    let s := set_start_scroll 0 s in
    set_screen_refresh true s
  else s.

Definition scroll_commit (s : State) : State :=
  if (scroll s >=? MENU_ZONE_HEIGHT) || (scroll s <=? - MENU_ZONE_HEIGHT) then
    let s := set_prevItem (menuItem s) s in
    let s := set_scroll 0 s in
    set_screen_refresh true s
  else s.

Definition scroll_effect (s : State) : State :=
  scroll_commit (scroll_advance s).

(** *** One iteration of the main loop

    [queue] holds the events pending when the iteration starts.  They are
    consumed only when no scroll is in progress.  The frame-rate delay has
    no effect on the state and is left out. *)
Definition loop_body (s : State) (queue : list SDL_Event)
  : Flow * list SDL_Event :=
  let (fl, queue) :=
    if scroll s =? 0 then (poll_events s queue, [])
    else (Running s, queue) in
  match fl with
  | Returned rc s => (Returned rc s, queue)
  | Running s =>
      let s := scroll_effect s in
      let s := if screen_refresh s then menu_screen_refresh false s else s in
      (Running (set_screen_refresh false s), queue)
  end.

(** [while (!stop_menu_loop) { ... } return returnCode;]

    [arrivals] lists, frame by frame, the events that reach the queue
    before that frame polls.  [None]: the loop is still running when the
    listed frames are over. *)
Fixpoint menu_loop (s : State) (queue : list SDL_Event)
    (arrivals : list (list SDL_Event)) : option (ReturnCode * State) :=
  if stop_menu_loop s then Some (returnCode s, s)
  else
    match arrivals with
    | [] => None
    | now :: arrivals =>
        match loop_body s (queue ++ now) with
        | (Returned rc s, _) => Some (rc, s)
        | (Running s, queue) => menu_loop s queue arrivals
        end
    end.

(** *** [init_menu_system_values] *)

(** The volume block and the brightness block have the same shape: [popen],
    then [fgets] into [res], then the test on [res[0]].  [read_percentage]
    returns the buffer, the value stored and whether an error was printed. *)
Definition read_percentage (answer : option string) (res : string)
  : string * Z * bool :=
  match answer with
  | None => (res, 50, true)
  | Some out =>
      let res := fgets res (100 - 1) out in
      if not_a_digit (first_char res) then (res, 50, true)
      else (res, atoi res, false)
  end.

(** [for (cur_idx = 0; cur_idx < nb_menu_zones; cur_idx++)
       if (idx_menus[cur_idx] == MENU_TYPE_USB) { menuItem = cur_idx; break; }] *)
Fixpoint first_usb_zone (zones : list ENUM_MENU_TYPE) (cur_idx : Z)
  : option Z :=
  match zones with
  | [] => None
  | t :: zones =>
      if menu_type_eqb t MENU_TYPE_USB then Some cur_idx
      else first_usb_zone zones (cur_idx + 1)
  end.

Definition init_menu_system_values (p : Probe) (s : State) : State :=
  let res := res_on_entry p in
  (* volume *)
  let s := emit (call_popen SHELL_CMD_VOLUME_GET) s in
  let '(res, v, err) := read_percentage (volume_get p) res in
  let s := if err then MENU_ERROR_PRINTF s else s in
  let s := set_volume_percentage v s in
  (* brightness *)
  let s := emit (call_popen SHELL_CMD_BRIGHTNESS_GET) s in
  let '(res, v, err) := read_percentage (brightness_get p) res in
  let s := if err then MENU_ERROR_PRINTF s else s in
  let s := set_brightness_percentage v s in
  (* USB *)
  let s := emit (call_executeRawPath SHELL_CMD_USB_DATA_CONNECTED) s in
  let s := set_usb_data_connected (usb_data_connected_get p) s in
  let s := emit (call_executeRawPath SHELL_CMD_USB_CHECK_IS_SHARING) s in
  let s := set_usb_sharing (usb_check_is_sharing p) s in
  let s :=
    if negb (usb_data_connected s) then
      let s := set_usb_sharing false s in
      if zone_is MENU_TYPE_USB s then set_menuItem 0 s else s
    else s in
  if usb_sharing s then
    match first_usb_zone (idx_menus s) 0 with
    | Some cur_idx => set_menuItem cur_idx s
    | None => s
    end
  else s.

(** *** [FK_RunMenu]

    The file-scope variables keep the values of the previous session.
    [currentLayoutIdx_] is read from the configuration;
    [background_screen_ok] tells whether [SDL_CreateRGBSurface] returned a
    surface. *)
Definition FK_RunMenu (s : State) (currentLayoutIdx_ : Z) (p : Probe)
    (background_screen_ok : bool) (arrivals : list (list SDL_Event))
  : option (ReturnCode * State) :=
  let s := set_scroll 0 s in
  let s := set_start_scroll 0 s in
  let s := set_screen_refresh true s in
  let s := set_menu_confirmation false s in
  let s := set_stop_menu_loop false s in
  let s := set_indexChooseLayout currentLayoutIdx_ s in
  let s := set_returnCode MENU_RETURN_OK s in
  let s := init_menu_system_values p s in
  let s := set_prevItem (menuItem s) s in
  let s := set_savestate_slot (Z.rem (savestate_slot s) MAX_SAVE_SLOTS) s in
  if negb background_screen_ok then
    Some (MENU_RETURN_ERROR, MENU_ERROR_PRINTF s)
  else menu_loop s [] arrivals.

(** ** [draw_progress_bar]

    The function works on [uint8_t] and [uint16_t] variables; operands are
    promoted to [int] inside expressions and reduced again when stored.
    [/] on [int] is [Z.quot]. *)

Definition u8 (z : Z) : Z := z mod 256.
Definition u16 (z : Z) : Z := z mod 65536.
Definition s16 (z : Z) : Z := (z + 32768) mod 65536 - 32768.

Record SDL_Surface : Type := mkSurface { surface_w : Z; surface_h : Z }.

(** [SDL_Rect] has [Sint16 x, y] and [Uint16 w, h]. *)
Record SDL_Rect : Type := mkRect {
  rect_x : Z; rect_y : Z; rect_w : Z; rect_h : Z
}.

Definition make_rect (x y w h : Z) : SDL_Rect :=
  mkRect (s16 x) (s16 y) (u16 w) (u16 h).

(** The two colours passed to [SDL_MapRGB]. *)
Inductive Color : Set := GRAY_MAIN | WHITE_MAIN.

(** One call of [SDL_FillRect]. *)
Definition FillRect : Type := (SDL_Rect * Color)%type.

(** The values [0, 1, ..., n-1] of a loop counter. *)
Definition counter (n : Z) : list Z := map Z.of_nat (seq 0 (Z.to_nat n)).

(** Body of the first loop: one filled rectangle. *)
Definition full_bar (x y bar_width bar_padding_x height i : Z)
  : list FillRect :=
  [ (make_rect (x + i * (bar_width + bar_padding_x)) y bar_width height,
     GRAY_MAIN) ].

(** Body of the second loop: a filled rectangle and, one line inside it, a
    white one. *)
Definition empty_bar (line_width x y bar_width bar_padding_x height
                        nb_full_bars i : Z) : list FillRect :=
  [ (make_rect
       (x + i * (bar_width + bar_padding_x)
          + nb_full_bars * (bar_width + bar_padding_x))
       y bar_width height,
     GRAY_MAIN);
    (make_rect
       (x + i * (bar_width + bar_padding_x) + line_width
          + nb_full_bars * (bar_width + bar_padding_x))
       (y + line_width) (bar_width - line_width * 2)
       (height - line_width * 2),
     WHITE_MAIN) ].

(** [None]: the division [width / nb_bars] has a zero divisor. *)
Definition draw_progress_bar (surface : SDL_Surface)
    (x y width height percentage nb_bars : Z) : option (list FillRect) :=
  let x := u16 x in
  let y := u16 y in
  let width := u16 width in
  let height := u16 height in
  let percentage := u8 percentage in
  let nb_bars := u16 nb_bars in
  let line_width := 1 in
  let padding_bars_ratio := 3 in
  let percentage := u8 (if percentage >? 100 then 100 else percentage) in
  let x := u16 (if x >? surface_w surface - 1 then surface_w surface - 1
                else x) in
  let y := u16 (if y >? surface_h surface - 1 then surface_h surface - 1
                else y) in
  let width := u16 (if width <? line_width * 2 + 1 then line_width * 2 + 1
                    else width) in
  let width := u16 (if width >? surface_w surface - x - 1
                    then surface_w surface - x - 1 else width) in
  let height := u16 (if height <? line_width * 2 + 1 then line_width * 2 + 1
                     else height) in
  let height := u16 (if height >? surface_h surface - y - 1
                     then surface_h surface - y - 1 else height) in
  let nb_bars_max :=
    u16 ((width * padding_bars_ratio ÷ (line_width * 2 + 1) + 1)
           ÷ (padding_bars_ratio + 1)) in
  let nb_bars := u16 (if nb_bars >? nb_bars_max then nb_bars_max
                      else nb_bars) in
  if nb_bars =? 0 then None else
  let bar_width :=
    u16 ((width ÷ nb_bars) * padding_bars_ratio ÷ (padding_bars_ratio + 1)
           + 1) in
  let bar_padding_x := u16 (bar_width ÷ padding_bars_ratio) in
  let nb_full_bars := u16 (nb_bars * percentage ÷ 100) in
  Some
    (flat_map (full_bar x y bar_width bar_padding_x height)
       (counter nb_full_bars)
     ++ flat_map
          (empty_bar line_width x y bar_width bar_padding_x height
             nb_full_bars)
          (counter (nb_bars - nb_full_bars))).

(** A bar drawn hollow is recognised by its white inside. *)
Definition is_white (f : FillRect) : bool :=
  match snd f with WHITE_MAIN => true | GRAY_MAIN => false end.

Definition hollow_bars (l : list FillRect) : Z :=
  Z.of_nat (List.length (filter is_white l)).

Definition solid_bars (l : list FillRect) : Z :=
  Z.of_nat (List.length (filter (fun f => negb (is_white f)) l))
  - hollow_bars l.

(** The volume zone: geometry fixed by [add_menu_zone] from the zone
    background, and the overlay drawn by [menu_screen_refresh]. *)
Definition padding_y_from_center_menu_zone : Z := 18.
Definition width_progress_bar : Z := 100.
Definition height_progress_bar : Z := 20.

Definition x_volume_bar (zone : SDL_Surface) : Z :=
  u16 ((surface_w zone - MENU_ZONE_WIDTH) ÷ 2
       + (MENU_ZONE_WIDTH - width_progress_bar) ÷ 2).

Definition y_volume_bar (zone : SDL_Surface) : Z :=
  u16 (surface_h zone - MENU_ZONE_HEIGHT ÷ 2 - height_progress_bar ÷ 2
       + padding_y_from_center_menu_zone).

Definition volume_overlay (zone screen : SDL_Surface) (s : State)
  : option (list FillRect) :=
  draw_progress_bar screen (x_volume_bar zone) (y_volume_bar zone)
    width_progress_bar height_progress_bar (volume_percentage s)
    (100 ÷ STEP_CHANGE_VOLUME).

(** Rounding to the nearest integer of the quotient [a / b], [0 <= a],
    [0 < b]; halves go up. *)
Definition round_div (a b : Z) : Z := (2 * a + b) / (2 * b).

(** ** Vocabulary of the properties *)

(** The zone types whose action sits behind the confirmation flag. *)
Definition needs_confirmation (t : ENUM_MENU_TYPE) : bool :=
  match t with
  | MENU_TYPE_SAVE | MENU_TYPE_LOAD | MENU_TYPE_USB | MENU_TYPE_THEME
  | MENU_TYPE_LAUNCHER | MENU_TYPE_EXIT | MENU_TYPE_POWERDOWN
  | MENU_TYPE_RO_RW => true
  | MENU_TYPE_VOLUME | MENU_TYPE_BRIGHTNESS | MENU_TYPE_ASPECT_RATIO => false
  end.

(** Zone [i] is the USB zone and USB is not connected. *)
Definition hidden_usb_at (s : State) (i : Z) : bool :=
  match zone_at (idx_menus s) i with
  | Some MENU_TYPE_USB => negb (usb_data_connected s)
  | _ => false
  end.

(** Keys that the USB lock disables. *)
Definition locked_key (sym : SDLKey) : bool :=
  match sym with
  | SDLK_q | SDLK_ESCAPE | SDLK_d | SDLK_DOWN | SDLK_u | SDLK_UP => true
  | _ => false
  end.

Definition left_right_key (sym : SDLKey) : bool :=
  match sym with
  | SDLK_l | SDLK_LEFT | SDLK_r | SDLK_RIGHT => true
  | _ => false
  end.

(** The ranges of the adjustable values. *)
Definition values_in_range (s : State) : Prop :=
  0 <= volume_percentage s <= 100 /\
  0 <= brightness_percentage s <= 100 /\
  0 <= savestate_slot s < MAX_SAVE_SLOTS.

(** What holds of the scroll variables whenever the loop body reaches the
    scroll effect. *)
Definition scroll_inv (s : State) : Prop :=
  - MENU_ZONE_HEIGHT < scroll s < MENU_ZONE_HEIGHT /\
  (scroll s <> 0 -> start_scroll s = 0).

(** Sign of the scroll under way, or of the one just requested. *)
Definition scroll_direction (s : State) : Z :=
  if scroll s =? 0 then Z.sgn (start_scroll s) else Z.sgn (scroll s).

Definition flow_state (f : Flow) : State :=
  match f with Running s => s | Returned _ s => s end.

(** A session that is about to end with [MENU_RETURN_EXIT]. *)
Definition exit_pending (f : Flow) : Prop :=
  match f with
  | Running s => stop_menu_loop s = true /\ returnCode s = MENU_RETURN_EXIT
  | Returned rc _ => rc = MENU_RETURN_EXIT
  end.

(** What holds of the scroll variables each time the loop tests its
    condition. *)
Definition loop_inv (s : State) : Prop :=
  - MENU_ZONE_HEIGHT < scroll s < MENU_ZONE_HEIGHT /\ start_scroll s = 0.

(** Number of frames a scroll under way still takes. *)
Definition pending_frames (s : State) : Z :=
  if scroll s =? 0 then 0
  else (MENU_ZONE_HEIGHT + SCROLL_SPEED_PX - 1 - Z.abs (scroll s))
         / SCROLL_SPEED_PX.

(** The zones in the order [init_menu_zones] registers them. *)
Definition init_menu_zones : list ENUM_MENU_TYPE :=
  [ MENU_TYPE_VOLUME; MENU_TYPE_BRIGHTNESS; MENU_TYPE_SAVE; MENU_TYPE_LOAD;
    MENU_TYPE_ASPECT_RATIO; MENU_TYPE_RO_RW; MENU_TYPE_EXIT; MENU_TYPE_USB;
    MENU_TYPE_THEME; MENU_TYPE_LAUNCHER; MENU_TYPE_POWERDOWN ].

(** A state at rest on zone [item], with the given volume and confirmation
    flag; used to run the model on concrete inputs. *)
Definition state_on (item volume : Z) (confirmation : bool) : State :=
  {| idx_menus := init_menu_zones; menuItem := item;
     stop_menu_loop := false;
     volume_percentage := volume; brightness_percentage := 50;
     aspect_ratio := 0; indexChooseLayout := 0; layouts_size := 1;
     savestate_slot := 0;
     usb_data_connected := false; usb_sharing := false; read_write := false;
     scroll := 0; start_scroll := 0; screen_refresh := false;
     menu_confirmation := confirmation; prevItem := item;
     returnCode := MENU_RETURN_OK; ncmd := 0; trace := [] |}.

(** The commands given to [popen], in the order of the log. *)
Definition popen_commands (log : list Call) : list ShellCmd :=
  flat_map (fun c => match c with call_popen cmd => [cmd] | _ => [] end) log.

(** ** The rest of [menu.cpp]: registry, fonts, what a redraw shows *)

Definition set_idx_menus v (s : State) : State :=
  mkState v (menuItem s) (stop_menu_loop s) (volume_percentage s)
    (brightness_percentage s) (aspect_ratio s) (indexChooseLayout s)
    (layouts_size s) (savestate_slot s) (usb_data_connected s) (usb_sharing s)
    (read_write s) (scroll s) (start_scroll s) (screen_refresh s)
    (menu_confirmation s) (prevItem s) (returnCode s) (ncmd s) (trace s).

(** [add_menu_zone]: [nb_menu_zones++] and
    [idx_menus[nb_menu_zones - 1] = menu_type].  The zone surface and the
    title drawn on it are left out. *)
Definition add_menu_zone (menu_type : ENUM_MENU_TYPE) (s : State) : State :=
  set_idx_menus (idx_menus s ++ [menu_type]) s.

(** [init_menu_zones], with [has t] telling whether the [HAS_MENU_*] macro
    of zone type [t] is defined. *)
Definition init_menu_zones_of (has : ENUM_MENU_TYPE -> bool) (s : State)
  : State :=
  let add t s := if has t then add_menu_zone t s else s in
  let s := add MENU_TYPE_VOLUME s in
  let s := add MENU_TYPE_BRIGHTNESS s in
  let s := add MENU_TYPE_SAVE s in
  let s := add MENU_TYPE_LOAD s in
  let s := add MENU_TYPE_ASPECT_RATIO s in
  let s := add MENU_TYPE_RO_RW s in
  let s := add MENU_TYPE_EXIT s in
  let s := add MENU_TYPE_USB s in
  let s := add MENU_TYPE_THEME s in
  let s := add MENU_TYPE_LAUNCHER s in
  add MENU_TYPE_POWERDOWN s.

(** [if (system(SHELL_CMD_RO) < 0) MENU_ERROR_PRINTF(...)] *)
Definition system_ro_logged (s : State) : State :=
  let (ok, s) := run_cmd (call_system SHELL_CMD_RO) s in
  if ok then s else MENU_ERROR_PRINTF s.

(** [FK_InitMenu], the part that acts on the file-scope variables: the
    read-only command, then the registration of the zones. *)
Definition FK_InitMenu (has : ENUM_MENU_TYPE -> bool) (s : State) : State :=
  let s := if has MENU_TYPE_RO_RW then system_ro_logged s else s in
  init_menu_zones_of has s.

(** [FK_EndMenu]: [idx_menus = NULL; nb_menu_zones = 0;], then the
    read-only command. *)
Definition FK_EndMenu (has : ENUM_MENU_TYPE -> bool) (s : State) : State :=
  let s := set_idx_menus [] s in
  if has MENU_TYPE_RO_RW then system_ro_logged s else s.

(** The font library as [FunKeyMenu::initTTF] and [deinitTTF] see it:
    SDL_ttf counts its successful initialisations ([TTF_WasInit] returns
    the count, [TTF_Quit] decrements it when positive), and the menu object
    remembers in [wasTTFInit] what [TTF_WasInit] said. *)
Record Fonts : Type := mkFonts {
  TTF_initialized : nat;
  wasTTFInit : bool
}.

(** [wasTTFInit = TTF_WasInit(); if (!wasTTFInit) TTF_Init();]
    [init_ok]: [TTF_Init] succeeds. *)
Definition initTTF (init_ok : bool) (f : Fonts) : Fonts :=
  let was := negb (Nat.eqb (TTF_initialized f) 0) in
  {| TTF_initialized :=
       if negb was then
         (if init_ok then S (TTF_initialized f) else TTF_initialized f)
       else TTF_initialized f;
     wasTTFInit := was |}.

(** [if (!wasTTFInit) TTF_Quit();] *)
Definition deinitTTF (f : Fonts) : Fonts :=
  if negb (wasTTFInit f)
  then {| TTF_initialized := Nat.pred (TTF_initialized f);
          wasTTFInit := wasTTFInit f |}
  else f.

(** [menu_screen_refresh]: [print_arrows = (scroll || usb_sharing) ? 0 : 1] *)
Definition print_arrows (s : State) : bool :=
  if negb (scroll s =? 0) || usb_sharing s then false else true.

(** The status line of a zone: the progress text while the action runs,
    else the question while a confirmation is pending, else nothing. *)
Definition status_line (progress : string)
    (menu_confirmation menu_action : bool) : option string :=
  if menu_action then Some progress
  else if menu_confirmation then Some "Are you sure?"%string
  else None.

(** [menu_screen_refresh]: the status line drawn under the zone.  Nothing
    zone-specific is drawn while [scroll] is not 0. *)
Definition status_caption (s : State) (menu_action : bool) : option string :=
  if scroll s >? 0 then None
  else if scroll s <? 0 then None
  else
    match current_zone s with
    | Some MENU_TYPE_SAVE =>
        status_line "Saving..." (menu_confirmation s) menu_action
    | Some MENU_TYPE_LOAD =>
        status_line "Loading..." (menu_confirmation s) menu_action
    | Some MENU_TYPE_USB =>
        status_line "in progress ..." (menu_confirmation s) menu_action
    | Some MENU_TYPE_THEME =>
        status_line "In progress..." (menu_confirmation s) menu_action
    | Some MENU_TYPE_LAUNCHER =>
        status_line "In progress..." (menu_confirmation s) menu_action
    | Some MENU_TYPE_EXIT | Some MENU_TYPE_POWERDOWN =>
        status_line "Shutting down..." (menu_confirmation s) menu_action
    | Some MENU_TYPE_RO_RW =>
        status_line "in progress ..." (menu_confirmation s) menu_action
    | _ => None
    end.

(** The statements of [FK_RunMenu] that come before its loop. *)
Definition FK_RunMenu_prologue (s : State) (currentLayoutIdx_ : Z)
    (p : Probe) : State :=
  let s := set_scroll 0 s in
  let s := set_start_scroll 0 s in
  let s := set_screen_refresh true s in
  let s := set_menu_confirmation false s in
  let s := set_stop_menu_loop false s in
  let s := set_indexChooseLayout currentLayoutIdx_ s in
  let s := set_returnCode MENU_RETURN_OK s in
  let s := init_menu_system_values p s in
  let s := set_prevItem (menuItem s) s in
  set_savestate_slot (Z.rem (savestate_slot s) MAX_SAVE_SLOTS) s.

(** The states in which the loop of a session tests its condition. *)
Inductive loop_head (start : State) : State -> Prop :=
| loop_head_start : loop_head start start
| loop_head_next s queue s' queue' :
    loop_head start s ->
    stop_menu_loop s = false ->
    loop_body s queue = (Running s', queue') ->
    loop_head start s'.

(** [menuItem] indexes a registered zone. *)
Definition index_ok (s : State) : Prop :=
  0 <= menuItem s < nb_menu_zones s.

(** A confirmation is pending only on a zone that has an action. *)
Definition confirmation_ok (s : State) : Prop :=
  menu_confirmation s = true ->
  exists t, current_zone s = Some t /\ needs_confirmation t = true.

(** A share in progress keeps the USB zone selected. *)
Definition share_ok (s : State) : Prop :=
  usb_sharing s = true -> zone_is MENU_TYPE_USB s = true.

(** At rest, the zone shown is the zone selected. *)
Definition rest_ok (s : State) : Prop :=
  scroll s = 0 -> prevItem s = menuItem s.

Definition updown_event (e : SDL_Event) : bool :=
  match e with
  | SDL_KEYDOWN SDLK_d | SDL_KEYDOWN SDLK_DOWN
  | SDL_KEYDOWN SDLK_u | SDL_KEYDOWN SDLK_UP => true
  | _ => false
  end.

(** Every command of the log, whichever call ran it. *)
Definition shell_commands (log : list Call) : list ShellCmd :=
  flat_map (fun c => match c with
                     | call_popen cmd | call_executeRawPath cmd
                     | call_system cmd => [cmd]
                     | _ => []
                     end) log.

(** All fields but the log. *)
Definition forget_log (s : State) : State := set_trace [] s.

(** What the loop body does after the polling: scroll effect, redraw if
    requested, reset of [screen_refresh]. *)
Definition loop_tail (s : State) : State :=
  let s := scroll_effect s in
  let s := if screen_refresh s then menu_screen_refresh false s else s in
  set_screen_refresh false s.

(** What the loop keeps about the scroll: the offset is a multiple of the
    step within the zone height, no scroll request is left over, and at
    rest the zone shown is the zone selected. *)
Definition scroll_ok (s : State) : Prop :=
  loop_inv s /\ rest_ok s /\ exists k, scroll s = SCROLL_SPEED_PX * k.

(** The percentages that [init_menu_system_values] stores for a probe. *)
Definition probed_volume (p : Probe) : Z :=
  snd (fst (read_percentage (volume_get p) (res_on_entry p))).

Definition probed_brightness (p : Probe) : Z :=
  snd (fst (read_percentage (brightness_get p)
              (fst (fst (read_percentage (volume_get p)
                           (res_on_entry p)))))).

(** [FK_StopMenu(void)], the overload without a handle:
    [stop_menu_loop = 1;] *)
Definition FK_StopMenu (s : State) : State := set_stop_menu_loop true s.

(** A probe for the examples: the volume is 40, the brightness 70. *)
Definition probe_on (connected sharing : bool) : Probe :=
  {| volume_get := Some "40"%string;
     brightness_get := Some "70"%string;
     usb_data_connected_get := connected;
     usb_check_is_sharing := sharing;
     res_on_entry := EmptyString |}.

(** The same answers found with another content of the buffer [res]. *)
Definition with_buffer (res : string) (p : Probe) : Probe :=
  {| volume_get := volume_get p;
     brightness_get := brightness_get p;
     usb_data_connected_get := usb_data_connected_get p;
     usb_check_is_sharing := usb_check_is_sharing p;
     res_on_entry := res |}.

(** ** Proof tools *)

Ltac break_if :=
  match goal with
  | |- context [if ?c then _ else _] => destruct c eqn:?
  end.

Ltac break_ifs := repeat (break_if; cbn [fst snd] in *).

Ltac fields :=
  cbn [idx_menus menuItem stop_menu_loop volume_percentage
       brightness_percentage aspect_ratio indexChooseLayout layouts_size
       savestate_slot usb_data_connected usb_sharing read_write scroll
       start_scroll screen_refresh menu_confirmation prevItem returnCode
       ncmd trace
       set_menuItem set_stop_menu_loop set_volume_percentage
       set_brightness_percentage set_aspect_ratio set_indexChooseLayout
       set_savestate_slot set_usb_data_connected set_usb_sharing
       set_idx_menus
       set_read_write set_scroll set_start_scroll set_screen_refresh
       set_menu_confirmation set_prevItem set_returnCode set_ncmd
       set_trace fst snd] in *.

Ltac zbool :=
  repeat match goal with
  | H : (_ <? _) = true |- _ => apply Z.ltb_lt in H
  | H : (_ <? _) = false |- _ => apply Z.ltb_ge in H
  | H : (_ <=? _) = true |- _ => apply Z.leb_le in H
  | H : (_ <=? _) = false |- _ => apply Z.leb_gt in H
  | H : (_ >? _) = _ |- _ => rewrite Z.gtb_ltb in H
  | H : (_ >=? _) = _ |- _ => rewrite Z.geb_leb in H
  | H : (_ =? _) = true |- _ => apply Z.eqb_eq in H
  | H : (_ =? _) = false |- _ => apply Z.eqb_neq in H
  end.

Lemma MIN_min a b : MIN a b = Z.min a b.
Proof. unfold MIN. destruct (Z.ltb_spec a b); lia. Qed.

Lemma menu_type_eqb_eq a b : menu_type_eqb a b = true <-> a = b.
Proof. destruct a, b; cbn; split; congruence. Qed.

Lemma zone_is_current t s :
  zone_is t s = true <-> current_zone s = Some t.
Proof.
  unfold zone_is. destruct (current_zone s) as [t'|].
  - rewrite menu_type_eqb_eq. split; congruence.
  - split; discriminate.
Qed.

(** ** The confirmation gate *)

(** Without the flag the Confirm handler changes the two refresh variables
    and nothing else. *)
Lemma on_key_return_unconfirmed s :
  menu_confirmation s = false ->
  on_key_return s =
    Running (match current_zone s with
             | Some t => if needs_confirmation t then ask_confirmation s
                         else s
             | None => s
             end).
Proof.
  intros Hc. unfold on_key_return. rewrite Hc.
  unfold zone_is. destruct (current_zone s) as [[]|]; reflexivity.
Qed.

(** C1.  The Confirm key ([SDLK_a] or [SDLK_RETURN]) pressed while
    [menu_confirmation] is 0 performs no action: the handler does not
    return, issues no command, no export and no redraw of its own (the
    call log is unchanged), leaves [stop_menu_loop], [returnCode],
    [usb_sharing] and [read_write] as they were; on a zone whose action
    needs confirming (save, load, USB, theme, launcher, exit, power-down,
    read-write) the new state is the old one with [menu_confirmation] and
    [screen_refresh] set, on any other zone it is the old state. *)
Theorem C1_confirm_gate (s : State) :
  menu_confirmation s = false ->
  handle_event s (SDL_KEYDOWN SDLK_a)
    = handle_event s (SDL_KEYDOWN SDLK_RETURN) /\
  exists s',
    handle_event s (SDL_KEYDOWN SDLK_RETURN) = Running s' /\
    trace s' = trace s /\ ncmd s' = ncmd s /\
    stop_menu_loop s' = stop_menu_loop s /\
    returnCode s' = returnCode s /\
    usb_sharing s' = usb_sharing s /\
    read_write s' = read_write s /\
    (forall t, current_zone s = Some t ->
       if needs_confirmation t
       then s' = ask_confirmation s /\
            menu_confirmation s' = true /\ screen_refresh s' = true
       else s' = s).
Proof.
  intros Hc. split; [reflexivity|].
  cbn [handle_event]. rewrite (on_key_return_unconfirmed s Hc).
  eexists. split; [reflexivity|].
  destruct (current_zone s) as [t|].
  - destruct (needs_confirmation t) eqn:Ht.
    + repeat split; try reflexivity.
      intros t' [= <-]. rewrite Ht. repeat split.
    + repeat split; try reflexivity.
      intros t' [= <-]. rewrite Ht. reflexivity.
  - repeat split; try reflexivity. discriminate.
Qed.

(** ** The USB lock *)

(** C9.  While [usb_sharing] is set, the handlers of Up, Down and
    Escape/Quit ([SDLK_u], [SDLK_UP], [SDLK_d], [SDLK_DOWN], [SDLK_q],
    [SDLK_ESCAPE]) return the state they were given: index, scroll
    variables, confirmation flag and [stop_menu_loop] are untouched, and
    this stays so for any run of such keys. *)
Theorem C9_usb_sharing_locks_navigation (s : State) :
  usb_sharing s = true ->
  (forall sym, locked_key sym = true ->
     handle_event s (SDL_KEYDOWN sym) = Running s) /\
  (forall keys, forallb locked_key keys = true ->
     poll_events s (map SDL_KEYDOWN keys) = Running s).
Proof.
  intros Hu.
  assert (H1 : forall sym, locked_key sym = true ->
                 handle_event s (SDL_KEYDOWN sym) = Running s).
  { intros sym Hk. destruct sym; try discriminate Hk; cbn;
      unfold on_key_escape, on_key_down, on_key_up; rewrite Hu; reflexivity. }
  split; [exact H1|].
  induction keys as [|k keys IH]; intros Hall; [reflexivity|].
  cbn in Hall. apply andb_true_iff in Hall as [Hk Hks].
  cbn [map poll_events]. rewrite (H1 k Hk). auto.
Qed.

(** ** Up and Down: wrap-around and the USB skip *)

Lemma wrap_next n m :
  0 <= m < n -> (if m + 1 >=? n then 0 else m + 1) = (m + 1) mod n.
Proof.
  intros H. destruct (Z.geb_spec (m + 1) n).
  - apply (Z.mod_unique (m + 1) n 1 0); lia.
  - symmetry. apply Z.mod_small. lia.
Qed.

Lemma wrap_prev n m :
  0 <= m < n -> (if m - 1 <? 0 then n - 1 else m - 1) = (m - 1) mod n.
Proof.
  intros H. destruct (Z.ltb_spec (m - 1) 0).
  - apply (Z.mod_unique (m - 1) n (-1) (n - 1)); lia.
  - symmetry. apply Z.mod_small. lia.
Qed.

Lemma menuItem_next_spec s :
  0 <= menuItem s < nb_menu_zones s ->
  menuItem_next s
    = set_menuItem ((menuItem s + 1) mod nb_menu_zones s) s.
Proof.
  intros H. rewrite <- (wrap_next _ _ H). unfold menuItem_next.
  change (nb_menu_zones (set_menuItem (menuItem s + 1) s))
    with (nb_menu_zones s).
  cbn [menuItem set_menuItem]. destruct (_ >=? _); reflexivity.
Qed.

Lemma menuItem_prev_spec s :
  0 <= menuItem s < nb_menu_zones s ->
  menuItem_prev s
    = set_menuItem ((menuItem s - 1) mod nb_menu_zones s) s.
Proof.
  intros H. rewrite <- (wrap_prev _ _ H). unfold menuItem_prev.
  change (nb_menu_zones (set_menuItem (menuItem s - 1) s))
    with (nb_menu_zones s).
  cbn [menuItem set_menuItem]. destruct (_ <? _); reflexivity.
Qed.

Lemma on_hidden_usb_at s :
  on_hidden_usb s = hidden_usb_at s (menuItem s).
Proof.
  unfold on_hidden_usb, hidden_usb_at, zone_is, current_zone.
  destruct (zone_at _ _) as [[]|]; reflexivity.
Qed.

(** C4.  With no USB share in progress and a valid index, Down moves to
    [(menuItem + 1) mod nb_menu_zones] (so from the last zone to 0) and Up to
    [(menuItem - 1) mod nb_menu_zones] (so from 0 to the last zone); when the
    zone reached is the USB zone and USB is not connected, the index moves
    one more step the same way, again modulo the zone count.  Either key
    clears [menu_confirmation] and sets [start_scroll] to its direction, and
    with the offset at rest the scroll effect of the same frame moves the
    offset by one step in that direction. *)
Theorem C4_wrap_and_skip (s : State) :
  usb_sharing s = false ->
  0 <= menuItem s < nb_menu_zones s ->
  let n := nb_menu_zones s in
  let skip dir land :=
    if hidden_usb_at s land then (land + dir) mod n else land in
  let down := on_key_down s in
  let up := on_key_up s in
  (handle_event s (SDL_KEYDOWN SDLK_DOWN) = Running down /\
   handle_event s (SDL_KEYDOWN SDLK_d) = Running down /\
   handle_event s (SDL_KEYDOWN SDLK_UP) = Running up /\
   handle_event s (SDL_KEYDOWN SDLK_u) = Running up) /\
  (menuItem down = skip 1 ((menuItem s + 1) mod n) /\
   (menuItem s = n - 1 -> (menuItem s + 1) mod n = 0) /\
   menu_confirmation down = false /\ start_scroll down = 1 /\
   (scroll s = 0 -> scroll (scroll_effect down) = SCROLL_SPEED_PX)) /\
  (menuItem up = skip (-1) ((menuItem s - 1) mod n) /\
   (menuItem s = 0 -> (menuItem s - 1) mod n = n - 1) /\
   menu_confirmation up = false /\ start_scroll up = -1 /\
   (scroll s = 0 -> scroll (scroll_effect up) = - SCROLL_SPEED_PX)) /\
  0 <= menuItem down < n /\ 0 <= menuItem up < n.
Proof.
  intros Hu Hm n skip down up.
  assert (Hn : 0 < n) by (unfold n; lia).
  assert (Hd : 0 <= (menuItem s + 1) mod n < n) by (apply Z.mod_pos_bound; lia).
  assert (Hp : 0 <= (menuItem s - 1) mod n < n) by (apply Z.mod_pos_bound; lia).
  assert (Ed : menuItem down = skip 1 ((menuItem s + 1) mod n)).
  { unfold down, on_key_down. rewrite Hu, (menuItem_next_spec s Hm).
    rewrite on_hidden_usb_at. fold n. cbn [menuItem set_menuItem].
    change (hidden_usb_at (set_menuItem ((menuItem s + 1) mod n) s))
      with (hidden_usb_at s).
    unfold skip. destruct (hidden_usb_at s _); [|reflexivity].
    rewrite menuItem_next_spec by exact Hd. reflexivity. }
  assert (Eu : menuItem up = skip (-1) ((menuItem s - 1) mod n)).
  { unfold up, on_key_up. rewrite Hu, (menuItem_prev_spec s Hm).
    rewrite on_hidden_usb_at. fold n. cbn [menuItem set_menuItem].
    change (hidden_usb_at (set_menuItem ((menuItem s - 1) mod n) s))
      with (hidden_usb_at s).
    unfold skip. destruct (hidden_usb_at s _); [|reflexivity].
    rewrite menuItem_prev_spec by exact Hp. reflexivity. }
  assert (Sd : scroll down = scroll s /\ start_scroll down = 1
               /\ menu_confirmation down = false).
  { unfold down, on_key_down, menuItem_next. rewrite Hu.
    break_ifs; repeat split. }
  assert (Su : scroll up = scroll s /\ start_scroll up = -1
               /\ menu_confirmation up = false).
  { unfold up, on_key_up, menuItem_prev. rewrite Hu.
    break_ifs; repeat split. }
  destruct Sd as (Sd1 & Sd2 & Sd3), Su as (Su1 & Su2 & Su3).
  split; [repeat split|]. split; [|split].
  - repeat split; try assumption.
    + intros E. symmetry. apply (Z.mod_unique (menuItem s + 1) n 1); lia.
    + intros Hs. unfold scroll_effect, scroll_commit, scroll_advance.
      rewrite Sd1, Sd2, Hs. reflexivity.
  - repeat split; try assumption.
    + intros E. symmetry. apply (Z.mod_unique (menuItem s - 1) n (-1)); lia.
    + intros Hs. unfold scroll_effect, scroll_commit, scroll_advance.
      rewrite Su1, Su2, Hs. reflexivity.
  - rewrite Ed, Eu. unfold skip.
    destruct (hidden_usb_at s _), (hidden_usb_at s _);
      repeat split; try apply Z.mod_pos_bound; lia.
Qed.

(** ** The scroll effect *)

Lemma scroll_advance_fields s :
  scroll (scroll_advance s)
    = (if (scroll s >? 0) || (start_scroll s >? 0)
       then scroll s + Z.min 30 (240 - scroll s)
       else if (scroll s <? 0) || (start_scroll s <? 0)
       then scroll s - Z.min 30 (240 + scroll s)
       else scroll s) /\
  menuItem (scroll_advance s) = menuItem s /\
  prevItem (scroll_advance s) = prevItem s /\
  (start_scroll (scroll_advance s) = 0 \/
   start_scroll (scroll_advance s) = start_scroll s /\
   scroll s = 0 /\ start_scroll s = 0).
Proof.
  unfold scroll_advance, SCROLL_SPEED_PX, MENU_ZONE_HEIGHT.
  rewrite !MIN_min.
  destruct (Z.gtb_spec (scroll s) 0), (Z.gtb_spec (start_scroll s) 0),
    (Z.ltb_spec (scroll s) 0), (Z.ltb_spec (start_scroll s) 0);
    cbn; repeat split; auto; right; repeat split; lia.
Qed.

Lemma scroll_commit_fields s :
  (if (scroll s >=? 240) || (scroll s <=? -240)
   then scroll (scroll_commit s) = 0 /\ prevItem (scroll_commit s) = menuItem s
   else scroll (scroll_commit s) = scroll s
        /\ prevItem (scroll_commit s) = prevItem s) /\
  start_scroll (scroll_commit s) = start_scroll s /\
  menuItem (scroll_commit s) = menuItem s.
Proof.
  unfold scroll_commit, MENU_ZONE_HEIGHT.
  change (- (240)) with (-240).
  destruct ((scroll s >=? 240) || (scroll s <=? -240)); cbn; repeat split.
Qed.

(** The scroll effect of one frame, while a scroll is under way or has just
    been requested. *)
Lemma scroll_effect_spec (s : State) :
  scroll_inv s ->
  scroll s <> 0 \/ start_scroll s <> 0 ->
  let d := scroll_direction s in
  let a := scroll_advance s in
  let s' := scroll_effect s in
  (d = 1 \/ d = -1) /\
  scroll a
    = scroll s
      + d * Z.min SCROLL_SPEED_PX (MENU_ZONE_HEIGHT - Z.abs (scroll s)) /\
  Z.abs (scroll s) < Z.abs (scroll a) <= MENU_ZONE_HEIGHT /\
  (Z.abs (scroll a) = MENU_ZONE_HEIGHT ->
     scroll s' = 0 /\ prevItem s' = menuItem s) /\
  (Z.abs (scroll a) < MENU_ZONE_HEIGHT ->
     scroll s' = scroll a /\ prevItem s' = prevItem s) /\
  start_scroll s' = 0 /\
  scroll_inv s'.
Proof.
  unfold scroll_inv, scroll_direction, scroll_effect,
    SCROLL_SPEED_PX, MENU_ZONE_HEIGHT.
  intros [Hr Hs] Hgo. cbv zeta.
  destruct (scroll_advance_fields s) as (Ea & Em & Ep & Es).
  destruct (scroll_commit_fields (scroll_advance s)) as (Ec & Ecs & Ecm).
  rewrite Ecs. rewrite Em, Ep in Ec.
  set (a := scroll (scroll_advance s)) in *.
  set (c := scroll (scroll_commit (scroll_advance s))) in *.
  set (p := prevItem (scroll_commit (scroll_advance s))) in *.
  clearbody a c p.
  destruct (Z.eqb_spec (scroll s) 0) as [Hz|Hnz].
  - (* a scroll has just been requested *)
    rewrite Hz in *. cbn in Ea.
    destruct (Z.gtb_spec (start_scroll s) 0); cbn in Ea.
    + subst a. cbn in Ec. destruct Ec as [-> ->].
      rewrite Z.sgn_pos by lia. cbn. repeat split; try lia.
    + destruct (Z.ltb_spec (start_scroll s) 0); cbn in Ea; [|lia].
      subst a. cbn in Ec. destruct Ec as [-> ->].
      rewrite Z.sgn_neg by lia. cbn. repeat split; try lia.
  - (* a scroll is under way *)
    specialize (Hs Hnz).
    destruct (Z.gtb_spec (scroll s) 0); cbn [orb] in Ea.
    + rewrite Z.sgn_pos by lia.
      rewrite (Z.abs_eq (scroll s)) by lia.
      destruct (Z.geb_spec a 240), (Z.leb_spec a (-240));
        cbn in Ec; destruct Ec as [Ec1 Ec2]; repeat split; lia.
    + rewrite Hs in Ea. change (0 >? 0) with false in Ea.
      destruct (Z.ltb_spec (scroll s) 0); cbn [orb] in Ea; [|lia].
      rewrite Z.sgn_neg by lia.
      rewrite (Z.abs_neq (scroll s)) by lia.
      destruct (Z.geb_spec a 240), (Z.leb_spec a (-240));
        cbn in Ec; destruct Ec as [Ec1 Ec2]; repeat split; lia.
Qed.

Lemma scroll_effect_rest s :
  scroll s = 0 -> start_scroll s = 0 -> scroll_effect s = s.
Proof.
  intros Hz Hz'. unfold scroll_effect, scroll_advance.
  rewrite Hz, Hz'. cbn [Z.gtb Z.ltb Z.compare orb].
  unfold scroll_commit. rewrite Hz. reflexivity.
Qed.

(** C3.  In a frame where a scroll is under way or has just been requested,
    the offset moves by [min(30, 240 - |scroll|)] in the direction of the
    scroll; its magnitude grows strictly and stays within 240.  If it
    reaches 240, the same frame sets [prevItem] to [menuItem] and the
    offset to 0; otherwise the moved offset is kept and [prevItem] stays.
    The frame leaves [start_scroll] at 0 and the scroll variables in the
    state the next frame expects. *)
Theorem C3_scroll_step (s : State) :
  scroll_inv s ->
  scroll s <> 0 \/ start_scroll s <> 0 ->
  let d := scroll_direction s in
  let a := scroll_advance s in
  let s' := scroll_effect s in
  (d = 1 \/ d = -1) /\
  scroll a
    = scroll s
      + d * Z.min SCROLL_SPEED_PX (MENU_ZONE_HEIGHT - Z.abs (scroll s)) /\
  Z.abs (scroll s) < Z.abs (scroll a) <= MENU_ZONE_HEIGHT /\
  (Z.abs (scroll a) = MENU_ZONE_HEIGHT ->
     scroll s' = 0 /\ prevItem s' = menuItem s) /\
  (Z.abs (scroll a) < MENU_ZONE_HEIGHT ->
     scroll s' = scroll a /\ prevItem s' = prevItem s) /\
  start_scroll s' = 0 /\
  scroll_inv s'.
Proof. exact (scroll_effect_spec s). Qed.

(** ** What the event handlers leave alone *)

Ltac unfold_handlers :=
  cbn [handle_event];
  unfold on_quit, on_key_b, on_key_escape, on_key_down, on_key_up,
    on_key_left, on_key_right, on_key_return, ask_confirmation,
    menuItem_next, menuItem_prev, popen_logged, run_cmd,
    menu_screen_refresh, MENU_ERROR_PRINTF, emit.

Ltac by_handlers e :=
  destruct e as [|[]|]; unfold_handlers; break_ifs; cbn.

Lemma handle_event_scroll s e :
  scroll (flow_state (handle_event s e)) = scroll s.
Proof. by_handlers e; reflexivity. Qed.

Lemma poll_events_scroll queue : forall s,
  scroll (flow_state (poll_events s queue)) = scroll s.
Proof.
  induction queue as [|e queue IH]; intros s; [reflexivity|].
  cbn [poll_events]. pose proof (handle_event_scroll s e) as H.
  destruct (handle_event s e) as [s1|rc s1]; cbn in H |- *.
  - rewrite IH. exact H.
  - exact H.
Qed.

(** The only [return] inside the loop returns [MENU_RETURN_EXIT]. *)
Lemma handle_event_returned s e rc s' :
  handle_event s e = Returned rc s' -> rc = MENU_RETURN_EXIT.
Proof. by_handlers e; congruence. Qed.

Lemma handle_event_exit_pending s e :
  exit_pending (Running s) -> exit_pending (handle_event s e).
Proof.
  cbn. intros [Hs Hr]. by_handlers e; auto.
Qed.

Lemma poll_events_exit_pending queue : forall s,
  exit_pending (Running s) -> exit_pending (poll_events s queue).
Proof.
  induction queue as [|e queue IH]; intros s H; [exact H|].
  cbn [poll_events]. pose proof (handle_event_exit_pending s e H) as H1.
  destruct (handle_event s e) as [s1|rc s1]; auto.
Qed.

Lemma poll_events_quit queue : forall s,
  In SDL_QUIT queue -> exit_pending (poll_events s queue).
Proof.
  induction queue as [|e queue IH]; intros s Hin; [destruct Hin|].
  cbn [poll_events]. destruct Hin as [->|Hin].
  - cbn [handle_event]. apply poll_events_exit_pending. cbn. auto.
  - destruct (handle_event s e) as [s1|rc s1] eqn:E; [auto|].
    cbn. eapply handle_event_returned; eassumption.
Qed.

(** ** The loop and the quit event *)

Lemma loop_body_inv s queue s' queue' :
  loop_inv s ->
  loop_body s queue = (Running s', queue') ->
  loop_inv s'.
Proof.
  unfold loop_inv, loop_body. intros [Hr Hs] E.
  assert (G : forall s1, - MENU_ZONE_HEIGHT < scroll s1 < MENU_ZONE_HEIGHT ->
                (scroll s1 <> 0 -> start_scroll s1 = 0) ->
                - MENU_ZONE_HEIGHT < scroll (scroll_effect s1)
                  < MENU_ZONE_HEIGHT
                /\ start_scroll (scroll_effect s1) = 0).
  { intros s1 H1 H2.
    destruct (Z.eq_dec (scroll s1) 0) as [Hz|Hnz];
      [destruct (Z.eq_dec (start_scroll s1) 0) as [Hz'|Hnz']|].
    - rewrite scroll_effect_rest by assumption. auto.
    - destruct (scroll_effect_spec s1) as (_ & _ & _ & _ & _ & Hss & Hi & _);
        [split; assumption| right; assumption |]. split; assumption.
    - destruct (scroll_effect_spec s1) as (_ & _ & _ & _ & _ & Hss & Hi & _);
        [split; assumption| left; assumption |]. split; assumption. }
  destruct (Z.eqb_spec (scroll s) 0) as [Hz|Hnz].
  - pose proof (poll_events_scroll queue s) as Hp.
    destruct (poll_events s queue) as [s1|rc s1]; [|discriminate E].
    cbn in Hp. injection E as <- _.
    destruct (G s1) as [G1 G2]; [lia | intros; lia |].
    break_ifs; cbn; auto.
  - injection E as <- _.
    destruct (G s) as [G1 G2]; [lia | auto |].
    break_ifs; cbn; auto.
Qed.

Lemma scroll_effect_keeps s :
  stop_menu_loop (scroll_effect s) = stop_menu_loop s /\
  returnCode (scroll_effect s) = returnCode s.
Proof.
  unfold scroll_effect, scroll_commit, scroll_advance. break_ifs; split;
    reflexivity.
Qed.

(** The part of the loop body that follows the polling: scroll effect,
    redraw, reset of [screen_refresh]. *)
Lemma loop_body_tail s :
  let s1 := scroll_effect s in
  let s2 := if screen_refresh s1 then menu_screen_refresh false s1 else s1 in
  let s3 := set_screen_refresh false s2 in
  scroll s3 = scroll s1 /\ start_scroll s3 = start_scroll s1 /\
  stop_menu_loop s3 = stop_menu_loop s /\ returnCode s3 = returnCode s.
Proof.
  cbv zeta. destruct (scroll_effect_keeps s) as [<- <-].
  destruct (screen_refresh (scroll_effect s)); repeat split.
Qed.

Lemma loop_body_quit s queue :
  scroll s = 0 -> In SDL_QUIT queue ->
  exit_pending (fst (loop_body s queue)).
Proof.
  intros Hz Hin. unfold loop_body. rewrite Hz. cbn [Z.eqb].
  pose proof (poll_events_quit queue s Hin) as H.
  destruct (poll_events s queue) as [s1|rc s1]; cbn [fst exit_pending];
    [|exact H].
  destruct (loop_body_tail s1) as (_ & _ & E1 & E2). cbv zeta in E1, E2.
  rewrite E1, E2. exact H.
Qed.

Lemma pending_frames_nonneg s : loop_inv s -> 0 <= pending_frames s.
Proof.
  unfold loop_inv, pending_frames, MENU_ZONE_HEIGHT, SCROLL_SPEED_PX.
  intros [H _]. destruct (scroll s =? 0); [lia|].
  apply Z.div_pos; lia.
Qed.

Lemma loop_body_scrolling s queue :
  loop_inv s -> scroll s <> 0 ->
  exists s', loop_body s queue = (Running s', queue) /\
             stop_menu_loop s' = stop_menu_loop s /\
             pending_frames s' = pending_frames s - 1.
Proof.
  intros [Hr Hs] Hnz. unfold loop_body.
  destruct (Z.eqb_spec (scroll s) 0) as [|_]; [contradiction|].
  eexists. split; [reflexivity|].
  destruct (loop_body_tail s) as (E1 & _ & E3 & _).
  cbv zeta in E1, E3. split; [exact E3|].
  unfold pending_frames at 1. rewrite E1.
  destruct (scroll_effect_spec s) as (Hd & Ea & Hab & Hc & Hk & _);
    [split; [assumption|auto] | left; assumption |].
  cbv zeta in *. unfold pending_frames.
  destruct (Z.eqb_spec (scroll s) 0) as [|_]; [contradiction|].
  unfold MENU_ZONE_HEIGHT, SCROLL_SPEED_PX in *.
  set (a := scroll (scroll_advance s)) in *.
  set (c := scroll (scroll_effect s)) in *.
  clearbody a c.
  destruct (Z.eq_dec (Z.abs a) 240) as [E|E].
  - destruct (Hc E) as [-> _]. cbn [Z.eqb].
    assert (210 <= Z.abs (scroll s) < 240) by lia.
    assert ((240 + 30 - 1 - Z.abs (scroll s)) / 30 = 1) as ->;
      [|reflexivity].
    symmetry. apply (Z.div_unique _ 30 1 (239 - Z.abs (scroll s))); lia.
  - destruct (Hk ltac:(lia)) as [-> _].
    destruct (Z.eqb_spec a 0) as [|_]; [lia|].
    assert (Z.abs a = Z.abs (scroll s) + 30).
    { unfold scroll_direction in Ea.
      destruct (Z.eqb_spec (scroll s) 0) as [|_]; [contradiction|].
      destruct (Z.lt_total (scroll s) 0) as [Hlt|[|Hgt]]; [|contradiction|].
      - rewrite Z.sgn_neg in Ea by assumption. lia.
      - rewrite Z.sgn_pos in Ea by assumption. lia. }
    replace (240 + 30 - 1 - Z.abs a)
      with ((240 + 30 - 1 - Z.abs (scroll s)) + (-1) * 30) by lia.
    rewrite Z.div_add by lia. lia.
Qed.

Lemma menu_loop_stopped s queue arrivals :
  stop_menu_loop s = true ->
  menu_loop s queue arrivals = Some (returnCode s, s).
Proof. intros H. destruct arrivals; cbn; rewrite H; reflexivity. Qed.

(** Once a quit event is pending or arrives for the coming frame, the loop
    ends with [MENU_RETURN_EXIT]: in that frame if no scroll is under way,
    else in the frame that follows the end of the scroll. *)
Lemma menu_loop_quit arrivals : forall s queue,
  stop_menu_loop s = false ->
  loop_inv s ->
  In SDL_QUIT (queue ++ hd [] arrivals) ->
  pending_frames s < Z.of_nat (List.length arrivals) ->
  exists s', menu_loop s queue arrivals = Some (MENU_RETURN_EXIT, s').
Proof.
  induction arrivals as [|now rest IH]; intros s queue Hstop Hinv Hin' Hlen.
  - pose proof (pending_frames_nonneg s Hinv). cbn in Hlen. lia.
  - cbn [menu_loop]. rewrite Hstop. cbn [hd] in Hin'.
    destruct (Z.eq_dec (scroll s) 0) as [Hz|Hnz].
    + pose proof (loop_body_quit s (queue ++ now) Hz Hin') as H.
      destruct (loop_body s (queue ++ now)) as [[s1|rc s1] q1];
        cbn [fst exit_pending] in H.
      * destruct H as [H1 H2]. rewrite (menu_loop_stopped _ _ _ H1), H2.
        eauto.
      * subst rc. eauto.
    + destruct (loop_body_scrolling s (queue ++ now) Hinv Hnz)
        as (s1 & E & Es & Ep).
      pose proof (loop_body_inv _ _ _ _ Hinv E) as Hinv1.
      rewrite E. apply IH; try assumption;
        [congruence | apply in_or_app; auto |].
      rewrite Ep. cbn [List.length] in Hlen. lia.
Qed.

(** ** Left and Right: the adjustable values *)

Section Steps.

Hypothesis volume_step_nonneg : 0 <= STEP_CHANGE_VOLUME.
Hypothesis brightness_step_nonneg : 0 <= STEP_CHANGE_BRIGHTNESS.

Lemma handle_event_values s e :
  values_in_range s -> values_in_range (flow_state (handle_event s e)).
Proof.
  unfold values_in_range, MAX_SAVE_SLOTS. intros (Hv & Hb & Hs).
  assert (Hrem : 0 <= Z.rem (savestate_slot s + 1) 9 < 9)
    by (apply Z.rem_bound_pos; lia).
  destruct e as [|[]|]; unfold_handlers; unfold MAX_SAVE_SLOTS;
    break_ifs; cbn [flow_state]; fields; zbool; lia.
Qed.

Lemma poll_events_values queue : forall s,
  values_in_range s -> values_in_range (flow_state (poll_events s queue)).
Proof.
  induction queue as [|e queue IH]; intros s H; [exact H|].
  cbn [poll_events]. pose proof (handle_event_values s e H) as H1.
  destruct (handle_event s e) as [s1|rc s1]; cbn [flow_state] in *; auto.
Qed.

Lemma poll_left_right_running keys : forall s,
  forallb left_right_key keys = true ->
  exists s', poll_events s (map SDL_KEYDOWN keys) = Running s'.
Proof.
  induction keys as [|k keys IH]; intros s Hall; [eexists; reflexivity|].
  cbn in Hall. apply andb_true_iff in Hall as [Hk Hks].
  cbn [map poll_events].
  destruct k; try discriminate Hk; cbn [handle_event]; apply IH; exact Hks.
Qed.

(** C5.  Starting with the volume and the brightness in [0,100] and the
    save slot in [0, MAX_SAVE_SLOTS), any sequence of Left and Right key
    presses, on whatever zone, is handled to its end and leaves the volume
    and the brightness in [0,100] and the slot in [0, MAX_SAVE_SLOTS). *)
Theorem C5_values_stay_in_range (s : State) (keys : list SDLKey) :
  values_in_range s ->
  forallb left_right_key keys = true ->
  exists s',
    poll_events s (map SDL_KEYDOWN keys) = Running s' /\
    values_in_range s'.
Proof.
  intros Hr Hall.
  destruct (poll_left_right_running keys s Hall) as [s' E].
  exists s'. split; [exact E|].
  pose proof (poll_events_values (map SDL_KEYDOWN keys) s Hr) as H.
  rewrite E in H. exact H.
Qed.

(** The adjustable values stay in range over the whole loop, whatever the
    events. *)
Lemma loop_body_values s queue :
  values_in_range s -> values_in_range (flow_state (fst (loop_body s queue))).
Proof.
  intros H. unfold loop_body.
  assert (T : forall s1, values_in_range s1 ->
                values_in_range
                  (set_screen_refresh false
                     (if screen_refresh (scroll_effect s1)
                      then menu_screen_refresh false (scroll_effect s1)
                      else scroll_effect s1))).
  { intros s1 H1. unfold values_in_range in *.
    unfold scroll_effect, scroll_commit, scroll_advance,
      menu_screen_refresh, emit.
    break_ifs; fields; exact H1. }
  destruct (scroll s =? 0).
  - pose proof (poll_events_values queue s H) as Hp.
    destruct (poll_events s queue) as [s1|rc s1]; cbn [fst flow_state] in *;
      auto.
  - cbn [fst flow_state]. auto.
Qed.

Lemma menu_loop_values arrivals : forall s queue rc s',
  values_in_range s ->
  menu_loop s queue arrivals = Some (rc, s') ->
  values_in_range s'.
Proof.
  induction arrivals as [|now rest IH]; intros s queue rc s' H E;
    cbn [menu_loop] in E; destruct (stop_menu_loop s) eqn:Hs;
    try (injection E as _ <-; exact H); try discriminate E.
  pose proof (loop_body_values s (queue ++ now) H) as Hb.
  destruct (loop_body s (queue ++ now)) as [[s1|rc1 s1] q1];
    cbn [fst flow_state] in Hb.
  - eapply IH; eassumption.
  - injection E as _ <-. exact Hb.
Qed.

End Steps.

(** ** Volume: the value is stored before the command is issued *)

Lemma popen_commands_app l1 l2 :
  popen_commands (l1 ++ l2) = popen_commands l1 ++ popen_commands l2.
Proof. unfold popen_commands. apply flat_map_app. Qed.

Lemma zone_is_fields t s s' :
  idx_menus s' = idx_menus s -> menuItem s' = menuItem s ->
  zone_is t s' = zone_is t s.
Proof. unfold zone_is, current_zone. intros -> ->. reflexivity. Qed.

(** Right on the volume zone. *)
Lemma on_key_right_volume s :
  zone_is MENU_TYPE_VOLUME s = true ->
  let v := if volume_percentage s >? 100 - STEP_CHANGE_VOLUME then 100
           else volume_percentage s + STEP_CHANGE_VOLUME in
  let s' := on_key_right s in
  volume_percentage s' = v /\
  trace s' = trace s ++ call_popen (SHELL_CMD_VOLUME_SET v)
                     :: (if world (ncmd s) then []
                         else [call_MENU_ERROR_PRINTF]) /\
  ncmd s' = S (ncmd s) /\
  zone_is MENU_TYPE_VOLUME s' = true.
Proof.
  intros Hz. cbv zeta. unfold on_key_right. rewrite Hz.
  unfold popen_logged, run_cmd, MENU_ERROR_PRINTF, emit. fields.
  destruct (world (ncmd s)); fields; repeat split;
    try (rewrite <- Hz; apply zone_is_fields; reflexivity).
  rewrite <- app_assoc. reflexivity.
Qed.

(** Left on the volume zone. *)
Lemma on_key_left_volume s :
  zone_is MENU_TYPE_VOLUME s = true ->
  let v := if volume_percentage s <? STEP_CHANGE_VOLUME then 0
           else volume_percentage s - STEP_CHANGE_VOLUME in
  let s' := on_key_left s in
  volume_percentage s' = v /\
  trace s' = trace s ++ call_popen (SHELL_CMD_VOLUME_SET v)
                     :: (if world (ncmd s) then []
                         else [call_MENU_ERROR_PRINTF]) /\
  ncmd s' = S (ncmd s) /\
  zone_is MENU_TYPE_VOLUME s' = true.
Proof.
  intros Hz. cbv zeta. unfold on_key_left. rewrite Hz.
  unfold popen_logged, run_cmd, MENU_ERROR_PRINTF, emit. fields.
  destruct (world (ncmd s)); fields; repeat split;
    try (rewrite <- Hz; apply zone_is_fields; reflexivity).
  rewrite <- app_assoc. reflexivity.
Qed.

(** C2 (amended).  On the volume zone, Right stores the stepped value
    clamped at 100, and Left the stepped value clamped at 0, then issues the
    set-volume command with the stored value; a failure of the command only
    adds an error message, the stored value is the same whether the command
    succeeds or fails.  With the volume at 40 and a step of 10, two Right
    presses issue the command with 50 and then 60 and leave the volume at
    60, whatever the outcome of the two commands. *)
Theorem C2_volume_stored_before_command (s : State) :
  zone_is MENU_TYPE_VOLUME s = true ->
  let up := if volume_percentage s >? 100 - STEP_CHANGE_VOLUME then 100
            else volume_percentage s + STEP_CHANGE_VOLUME in
  let dn := if volume_percentage s <? STEP_CHANGE_VOLUME then 0
            else volume_percentage s - STEP_CHANGE_VOLUME in
  let failure := if world (ncmd s) then [] else [call_MENU_ERROR_PRINTF] in
  (handle_event s (SDL_KEYDOWN SDLK_RIGHT) = Running (on_key_right s) /\
   volume_percentage (on_key_right s) = up /\
   trace (on_key_right s)
     = trace s ++ call_popen (SHELL_CMD_VOLUME_SET up) :: failure) /\
  (handle_event s (SDL_KEYDOWN SDLK_LEFT) = Running (on_key_left s) /\
   volume_percentage (on_key_left s) = dn /\
   trace (on_key_left s)
     = trace s ++ call_popen (SHELL_CMD_VOLUME_SET dn) :: failure) /\
  (STEP_CHANGE_VOLUME = 10 -> volume_percentage s = 40 ->
   let s2 := on_key_right (on_key_right s) in
   poll_events s [SDL_KEYDOWN SDLK_RIGHT; SDL_KEYDOWN SDLK_RIGHT]
     = Running s2 /\
   volume_percentage s2 = 60 /\
   popen_commands (trace s2)
     = popen_commands (trace s)
       ++ [SHELL_CMD_VOLUME_SET 50; SHELL_CMD_VOLUME_SET 60]).
Proof.
  intros Hz. cbv zeta.
  destruct (on_key_right_volume s Hz) as (R1 & R2 & R3 & R4).
  destruct (on_key_left_volume s Hz) as (L1 & L2 & _).
  destruct (on_key_right_volume _ R4) as (Q1 & Q2 & _).
  cbv zeta in *.
  split; [auto|]. split; [auto|]. intros Hstep Hvol.
  rewrite Hstep, Hvol in R1. cbn in R1.
  rewrite R1, Hstep in Q1, Q2. cbn in Q1.
  change (if 50 >? 100 - 10 then 100 else 50 + 10) with 60 in Q2.
  rewrite R2, Hstep, Hvol in Q2.
  change (if 40 >? 100 - 10 then 100 else 40 + 10) with 50 in Q2.
  split; [reflexivity|]. split; [exact Q1|].
  rewrite Q2, !popen_commands_app, <- app_assoc. f_equal.
  destruct (world (ncmd s)), (world (ncmd (on_key_right s))); reflexivity.
Qed.

(** ** The values read at session start *)


Lemma init_brightness p s :
  brightness_percentage (init_menu_system_values p s)
    = snd (fst (read_percentage (brightness_get p)
                  (fst (fst (read_percentage (volume_get p)
                               (res_on_entry p)))))).
Proof.
  unfold init_menu_system_values.
  destruct (read_percentage (volume_get p) (res_on_entry p))
    as [[res v] err]. cbn [fst snd].
  destruct (read_percentage (brightness_get p) res) as [[res' v'] err'].
  unfold MENU_ERROR_PRINTF, emit. break_ifs;
    try destruct (first_usb_zone _ _); reflexivity.
Qed.

Lemma first_char_read_line n out :
  first_char (read_line (S n) out) = first_char out.
Proof. destruct out as [|c out]; cbn; [|destruct (_ =? _)]; reflexivity. Qed.


(** [popen] fails: the default, and an error message. *)
Lemma read_percentage_no_stream res :
  read_percentage None res = (res, 50, true).
Proof. reflexivity. Qed.

(** An answer that is not empty and does not begin with a digit: the
    default, and an error message. *)
Lemma read_percentage_not_digit c out res :
  not_a_digit c = true ->
  snd (fst (read_percentage (Some (String c out)) res)) = 50 /\
  snd (read_percentage (Some (String c out)) res) = true.
Proof.
  intros Hd. unfold read_percentage, fgets.
  change (100 - 1 - 1)%nat with 98%nat.
  rewrite first_char_read_line. cbn [first_char]. rewrite Hd. split;
    reflexivity.
Qed.

(** An empty answer leaves [res] as it was, and the test is made on what
    [res] held before. *)
Lemma read_percentage_empty res :
  read_percentage (Some EmptyString) res
    = if not_a_digit (first_char res) then (res, 50, true)
      else (res, atoi res, false).
Proof. reflexivity. Qed.

Lemma zone_is_unique t t' s :
  zone_is t s = true -> zone_is t' s = true -> t = t'.
Proof. rewrite !zone_is_current. congruence. Qed.



(** C8, on the input where it fails.  The volume query answers "70" and a
    newline; the brightness query runs and prints nothing.  [fgets] then
    leaves in [res] the answer of the volume query, the test on [res[0]]
    passes, and the brightness is set to 70 instead of the default 50; no
    error is printed. *)
Theorem C8_empty_answer_reuses_buffer (s : State) :
  let p := {| volume_get := Some (String "7" (String "0" (String "010" EmptyString)));
              brightness_get := Some EmptyString;
              usb_data_connected_get := false;
              usb_check_is_sharing := false;
              res_on_entry := EmptyString |} in
  brightness_percentage (init_menu_system_values p s) = 70 /\
  brightness_percentage (init_menu_system_values p s) <> 50 /\
  read_percentage (brightness_get p)
    (fst (fst (read_percentage (volume_get p) (res_on_entry p))))
    = (String "7" (String "0" (String "010" EmptyString)), 70, false).
Proof.
  cbv zeta. rewrite init_brightness. cbn [volume_get brightness_get
    res_on_entry]. vm_compute. repeat split; discriminate.
Qed.

(** ** The progress bar *)

Lemma u16_small z : 0 <= z < 65536 -> u16 z = z.
Proof. intros H. unfold u16. apply Z.mod_small. exact H. Qed.

Lemma u8_small z : 0 <= z < 256 -> u8 z = z.
Proof. intros H. unfold u8. apply Z.mod_small. exact H. Qed.

Lemma s16_small z : -32768 <= z < 32768 -> s16 z = z.
Proof. intros H. unfold s16. rewrite Z.mod_small; lia. Qed.

Lemma gt_min a b : (if a >? b then b else a) = Z.min a b.
Proof. destruct (Z.gtb_spec a b); lia. Qed.

Lemma lt_max a b : (if a <? b then b else a) = Z.max a b.
Proof. destruct (Z.ltb_spec a b); lia. Qed.

Lemma counter_length n : 0 <= n -> Z.of_nat (List.length (counter n)) = n.
Proof.
  intros H. unfold counter. rewrite length_map, length_seq. lia.
Qed.

Lemma full_bars_count x y bw pad h l :
  filter is_white (flat_map (full_bar x y bw pad h) l) = [] /\
  List.length (filter (fun f => negb (is_white f))
                 (flat_map (full_bar x y bw pad h) l))
    = List.length l.
Proof.
  induction l as [|i l [IH1 IH2]]; [split; reflexivity|].
  cbn. rewrite IH1, IH2. split; reflexivity.
Qed.

Lemma empty_bars_count lw x y bw pad h nf l :
  List.length (filter is_white
                 (flat_map (empty_bar lw x y bw pad h nf) l))
    = List.length l /\
  List.length (filter (fun f => negb (is_white f))
                 (flat_map (empty_bar lw x y bw pad h nf) l))
    = List.length l.
Proof.
  induction l as [|i l [IH1 IH2]]; [split; reflexivity|].
  cbn. rewrite IH1, IH2. split; reflexivity.
Qed.

(** Number of bars of each kind in the output of the two loops. *)
Lemma bars_count lw x y bw pad h nf n m :
  0 <= n -> 0 <= m ->
  let bars := flat_map (full_bar x y bw pad h) (counter n)
              ++ flat_map (empty_bar lw x y bw pad h nf) (counter m) in
  solid_bars bars = n /\ hollow_bars bars = m.
Proof.
  intros Hn Hm. cbv zeta. unfold solid_bars, hollow_bars.
  rewrite !filter_app, !length_app.
  destruct (full_bars_count x y bw pad h (counter n)) as [F1 F2].
  destruct (empty_bars_count lw x y bw pad h nf (counter m)) as [E1 E2].
  rewrite F1, F2, E1, E2. cbn [List.length].
  rewrite !Nat2Z.inj_add, !counter_length by assumption. cbn. lia.
Qed.

(** The values of the local variables after the "check values" block,
    when no conversion wraps. *)
Lemma draw_progress_bar_spec surface x y width height percentage nb_bars :
  0 < surface_w surface <= 65536 ->
  0 < surface_h surface <= 65536 ->
  0 <= x < 65536 -> 0 <= y < 65536 ->
  0 <= width < 65536 -> 0 <= height < 65536 ->
  0 <= percentage < 256 -> 0 <= nb_bars < 65536 ->
  let percentage' := Z.min percentage 100 in
  let x' := Z.min x (surface_w surface - 1) in
  let y' := Z.min y (surface_h surface - 1) in
  let width' := Z.min (Z.max width 3) (surface_w surface - x' - 1) in
  let height' := Z.min (Z.max height 3) (surface_h surface - y' - 1) in
  let nb_bars_max := (width' + 1) / 4 in
  let nb_bars' := Z.min nb_bars nb_bars_max in
  let bar_width := width' / nb_bars' * 3 / 4 + 1 in
  let bar_padding_x := bar_width / 3 in
  let nb_full_bars := nb_bars' * percentage' / 100 in
  0 < nb_bars' ->
  draw_progress_bar surface x y width height percentage nb_bars
    = Some (flat_map (full_bar x' y' bar_width bar_padding_x height')
              (counter nb_full_bars)
            ++ flat_map
                 (empty_bar 1 x' y' bar_width bar_padding_x height'
                    nb_full_bars)
                 (counter (nb_bars' - nb_full_bars))) /\
  0 <= nb_full_bars <= nb_bars'.
Proof.
  intros HW HH Hx Hy Hw Hh Hp Hn.
  intros percentage' x' y' width' height' nb_bars_max nb_bars' bar_width
    bar_padding_x nb_full_bars Hpos.
  assert (Bw : 0 <= width' < 65536) by (unfold width', x'; lia).
  assert (Bh : 0 <= height' < 65536) by (unfold height', y'; lia).
  assert (B3 : 3 <= width').
  { destruct (Z.lt_ge_cases width' 3) as [Hlt|]; [exfalso|assumption].
    assert (nb_bars_max = 0)
      by (unfold nb_bars_max; apply Z.div_small; lia).
    unfold nb_bars' in Hpos. lia. }
  assert (Bm : 0 <= nb_bars_max <= width').
  { unfold nb_bars_max. split; [apply Z.div_pos; lia|].
    apply Z.div_le_upper_bound; lia. }
  assert (Bq : 0 <= width' / nb_bars' <= width').
  { split; [apply Z.div_pos; lia|].
    apply Z.div_le_upper_bound; [exact Hpos|].
    rewrite <- (Z.mul_1_l width') at 1.
    apply Z.mul_le_mono_nonneg_r; [apply Bw|].
    apply (Zlt_le_succ 0). exact Hpos. }
  assert (Bb : 0 < bar_width < 65536).
  { unfold bar_width.
    assert (0 <= width' / nb_bars' * 3 / 4) by (apply Z.div_pos; lia).
    assert (4 * (width' / nb_bars' * 3 / 4) <= width' / nb_bars' * 3)
      by (apply Z.mul_div_le; lia).
    lia. }
  assert (Bf : 0 <= nb_full_bars <= nb_bars').
  { assert (Hp' : 0 <= percentage' <= 100) by (unfold percentage'; lia).
    unfold nb_full_bars. split.
    - apply Z.div_pos; [|reflexivity].
      apply Z.mul_nonneg_nonneg; [apply Z.lt_le_incl; exact Hpos|apply Hp'].
    - apply Z.div_le_upper_bound; [reflexivity|].
      rewrite (Z.mul_comm 100).
      apply Z.mul_le_mono_nonneg_l;
        [apply Z.lt_le_incl; exact Hpos|apply Hp']. }
  split; [|exact Bf].
  unfold draw_progress_bar.
  rewrite (u16_small x), (u16_small y), (u16_small width),
    (u16_small height), (u8_small percentage), (u16_small nb_bars)
    by assumption.
  cbv zeta. change (1 * 2 + 1) with 3. change (3 + 1) with 4.
  rewrite !gt_min, !lt_max.
  rewrite (u8_small (Z.min percentage 100)) by lia.
  rewrite (u16_small (Z.min x _)), (u16_small (Z.min y _)) by lia.
  rewrite (u16_small (Z.max width 3)), (u16_small (Z.max height 3)) by lia.
  fold x' y'.
  rewrite (u16_small (Z.min (Z.max width 3) _)) by (fold width'; lia).
  rewrite (u16_small (Z.min (Z.max height 3) _)) by (fold height'; lia).
  fold width' height'.
  rewrite (Z.quot_div_nonneg (width' * 3) 3) by lia.
  rewrite Z.div_mul by lia.
  rewrite (Z.quot_div_nonneg (width' + 1) 4) by lia.
  fold nb_bars_max. rewrite (u16_small nb_bars_max) by lia.
  fold nb_bars'. rewrite (u16_small nb_bars') by lia.
  destruct (Z.eqb_spec nb_bars' 0) as [|_]; [lia|].
  rewrite (Z.quot_div_nonneg width' nb_bars') by lia.
  rewrite (Z.quot_div_nonneg (width' / nb_bars' * 3) 4) by lia.
  fold bar_width. rewrite (u16_small bar_width) by lia.
  rewrite (Z.quot_div_nonneg bar_width 3) by lia.
  fold bar_padding_x.
  assert (Bp : 0 <= bar_padding_x < 65536).
  { unfold bar_padding_x. split; [apply Z.div_pos; lia|].
    apply Z.div_lt_upper_bound; lia. }
  rewrite (u16_small bar_padding_x) by lia.
  fold percentage'.
  rewrite (Z.quot_div_nonneg (nb_bars' * percentage') 100)
    by (unfold percentage'; nia).
  fold nb_full_bars. rewrite (u16_small nb_full_bars) by lia.
  reflexivity.
Qed.




(** ** The whole session *)

Lemma init_menu_system_values_locals p s :
  let s' := init_menu_system_values p s in
  scroll s' = scroll s /\ start_scroll s' = start_scroll s /\
  stop_menu_loop s' = stop_menu_loop s /\
  savestate_slot s' = savestate_slot s.
Proof.
  cbv zeta. unfold init_menu_system_values.
  destruct (read_percentage (volume_get p) (res_on_entry p))
    as [[res v] err].
  destruct (read_percentage (brightness_get p) res) as [[res' v'] err'].
  unfold MENU_ERROR_PRINTF, emit. break_ifs;
    try destruct (first_usb_zone _ _); repeat split.
Qed.

(** [FK_RunMenu] reaches its loop with the scroll at rest; a quit event
    among the events of the first frame ends the session there with
    [MENU_RETURN_EXIT]. *)
Lemma FK_RunMenu_quit s currentLayoutIdx_ p now rest :
  In SDL_QUIT now ->
  exists s',
    FK_RunMenu s currentLayoutIdx_ p true (now :: rest)
      = Some (MENU_RETURN_EXIT, s').
Proof.
  intros Hin. unfold FK_RunMenu. cbn [negb].
  match goal with
  | |- context [init_menu_system_values p ?s0] =>
      destruct (init_menu_system_values_locals p s0) as (E1 & E2 & E3 & _)
  end.
  apply menu_loop_quit.
  - fields. exact E3.
  - unfold loop_inv, MENU_ZONE_HEIGHT. fields. rewrite E1, E2. fields. lia.
  - cbn [hd app]. exact Hin.
  - unfold pending_frames. fields. rewrite E1. fields.
    cbn [Z.eqb List.length]. lia.
Qed.


(** ** Beyond the claims: the handlers as a whole *)

Lemma loop_body_eq s queue :
  loop_body s queue
    = if scroll s =? 0 then
        match poll_events s queue with
        | Running s1 => (Running (loop_tail s1), [])
        | Returned rc s1 => (Returned rc s1, [])
        end
      else (Running (loop_tail s), queue).
Proof.
  unfold loop_body, loop_tail. destruct (scroll s =? 0); [|reflexivity].
  destruct (poll_events s queue); reflexivity.
Qed.

Lemma poll_events_app q1 : forall s q2,
  poll_events s (q1 ++ q2)
    = match poll_events s q1 with
      | Running s1 => poll_events s1 q2
      | Returned rc s1 => Returned rc s1
      end.
Proof.
  induction q1 as [|e q1 IH]; intros s q2; [reflexivity|].
  cbn [app poll_events]. destruct (handle_event s e); auto.
Qed.

(** No handler touches the registry, the USB connection flag, the scroll
    offset, the zone shown or the number of layouts. *)
Lemma handle_event_static s e :
  let s' := flow_state (handle_event s e) in
  idx_menus s' = idx_menus s /\
  usb_data_connected s' = usb_data_connected s /\
  scroll s' = scroll s /\ prevItem s' = prevItem s /\
  layouts_size s' = layouts_size s.
Proof.
  cbv zeta. destruct e as [|[]|]; unfold_handlers; break_ifs;
    cbn [flow_state]; fields; repeat split.
Qed.

(** Only Up and Down move the selection or request a scroll. *)
Lemma handle_event_selection s e :
  updown_event e = false ->
  let s' := flow_state (handle_event s e) in
  menuItem s' = menuItem s /\ start_scroll s' = start_scroll s.
Proof.
  intros He. cbv zeta.
  destruct e as [|[]|]; try discriminate He; unfold_handlers; break_ifs;
    cbn [flow_state]; fields; repeat split.
Qed.

Lemma loop_tail_keeps s :
  let s' := loop_tail s in
  idx_menus s' = idx_menus s /\ menuItem s' = menuItem s /\
  usb_data_connected s' = usb_data_connected s /\
  usb_sharing s' = usb_sharing s /\
  menu_confirmation s' = menu_confirmation s /\
  stop_menu_loop s' = stop_menu_loop s /\
  returnCode s' = returnCode s /\ ncmd s' = ncmd s /\
  volume_percentage s' = volume_percentage s /\
  brightness_percentage s' = brightness_percentage s /\
  savestate_slot s' = savestate_slot s /\
  shell_commands (trace s') = shell_commands (trace s).
Proof.
  cbv zeta. unfold loop_tail, scroll_effect, scroll_commit, scroll_advance,
    menu_screen_refresh, emit.
  break_ifs; fields; repeat split;
    unfold shell_commands; rewrite ?flat_map_app; cbn; rewrite ?app_nil_r;
    reflexivity.
Qed.

Lemma loop_tail_scroll s :
  scroll (loop_tail s) = scroll (scroll_effect s) /\
  start_scroll (loop_tail s) = start_scroll (scroll_effect s) /\
  prevItem (loop_tail s) = prevItem (scroll_effect s).
Proof.
  unfold loop_tail, menu_screen_refresh, emit.
  destruct (screen_refresh (scroll_effect s)); repeat split.
Qed.

(** An invariant of the loop body holds at every loop head. *)
Lemma loop_head_invariant (I : State -> Prop) start :
  I start ->
  (forall s queue s' queue',
     I s -> loop_body s queue = (Running s', queue') -> I s') ->
  forall s, loop_head start s -> I s.
Proof.
  intros H0 Hstep s Hs. induction Hs as [|s queue s' queue' _ IH _ E].
  - exact H0.
  - exact (Hstep _ _ _ _ IH E).
Qed.

(** An invariant of the handlers that the rest of the loop body keeps is
    an invariant of the loop body. *)
Lemma loop_body_invariant (I : State -> Prop) :
  (forall s e, I s -> I (flow_state (handle_event s e))) ->
  (forall s, I s -> I (loop_tail s)) ->
  forall s queue s' queue',
    I s -> loop_body s queue = (Running s', queue') -> I s'.
Proof.
  intros He Ht s queue s' queue' Hs E. rewrite loop_body_eq in E.
  assert (Hp : forall q s0, I s0 -> I (flow_state (poll_events s0 q))).
  { induction q as [|e q IH]; intros s0 H0; [exact H0|].
    cbn [poll_events]. pose proof (He s0 e H0) as H1.
    destruct (handle_event s0 e); cbn [flow_state] in *; auto. }
  destruct (scroll s =? 0).
  - pose proof (Hp queue s Hs) as H1.
    destruct (poll_events s queue) as [s1|rc s1]; [|discriminate E].
    injection E as <- _. apply Ht. exact H1.
  - injection E as <- _. apply Ht. exact Hs.
Qed.

(** *** The selection stays inside the registry *)

Lemma index_ok_fields s s' :
  idx_menus s' = idx_menus s -> menuItem s' = menuItem s ->
  index_ok s -> index_ok s'.
Proof. unfold index_ok, nb_menu_zones. intros -> ->. auto. Qed.

Lemma menuItem_next_index s : index_ok s -> index_ok (menuItem_next s).
Proof.
  intros H. rewrite (menuItem_next_spec s H). unfold index_ok in *.
  change (nb_menu_zones (set_menuItem ((menuItem s + 1) mod nb_menu_zones s)
                           s)) with (nb_menu_zones s).
  cbn [menuItem set_menuItem]. apply Z.mod_pos_bound. lia.
Qed.

Lemma menuItem_prev_index s : index_ok s -> index_ok (menuItem_prev s).
Proof.
  intros H. rewrite (menuItem_prev_spec s H). unfold index_ok in *.
  change (nb_menu_zones (set_menuItem ((menuItem s - 1) mod nb_menu_zones s)
                           s)) with (nb_menu_zones s).
  cbn [menuItem set_menuItem]. apply Z.mod_pos_bound. lia.
Qed.

Lemma handle_event_index s e :
  index_ok s -> index_ok (flow_state (handle_event s e)).
Proof.
  intros H. destruct (updown_event e) eqn:He.
  - assert (Hd : index_ok (on_key_down s)).
    { unfold on_key_down. destruct (usb_sharing s); [exact H|].
      pose proof (menuItem_next_index s H) as H1.
      pose proof (menuItem_next_index _ H1) as H2.
      destruct (on_hidden_usb (menuItem_next s));
        [exact H2 | exact H1]. }
    assert (Hu : index_ok (on_key_up s)).
    { unfold on_key_up. destruct (usb_sharing s); [exact H|].
      pose proof (menuItem_prev_index s H) as H1.
      pose proof (menuItem_prev_index _ H1) as H2.
      destruct (on_hidden_usb (menuItem_prev s));
        [exact H2 | exact H1]. }
    destruct e as [|[]|]; try discriminate He; assumption.
  - destruct (handle_event_static s e) as (E1 & _).
    destruct (handle_event_selection s e He) as (E2 & _).
    exact (index_ok_fields _ _ E1 E2 H).
Qed.

Lemma first_usb_zone_spec zones : forall k i,
  first_usb_zone zones k = Some i ->
  k <= i < k + Z.of_nat (List.length zones) /\
  nth_error zones (Z.to_nat (i - k)) = Some MENU_TYPE_USB.
Proof.
  induction zones as [|t zones IH]; intros k i E; [discriminate E|].
  cbn [first_usb_zone] in E. destruct (menu_type_eqb t MENU_TYPE_USB) eqn:Et.
  - injection E as <-. apply menu_type_eqb_eq in Et. subst t.
    rewrite Z.sub_diag. cbn [List.length]. split; [lia|reflexivity].
  - destruct (IH _ _ E) as [Hb Hn]. cbn [List.length]. split; [lia|].
    replace (i - k) with (Z.succ (i - (k + 1))) by lia.
    rewrite Z2Nat.inj_succ by lia. exact Hn.
Qed.

Lemma first_usb_zone_found zones : forall k,
  In MENU_TYPE_USB zones -> exists i, first_usb_zone zones k = Some i.
Proof.
  induction zones as [|t zones IH]; intros k Hin; [destruct Hin|].
  cbn [first_usb_zone]. destruct (menu_type_eqb t MENU_TYPE_USB) eqn:Et;
    [eauto|].
  destruct Hin as [->|Hin]; [|auto].
  destruct MENU_TYPE_USB; discriminate Et.
Qed.

(** *** [init_menu_system_values], field by field *)

(** What [init_menu_system_values] makes of a state, in one expression. *)
Lemma init_menu_system_values_eq p s :
  forget_log (init_menu_system_values p s)
    = let connected := usb_data_connected_get p in
      let sharing := connected && usb_check_is_sharing p in
      let s1 := set_usb_sharing sharing
                  (set_usb_data_connected connected
                     (set_brightness_percentage (probed_brightness p)
                        (set_volume_percentage (probed_volume p)
                           (forget_log s)))) in
      set_menuItem
        (if negb connected then
           (if zone_is MENU_TYPE_USB s then 0 else menuItem s)
         else if sharing then
           match first_usb_zone (idx_menus s) 0 with
           | Some cur_idx => cur_idx
           | None => menuItem s
           end
         else menuItem s) s1.
Proof.
  unfold probed_volume, probed_brightness, init_menu_system_values,
    forget_log.
  destruct (read_percentage (volume_get p) (res_on_entry p))
    as [[res v] err]. cbn [fst snd].
  destruct (read_percentage (brightness_get p) res) as [[res' v'] err'].
  cbn [fst snd]. unfold MENU_ERROR_PRINTF, emit.
  destruct (usb_data_connected_get p), (usb_check_is_sharing p), err, err';
    cbv zeta; fields; cbn [negb andb]; fields;
    repeat match goal with
    | |- context [zone_is MENU_TYPE_USB ?s1] =>
        lazymatch s1 with
        | s => fail
        | _ => rewrite (zone_is_fields MENU_TYPE_USB s s1) by reflexivity
        end
    end;
    try destruct (zone_is MENU_TYPE_USB s); fields;
    try destruct (first_usb_zone (idx_menus s) 0);
    destruct s; reflexivity.
Qed.

Lemma init_menu_system_values_fields p s :
  let s' := init_menu_system_values p s in
  let connected := usb_data_connected_get p in
  let sharing := connected && usb_check_is_sharing p in
  idx_menus s' = idx_menus s /\
  usb_data_connected s' = connected /\
  usb_sharing s' = sharing /\
  menuItem s'
    = (if negb connected then
         (if zone_is MENU_TYPE_USB s then 0 else menuItem s)
       else if sharing then
         match first_usb_zone (idx_menus s) 0 with
         | Some cur_idx => cur_idx
         | None => menuItem s
         end
       else menuItem s) /\
  menu_confirmation s' = menu_confirmation s /\
  returnCode s' = returnCode s /\ ncmd s' = ncmd s /\
  prevItem s' = prevItem s /\ read_write s' = read_write s /\
  aspect_ratio s' = aspect_ratio s /\
  indexChooseLayout s' = indexChooseLayout s /\
  layouts_size s' = layouts_size s /\
  screen_refresh s' = screen_refresh s.
Proof.
  cbv zeta. pose proof (init_menu_system_values_eq p s) as E.
  cbv zeta in E.
  repeat match goal with
  | |- context [?f (init_menu_system_values p s)] =>
      lazymatch f with
      | forget_log => fail
      | _ => change (f (init_menu_system_values p s))
               with (f (forget_log (init_menu_system_values p s)))
      end
  end.
  rewrite E. unfold forget_log. fields. repeat split.
Qed.

Lemma init_menu_system_values_index p s :
  index_ok s -> index_ok (init_menu_system_values p s).
Proof.
  intros H.
  destruct (init_menu_system_values_fields p s) as (E1 & _ & _ & E2 & _).
  cbv zeta in E2. unfold index_ok, nb_menu_zones in *. rewrite E1, E2.
  destruct (negb (usb_data_connected_get p)).
  - destruct (zone_is MENU_TYPE_USB s); lia.
  - destruct (usb_data_connected_get p && usb_check_is_sharing p); [|exact H].
    destruct (first_usb_zone (idx_menus s) 0) as [i|] eqn:E; [|exact H].
    destruct (first_usb_zone_spec _ _ _ E). lia.
Qed.

Lemma FK_RunMenu_prologue_fields s currentLayoutIdx_ p :
  let s0 := FK_RunMenu_prologue s currentLayoutIdx_ p in
  scroll s0 = 0 /\ start_scroll s0 = 0 /\ prevItem s0 = menuItem s0 /\
  stop_menu_loop s0 = false /\ menu_confirmation s0 = false /\
  returnCode s0 = MENU_RETURN_OK /\
  idx_menus s0 = idx_menus s /\
  savestate_slot s0 = Z.rem (savestate_slot s) MAX_SAVE_SLOTS.
Proof.
  cbv zeta. unfold FK_RunMenu_prologue.
  match goal with
  | |- context [init_menu_system_values p ?s1] =>
      destruct (init_menu_system_values_locals p s1)
        as (E1 & E2 & E3 & E4);
      destruct (init_menu_system_values_fields p s1)
        as (F1 & _ & _ & _ & F5 & F6 & _)
  end.
  cbv zeta in *. fields. rewrite E1, E2, E3, E4, F1, F5, F6. fields.
  repeat split.
Qed.

Lemma FK_RunMenu_loop s currentLayoutIdx_ p arrivals :
  FK_RunMenu s currentLayoutIdx_ p true arrivals
    = menu_loop (FK_RunMenu_prologue s currentLayoutIdx_ p) [] arrivals.
Proof. reflexivity. Qed.

Lemma FK_RunMenu_prologue_index s currentLayoutIdx_ p :
  index_ok s -> index_ok (FK_RunMenu_prologue s currentLayoutIdx_ p).
Proof.
  intros H. unfold FK_RunMenu_prologue.
  match goal with
  | |- context [init_menu_system_values p ?s1] =>
      assert (H1 : index_ok (init_menu_system_values p s1))
        by (apply init_menu_system_values_index;
            revert H; apply index_ok_fields; reflexivity)
  end.
  revert H1. apply index_ok_fields; reflexivity.
Qed.

(** X1.  If [menuItem] indexes a registered zone when [FK_RunMenu] is
    entered, it does so every time the loop tests its condition, and after
    any events handled from there: [idx_menus[menuItem]] is never read
    outside the array. *)
Theorem X1_selection_stays_in_registry
    (s0 : State) (currentLayoutIdx_ : Z) (p : Probe) (s : State)
    (queue : list SDL_Event) :
  index_ok s0 ->
  loop_head (FK_RunMenu_prologue s0 currentLayoutIdx_ p) s ->
  index_ok s /\
  index_ok (flow_state (poll_events s queue)) /\
  current_zone (flow_state (poll_events s queue)) <> None.
Proof.
  intros H0 Hs.
  assert (Hi : index_ok s).
  { revert s Hs. apply loop_head_invariant.
    - apply FK_RunMenu_prologue_index. exact H0.
    - apply loop_body_invariant.
      + apply handle_event_index.
      + intros s1 H1. destruct (loop_tail_keeps s1) as (E1 & E2 & _).
        exact (index_ok_fields _ _ E1 E2 H1). }
  assert (Hp : forall q s1, index_ok s1 ->
                 index_ok (flow_state (poll_events s1 q))).
  { induction q as [|e q IH]; intros s1 H1; [exact H1|].
    cbn [poll_events]. pose proof (handle_event_index s1 e H1) as H2.
    destruct (handle_event s1 e); cbn [flow_state] in *; auto. }
  split; [exact Hi|]. split; [apply Hp; exact Hi|].
  specialize (Hp queue s Hi).
  unfold index_ok, nb_menu_zones in Hp. unfold current_zone, zone_at.
  destruct (Z.ltb_spec (menuItem (flow_state (poll_events s queue))) 0);
    [lia|].
  apply nth_error_Some. lia.
Qed.

(** *** The confirmation flag *)

Lemma current_zone_fields s s' :
  idx_menus s' = idx_menus s -> menuItem s' = menuItem s ->
  current_zone s' = current_zone s.
Proof. unfold current_zone. intros -> ->. reflexivity. Qed.

(** Up and Down either do nothing or clear the flag. *)
Lemma updown_confirmation s e :
  updown_event e = true ->
  flow_state (handle_event s e) = s \/
  menu_confirmation (flow_state (handle_event s e)) = false.
Proof.
  intros He. destruct e as [|[]|]; try discriminate He;
    cbn [handle_event flow_state]; unfold on_key_down, on_key_up;
    destruct (usb_sharing s); auto.
Qed.

(** The flag is raised only by Confirm on a zone that has an action. *)
Lemma handle_event_raises s e :
  menu_confirmation (flow_state (handle_event s e)) = true ->
  menu_confirmation s = true \/
  exists t, current_zone s = Some t /\ needs_confirmation t = true.
Proof.
  destruct (menu_confirmation s) eqn:Hc; [auto|]. intros H. right.
  destruct e as [|[]|]; revert H; unfold_handlers; rewrite ?Hc; break_ifs;
    cbn [flow_state]; fields; intros H;
    try congruence;
    match goal with
    | Hz : zone_is ?t s = true |- _ =>
        exists t; split; [apply zone_is_current; exact Hz | reflexivity]
    end.
Qed.

Lemma handle_event_confirmation_ok s e :
  confirmation_ok s -> confirmation_ok (flow_state (handle_event s e)).
Proof.
  intros H Hc. destruct (updown_event e) eqn:He.
  - destruct (updown_confirmation s e He) as [E|E].
    + rewrite E in *. auto.
    + congruence.
  - destruct (handle_event_static s e) as (E1 & _).
    destruct (handle_event_selection s e He) as (E2 & _).
    rewrite (current_zone_fields _ _ E1 E2).
    destruct (handle_event_raises s e Hc); auto.
Qed.

(** X2.  During a session a confirmation is pending only while the zone
    selected is one whose action needs confirming; and whatever event moves
    the selection leaves the flag cleared. *)
Theorem X2_confirmation_belongs_to_zone
    (s0 : State) (currentLayoutIdx_ : Z) (p : Probe) (s : State)
    (e : SDL_Event) :
  loop_head (FK_RunMenu_prologue s0 currentLayoutIdx_ p) s ->
  confirmation_ok s /\
  confirmation_ok (flow_state (handle_event s e)) /\
  (menuItem (flow_state (handle_event s e)) <> menuItem s ->
   menu_confirmation (flow_state (handle_event s e)) = false).
Proof.
  intros Hs.
  assert (Hi : confirmation_ok s).
  { revert s Hs. apply loop_head_invariant.
    - intros Hc.
      destruct (FK_RunMenu_prologue_fields s0 currentLayoutIdx_ p)
        as (_ & _ & _ & _ & E & _).
      cbv zeta in E. congruence.
    - apply loop_body_invariant.
      + apply handle_event_confirmation_ok.
      + intros s1 H1 Hc.
        destruct (loop_tail_keeps s1) as (E1 & E2 & _ & _ & E3 & _).
        rewrite (current_zone_fields _ _ E1 E2). apply H1. congruence. }
  split; [exact Hi|]. split; [apply handle_event_confirmation_ok; exact Hi|].
  intros Hm. destruct (updown_event e) eqn:He.
  - destruct (updown_confirmation s e He) as [E|E]; [|exact E].
    rewrite E in Hm. contradiction.
  - destruct (handle_event_selection s e He) as (E2 & _). contradiction.
Qed.

(** *** A USB share in progress *)

(** While a share is in progress the keys of C9 are dead; the remaining
    events keep the selection. *)
Lemma handle_event_sharing_selection s e :
  usb_sharing s = true ->
  menuItem (flow_state (handle_event s e)) = menuItem s.
Proof.
  intros Hu. destruct (updown_event e) eqn:He.
  - destruct e as [|[]|]; try discriminate He;
      cbn [handle_event flow_state]; unfold on_key_down, on_key_up;
      rewrite Hu; reflexivity.
  - apply handle_event_selection. exact He.
Qed.

(** The share flag is raised only by Confirm on the USB zone. *)
Lemma handle_event_share_raised s e :
  usb_sharing s = false ->
  usb_sharing (flow_state (handle_event s e)) = true ->
  zone_is MENU_TYPE_USB s = true /\ updown_event e = false.
Proof.
  intros Hu. destruct e as [|[]|]; unfold_handlers; rewrite ?Hu; break_ifs;
    cbn [flow_state]; fields; intros H; try congruence; auto.
Qed.

Lemma handle_event_share_ok s e :
  share_ok s -> share_ok (flow_state (handle_event s e)).
Proof.
  intros H Hu'. destruct (handle_event_static s e) as (E1 & _).
  destruct (usb_sharing s) eqn:Hu.
  - rewrite (zone_is_fields _ _ _ E1 (handle_event_sharing_selection s e Hu)).
    auto.
  - destruct (handle_event_share_raised s e Hu Hu') as [Hz He].
    destruct (handle_event_selection s e He) as (E2 & _).
    rewrite (zone_is_fields _ _ _ E1 E2). exact Hz.
Qed.

(** What one event can do while a share is in progress. *)
Lemma handle_event_while_sharing s e :
  usb_sharing s = true -> zone_is MENU_TYPE_USB s = true ->
  e <> SDL_QUIT ->
  exists s', handle_event s e = Running s' /\
    stop_menu_loop s' = stop_menu_loop s /\
    returnCode s' = returnCode s /\
    (shell_commands (trace s') = shell_commands (trace s) \/
     shell_commands (trace s')
       = shell_commands (trace s) ++ [SHELL_CMD_USB_UNMOUNT]).
Proof.
  intros Hu Hz Hq.
  assert (Hn : forall t, t <> MENU_TYPE_USB -> zone_is t s = false).
  { intros t Ht. destruct (zone_is t s) eqn:E; [|reflexivity].
    elim Ht. exact (zone_is_unique _ _ _ E Hz). }
  destruct e as [|[]|]; try (elim Hq; reflexivity); unfold_handlers;
    fields;
    rewrite ?Hu, ?Hz,
      ?(Hn MENU_TYPE_VOLUME), ?(Hn MENU_TYPE_BRIGHTNESS),
      ?(Hn MENU_TYPE_SAVE), ?(Hn MENU_TYPE_LOAD),
      ?(Hn MENU_TYPE_ASPECT_RATIO), ?(Hn MENU_TYPE_THEME) by discriminate;
    break_ifs; fields; rewrite ?Hu;
    eexists; (split; [reflexivity|]); fields; repeat split; auto;
    unfold shell_commands; rewrite ?flat_map_app; cbn [flat_map app];
    rewrite ?app_nil_r; auto.
Qed.

(** X3.  When the USB zone is registered, a share in progress keeps the USB
    zone selected at every loop head of a session; and there, no event but
    a quit event stops the loop or changes the return code, and the only
    command an event can run is the unmount command. *)
Theorem X3_share_keeps_usb_zone
    (s0 : State) (currentLayoutIdx_ : Z) (p : Probe) (s : State)
    (e : SDL_Event) :
  In MENU_TYPE_USB (idx_menus s0) ->
  loop_head (FK_RunMenu_prologue s0 currentLayoutIdx_ p) s ->
  usb_sharing s = true ->
  zone_is MENU_TYPE_USB s = true /\
  (e <> SDL_QUIT ->
   exists s', handle_event s e = Running s' /\
     stop_menu_loop s' = stop_menu_loop s /\
     returnCode s' = returnCode s /\
     (shell_commands (trace s') = shell_commands (trace s) \/
      shell_commands (trace s')
        = shell_commands (trace s) ++ [SHELL_CMD_USB_UNMOUNT])).
Proof.
  intros Hin Hs Hu.
  assert (Hi : share_ok s).
  { clear Hu. revert s Hs. apply loop_head_invariant.
    - unfold FK_RunMenu_prologue. intros Hu.
      match goal with
      | |- context [init_menu_system_values p ?s1] =>
          destruct (init_menu_system_values_fields p s1)
            as (E1 & _ & E3 & E4 & _);
          assert (Hin1 : In MENU_TYPE_USB (idx_menus s1)) by exact Hin;
          set (si := init_menu_system_values p s1) in *
      end.
      cbv zeta in E3, E4.
      assert (Hu1 : usb_sharing si = true) by exact Hu.
      rewrite E3 in Hu1. apply andb_true_iff in Hu1 as [Hc Hsh].
      rewrite Hc, Hsh in E4. cbn [negb andb] in E4.
      match type of E4 with
      | context [first_usb_zone ?z 0] =>
          destruct (first_usb_zone_found z 0 Hin1) as [i Ei];
          rewrite Ei in E4;
          destruct (first_usb_zone_spec _ _ _ Ei) as [Hb Hn]
      end.
      apply zone_is_current. unfold current_zone, zone_at. fields.
      rewrite E1, E4. destruct (Z.ltb_spec i 0); [lia|].
      rewrite Z.sub_0_r in Hn. exact Hn.
    - apply loop_body_invariant.
      + apply handle_event_share_ok.
      + intros s1 H1 Hu1.
        destruct (loop_tail_keeps s1) as (E1 & E2 & _ & E4 & _).
        rewrite (zone_is_fields _ _ _ E1 E2). apply H1. congruence. }
  split; [exact (Hi Hu)|].
  apply handle_event_while_sharing; auto.
Qed.

(** *** The zone shown and the zone selected *)

(** Up and Down either do nothing or request a scroll. *)
Lemma updown_requests_scroll s e :
  updown_event e = true ->
  flow_state (handle_event s e) = s \/
  start_scroll (flow_state (handle_event s e)) = 1 \/
  start_scroll (flow_state (handle_event s e)) = -1.
Proof.
  intros He. destruct e as [|[]|]; try discriminate He;
    cbn [handle_event flow_state]; unfold on_key_down, on_key_up;
    destruct (usb_sharing s); auto.
Qed.

Lemma poll_events_rest queue : forall s,
  (start_scroll s = 0 -> prevItem s = menuItem s) ->
  let s' := flow_state (poll_events s queue) in
  start_scroll s' = 0 -> prevItem s' = menuItem s'.
Proof.
  induction queue as [|e queue IH]; intros s H; [exact H|].
  cbv zeta. cbn [poll_events].
  assert (H1 : start_scroll (flow_state (handle_event s e)) = 0 ->
               prevItem (flow_state (handle_event s e))
               = menuItem (flow_state (handle_event s e))).
  { destruct (updown_event e) eqn:He.
    - destruct (updown_requests_scroll s e He) as [E|[E|E]];
        [rewrite E; exact H | lia | lia].
    - destruct (handle_event_static s e) as (_ & _ & _ & E1 & _).
      destruct (handle_event_selection s e He) as (E2 & E3).
      rewrite E1, E2, E3. exact H. }
  destruct (handle_event s e) as [s1|rc s1]; cbn [flow_state] in *.
  - apply IH. exact H1.
  - exact H1.
Qed.

Lemma scroll_effect_menuItem s : menuItem (scroll_effect s) = menuItem s.
Proof.
  unfold scroll_effect.
  destruct (scroll_commit_fields (scroll_advance s)) as (_ & _ & ->).
  destruct (scroll_advance_fields s) as (_ & -> & _). reflexivity.
Qed.

Lemma loop_body_scroll_ok s queue s' queue' :
  scroll_ok s -> loop_body s queue = (Running s', queue') -> scroll_ok s'.
Proof.
  intros (Hl & Hr & k & Hk) E.
  split; [exact (loop_body_inv _ _ _ _ Hl E)|].
  rewrite loop_body_eq in E. unfold rest_ok.
  assert (T : forall s1,
            scroll s1 = scroll s ->
            (scroll s1 <> 0 -> start_scroll s1 = 0) ->
            (scroll s1 = 0 -> start_scroll s1 = 0 ->
             prevItem s1 = menuItem s1) ->
            (scroll (loop_tail s1) = 0 ->
             prevItem (loop_tail s1) = menuItem (loop_tail s1)) /\
            exists k', scroll (loop_tail s1) = SCROLL_SPEED_PX * k').
  { intros s1 Es Hs1 Hp1.
    destruct (loop_tail_scroll s1) as (-> & _ & ->).
    destruct (loop_tail_keeps s1) as (_ & -> & _).
    destruct Hl as [Hb _]. unfold MENU_ZONE_HEIGHT, SCROLL_SPEED_PX in *.
    destruct (Z.eq_dec (scroll s1) 0) as [Hz|Hnz];
      [destruct (Z.eq_dec (start_scroll s1) 0) as [Hz'|Hnz']|].
    - rewrite scroll_effect_rest by assumption.
      split; [auto|]. exists 0. lia.
    - destruct (scroll_effect_spec s1)
        as (Hd & Ea & Hab & Hc & Hkk & _);
        [split; [unfold MENU_ZONE_HEIGHT; lia | tauto]
        | right; exact Hnz' |].
      cbv zeta in *. unfold MENU_ZONE_HEIGHT, SCROLL_SPEED_PX in *.
      rewrite Hz in Ea, Hab.
      assert (Z.abs (scroll (scroll_advance s1)) = 30)
        by (destruct Hd as [Hd|Hd]; rewrite Hd in Ea; lia).
      destruct (Hkk ltac:(lia)) as [E1 _].
      split; [lia|].
      destruct Hd as [Hd|Hd]; rewrite Hd in Ea;
        [exists 1 | exists (-1)]; lia.
    - destruct (scroll_effect_spec s1)
        as (Hd & Ea & Hab & Hc & Hkk & _);
        [split; [unfold MENU_ZONE_HEIGHT; lia | exact Hs1]
        | left; exact Hnz |].
      cbv zeta in *. unfold MENU_ZONE_HEIGHT, SCROLL_SPEED_PX in *.
      assert (Ha : Z.abs (scroll (scroll_advance s1))
                   = Z.abs (scroll s1) + 30).
      { unfold scroll_direction in Ea.
        destruct (Z.eqb_spec (scroll s1) 0) as [|_]; [contradiction|].
        destruct (Z.lt_total (scroll s1) 0) as [Hlt|[|Hgt]];
          [|contradiction|].
        - rewrite Z.sgn_neg in Ea by assumption. lia.
        - rewrite Z.sgn_pos in Ea by assumption. lia. }
      destruct (Z.eq_dec (Z.abs (scroll (scroll_advance s1))) 240)
        as [E240|E240].
      + destruct (Hc E240) as [E1 E2]. split; [auto|]. exists 0. lia.
      + destruct (Hkk ltac:(lia)) as [E1 _]. split; [lia|].
        rewrite E1.
        destruct (Z.lt_total (scroll s1) 0) as [Hlt|[|Hgt]];
          [exists (k - 1) | contradiction | exists (k + 1)]; lia. }
  destruct Hl as [Hb Hss].
  destruct (Z.eqb_spec (scroll s) 0) as [Hz|Hnz].
  - pose proof (poll_events_scroll queue s) as Hps.
    pose proof (poll_events_rest queue s (fun _ => Hr Hz)) as Hpr.
    destruct (poll_events s queue) as [s1|rc s1]; [|discriminate E].
    cbn [flow_state] in *. injection E as <- _.
    apply T; [exact Hps | intros; lia | intros _; exact Hpr].
  - injection E as <- _. apply T; [reflexivity | auto | contradiction].
Qed.

(** X4.  At every loop head of a session the scroll offset is a multiple
    of 30 strictly inside (-240, 240), no scroll request is pending, and
    whenever the offset is 0 the zone shown ([prevItem]) is the zone
    selected ([menuItem]). *)
Theorem X4_shown_zone_is_selected_at_rest
    (s0 : State) (currentLayoutIdx_ : Z) (p : Probe) (s : State) :
  loop_head (FK_RunMenu_prologue s0 currentLayoutIdx_ p) s ->
  - MENU_ZONE_HEIGHT < scroll s < MENU_ZONE_HEIGHT /\
  start_scroll s = 0 /\
  (scroll s = 0 -> prevItem s = menuItem s) /\
  exists k, scroll s = SCROLL_SPEED_PX * k.
Proof.
  intros Hs.
  assert (Hi : scroll_ok s).
  { revert s Hs. apply loop_head_invariant.
    - destruct (FK_RunMenu_prologue_fields s0 currentLayoutIdx_ p)
        as (E1 & E2 & E3 & _).
      cbv zeta in *. unfold scroll_ok, loop_inv, rest_ok, MENU_ZONE_HEIGHT.
      rewrite E1, E2. split; [split; [lia|reflexivity]|].
      split; [intros _; exact E3|]. exists 0.
      unfold SCROLL_SPEED_PX. lia.
    - apply loop_body_scroll_ok. }
  destruct Hi as ((H1 & H2) & H3 & H4). auto.
Qed.

(** *** The USB zone while USB is not connected *)

Lemma hidden_usb_at_zone s i :
  hidden_usb_at s i = true ->
  0 <= i < nb_menu_zones s /\
  nth_error (idx_menus s) (Z.to_nat i) = Some MENU_TYPE_USB /\
  usb_data_connected s = false.
Proof.
  unfold hidden_usb_at, zone_at, nb_menu_zones.
  destruct (Z.ltb_spec i 0); [discriminate|].
  destruct (nth_error (idx_menus s) (Z.to_nat i)) as [t|] eqn:E;
    [|discriminate].
  destruct t; try discriminate. intros Hc.
  assert (Z.to_nat i < List.length (idx_menus s))%nat
    by (apply nth_error_Some; congruence).
  repeat split; try lia. destruct (usb_data_connected s); [discriminate|].
  reflexivity.
Qed.

Lemma hidden_usb_at_unique s i j :
  NoDup (idx_menus s) ->
  hidden_usb_at s i = true -> hidden_usb_at s j = true -> i = j.
Proof.
  intros Hnd Hi Hj.
  destruct (hidden_usb_at_zone s i Hi) as ((Hi0 & Hi1) & Hin & _).
  destruct (hidden_usb_at_zone s j Hj) as ((Hj0 & Hj1) & Hjn & _).
  assert (Z.to_nat i = Z.to_nat j).
  { rewrite NoDup_nth_error in Hnd. apply Hnd; [|congruence].
    unfold nb_menu_zones in Hi1. lia. }
  lia.
Qed.

Lemma hidden_usb_at_fields s s' i :
  idx_menus s' = idx_menus s ->
  usb_data_connected s' = usb_data_connected s ->
  hidden_usb_at s' i = hidden_usb_at s i.
Proof. unfold hidden_usb_at. intros -> ->. reflexivity. Qed.

Lemma on_key_down_menuItem s :
  usb_sharing s = false -> index_ok s ->
  let n := nb_menu_zones s in
  let land := (menuItem s + 1) mod n in
  menuItem (on_key_down s)
    = if hidden_usb_at s land then (land + 1) mod n else land.
Proof.
  intros Hu Hm n land.
  assert (Hd : 0 <= land < n) by (apply Z.mod_pos_bound; unfold n;
                                  unfold index_ok in Hm; lia).
  unfold on_key_down. rewrite Hu, (menuItem_next_spec s Hm).
  rewrite on_hidden_usb_at. fold n. fold land.
  cbn [menuItem set_menuItem].
  change (hidden_usb_at (set_menuItem land s)) with (hidden_usb_at s).
  destruct (hidden_usb_at s land); [|reflexivity].
  rewrite menuItem_next_spec by exact Hd. reflexivity.
Qed.

Lemma on_key_up_menuItem s :
  usb_sharing s = false -> index_ok s ->
  let n := nb_menu_zones s in
  let land := (menuItem s - 1) mod n in
  menuItem (on_key_up s)
    = if hidden_usb_at s land then (land - 1) mod n else land.
Proof.
  intros Hu Hm n land.
  assert (Hd : 0 <= land < n) by (apply Z.mod_pos_bound; unfold n;
                                  unfold index_ok in Hm; lia).
  unfold on_key_up. rewrite Hu, (menuItem_prev_spec s Hm).
  rewrite on_hidden_usb_at. fold n. fold land.
  cbn [menuItem set_menuItem].
  change (hidden_usb_at (set_menuItem land s)) with (hidden_usb_at s).
  destruct (hidden_usb_at s land); [|reflexivity].
  rewrite menuItem_prev_spec by exact Hd. reflexivity.
Qed.

(** The skip of Up and Down cannot end on the hidden zone. *)
Lemma skip_leaves_hidden_zone s m' :
  NoDup (idx_menus s) -> index_ok s ->
  hidden_usb_at s (menuItem s) = false ->
  (forall land, 0 <= land < nb_menu_zones s ->
     (land = (menuItem s + 1) mod nb_menu_zones s /\
      m' = (land + 1) mod nb_menu_zones s) \/
     (land = (menuItem s - 1) mod nb_menu_zones s /\
      m' = (land - 1) mod nb_menu_zones s) ->
     hidden_usb_at s land = true ->
     hidden_usb_at s m' = false).
Proof.
  intros Hnd Hm Hcur land Hl Hstep Hland.
  destruct (hidden_usb_at s m') eqn:Hm'; [exfalso|reflexivity].
  pose proof (hidden_usb_at_unique s land m' Hnd Hland Hm') as E.
  unfold index_ok in Hm. set (n := nb_menu_zones s) in *.
  assert (n = 1).
  { destruct Hstep as [[_ E2]|[_ E2]]; rewrite <- E in E2.
    - destruct (Z.eq_dec (land + 1) n) as [En|En]; [|
        rewrite Z.mod_small in E2 by lia; lia].
      rewrite En, Z.mod_same in E2 by lia. lia.
    - destruct (Z.eq_dec land 0) as [E0|E0]; [|
        rewrite Z.mod_small in E2 by lia; lia].
      rewrite E0 in E2. rewrite <- (wrap_prev n 0) in E2 by lia.
      cbn in E2. lia. }
  assert (land = menuItem s) by lia. congruence.
Qed.

Lemma handle_event_hidden_usb s e :
  NoDup (idx_menus s) -> index_ok s ->
  on_hidden_usb s = false ->
  on_hidden_usb (flow_state (handle_event s e)) = false.
Proof.
  intros Hnd Hm Hh. rewrite on_hidden_usb_at in *.
  destruct (handle_event_static s e) as (E1 & E2 & _).
  rewrite (hidden_usb_at_fields _ _ _ E1 E2).
  destruct (updown_event e) eqn:He.
  - destruct (usb_sharing s) eqn:Hu.
    + rewrite handle_event_sharing_selection by exact Hu. exact Hh.
    + assert (Hb : forall x, 0 <= x mod nb_menu_zones s < nb_menu_zones s)
        by (intros; apply Z.mod_pos_bound; unfold index_ok in Hm; lia).
      assert (Hd : hidden_usb_at s (menuItem (on_key_down s)) = false).
      { rewrite (on_key_down_menuItem s Hu Hm). cbv zeta.
        destruct (hidden_usb_at s ((menuItem s + 1) mod nb_menu_zones s))
          eqn:Hl; [|exact Hl].
        apply (skip_leaves_hidden_zone s _ Hnd Hm Hh
                 ((menuItem s + 1) mod nb_menu_zones s));
          [apply Hb | left; split; reflexivity | exact Hl]. }
      assert (Hp : hidden_usb_at s (menuItem (on_key_up s)) = false).
      { rewrite (on_key_up_menuItem s Hu Hm). cbv zeta.
        destruct (hidden_usb_at s ((menuItem s - 1) mod nb_menu_zones s))
          eqn:Hl; [|exact Hl].
        apply (skip_leaves_hidden_zone s _ Hnd Hm Hh
                 ((menuItem s - 1) mod nb_menu_zones s));
          [apply Hb | right; split; reflexivity | exact Hl]. }
      destruct e as [|[]|]; try discriminate He; assumption.
  - destruct (handle_event_selection s e He) as (-> & _). exact Hh.
Qed.

(** X5.  With zones registered once each and a first zone that is not the
    USB zone, the USB zone is never the selected zone while USB is not
    connected: not at any loop head of a session, nor after any events
    handled from there. *)
Theorem X5_unconnected_usb_zone_never_selected
    (s0 : State) (currentLayoutIdx_ : Z) (p : Probe) (s : State)
    (queue : list SDL_Event) :
  NoDup (idx_menus s0) ->
  index_ok s0 ->
  zone_at (idx_menus s0) 0 <> Some MENU_TYPE_USB ->
  loop_head (FK_RunMenu_prologue s0 currentLayoutIdx_ p) s ->
  usb_data_connected s = false ->
  zone_is MENU_TYPE_USB s = false /\
  zone_is MENU_TYPE_USB (flow_state (poll_events s queue)) = false.
Proof.
  intros Hnd Hm Hz Hs Hc.
  set (K := fun s => NoDup (idx_menus s) /\ index_ok s /\
                     on_hidden_usb s = false).
  assert (Ke : forall s1 e, K s1 -> K (flow_state (handle_event s1 e))).
  { intros s1 e (K1 & K2 & K3).
    destruct (handle_event_static s1 e) as (E1 & _).
    split; [rewrite E1; exact K1|].
    split; [apply handle_event_index; exact K2|].
    apply handle_event_hidden_usb; assumption. }
  assert (Kp : forall q s1, K s1 -> K (flow_state (poll_events s1 q))).
  { induction q as [|e q IH]; intros s1 H1; [exact H1|].
    cbn [poll_events]. pose proof (Ke s1 e H1) as H2.
    destruct (handle_event s1 e); cbn [flow_state] in *; auto. }
  assert (Hk : K s).
  { revert s Hs Hc. intros s Hs _. revert s Hs.
    apply loop_head_invariant.
    - split; [|split].
      + destruct (FK_RunMenu_prologue_fields s0 currentLayoutIdx_ p)
          as (_ & _ & _ & _ & _ & _ & -> & _). exact Hnd.
      + apply FK_RunMenu_prologue_index. exact Hm.
      + rewrite on_hidden_usb_at. unfold FK_RunMenu_prologue.
        match goal with
        | |- context [init_menu_system_values p ?s1] =>
            destruct (init_menu_system_values_fields p s1)
              as (E1 & E2 & _ & E4 & _);
            assert (Ez : zone_is MENU_TYPE_USB s1
                         = zone_is MENU_TYPE_USB s0)
              by (apply zone_is_fields; reflexivity);
            set (si := init_menu_system_values p s1) in *
        end.
        cbv zeta in E4. fields. unfold hidden_usb_at. fields.
        rewrite E1, E2, E4, Ez.
        destruct (usb_data_connected_get p); cbn [negb].
        * match goal with
          | |- context [zone_at ?a ?b] => destruct (zone_at a b) as [[]|]
          end; reflexivity.
        * destruct (zone_is MENU_TYPE_USB s0) eqn:Hzs.
          -- destruct (zone_at (idx_menus s0) 0) as [[]|];
               try reflexivity. elim Hz. reflexivity.
          -- unfold zone_is, current_zone in Hzs.
             destruct (zone_at (idx_menus s0) (menuItem s0)) as [[]|];
               try reflexivity. discriminate Hzs.
    - apply loop_body_invariant; [exact Ke|].
      intros s1 (K1 & K2 & K3).
      destruct (loop_tail_keeps s1) as (E1 & E2 & E3 & _).
      split; [rewrite E1; exact K1|].
      split; [exact (index_ok_fields _ _ E1 E2 K2)|].
      rewrite on_hidden_usb_at in *.
      rewrite (hidden_usb_at_fields _ _ _ E1 E3), E2. exact K3. }
  assert (Hf : forall s1, K s1 -> usb_data_connected s1 = false ->
                 zone_is MENU_TYPE_USB s1 = false).
  { intros s1 (_ & _ & K3) Hc1. unfold on_hidden_usb in K3.
    rewrite Hc1 in K3. cbn [negb] in K3. rewrite andb_true_r in K3.
    exact K3. }
  split; [apply Hf; assumption|].
  apply Hf; [apply Kp; exact Hk|].
  assert (Hpc : forall q s1, usb_data_connected
                               (flow_state (poll_events s1 q))
                             = usb_data_connected s1).
  { induction q as [|e q IH]; intros s1; [reflexivity|].
    cbn [poll_events].
    destruct (handle_event_static s1 e) as (_ & E & _).
    destruct (handle_event s1 e); cbn [flow_state] in *;
      [rewrite IH|]; exact E. }
  rewrite Hpc. exact Hc.
Qed.

(** *** A scroll runs to its end *)

Lemma pending_frames_rest s :
  loop_inv s -> (pending_frames s = 0 <-> scroll s = 0).
Proof.
  unfold loop_inv, pending_frames, MENU_ZONE_HEIGHT, SCROLL_SPEED_PX.
  intros [H _]. destruct (Z.eqb_spec (scroll s) 0) as [Hz|Hnz]; [tauto|].
  split; [|contradiction]. intros E.
  assert (0 < (240 + 30 - 1 - Z.abs (scroll s)) / 30)
    by (apply Z.div_str_pos; lia).
  lia.
Qed.

Lemma scrolling_tail_commits s :
  loop_inv s -> scroll s <> 0 -> scroll (loop_tail s) = 0 ->
  prevItem (loop_tail s) = menuItem s.
Proof.
  intros [Hb Hs] Hnz. destruct (loop_tail_scroll s) as (-> & _ & ->).
  destruct (scroll_effect_spec s) as (_ & _ & Hab & Hc & Hk & _);
    [split; [exact Hb | auto] | left; exact Hnz |].
  cbv zeta in *. intros E.
  destruct (Z.eq_dec (Z.abs (scroll (scroll_advance s))) MENU_ZONE_HEIGHT)
    as [Ea|Ea].
  - apply Hc. exact Ea.
  - destruct (Hk ltac:(lia)) as [E1 _]. rewrite E1 in E. lia.
Qed.

Lemma scroll_runs_to_end frames : forall s queue rest,
  stop_menu_loop s = false ->
  loop_inv s ->
  Z.of_nat (List.length frames) = pending_frames s ->
  exists s',
    menu_loop s queue (frames ++ rest)
      = menu_loop s' (queue ++ List.concat frames) rest /\
    (scroll s = 0 -> s' = s) /\
    (scroll s <> 0 -> prevItem s' = menuItem s) /\
    scroll s' = 0 /\ start_scroll s' = 0 /\
    menuItem s' = menuItem s /\ ncmd s' = ncmd s /\
    stop_menu_loop s' = false /\
    menu_confirmation s' = menu_confirmation s /\
    volume_percentage s' = volume_percentage s /\
    brightness_percentage s' = brightness_percentage s /\
    savestate_slot s' = savestate_slot s /\
    shell_commands (trace s') = shell_commands (trace s).
Proof.
  induction frames as [|now frames IH]; intros s queue rest Hstop Hinv Hlen.
  - exists s. cbn [List.length Z.of_nat] in Hlen. symmetry in Hlen.
    apply (pending_frames_rest s Hinv) in Hlen.
    cbn [app List.concat]. rewrite app_nil_r. destruct Hinv as [_ Hss].
    repeat split; auto. intros H. contradiction.
  - assert (Hnz : scroll s <> 0).
    { intros Hz. apply (pending_frames_rest s Hinv) in Hz.
      rewrite Hz in Hlen. cbn [List.length] in Hlen. lia. }
    destruct (loop_body_scrolling s (queue ++ now) Hinv Hnz)
      as (s1 & E & Es & Ep).
    pose proof (loop_body_inv _ _ _ _ Hinv E) as Hinv1.
    assert (E1 : s1 = loop_tail s).
    { rewrite loop_body_eq in E.
      destruct (Z.eqb_spec (scroll s) 0); [contradiction|].
      injection E as <-. reflexivity. }
    destruct (IH s1 (queue ++ now) rest) as (s' & Em & R0 & R);
      [congruence | exact Hinv1 | cbn [List.length] in Hlen; lia |].
    exists s'. split.
    + cbn [app menu_loop]. rewrite Hstop, E, Em.
      cbn [List.concat]. rewrite app_assoc. reflexivity.
    + destruct (loop_tail_keeps s)
        as (_ & K2 & _ & _ & K5 & K6 & _ & K8 & K9 & K10 & K11 & K12).
      rewrite <- E1 in *.
      destruct R as (R1 & R2 & R3 & R4 & R5 & R6 & R7 & R8 & R9 & R10 & R11).
      split; [intros; contradiction|].
      split; [|repeat split; congruence].
      intros _. destruct (Z.eq_dec (scroll s1) 0) as [Hz1|Hnz1].
      * rewrite (R0 Hz1). rewrite E1 in Hz1 |- *.
        exact (scrolling_tail_commits s Hinv Hnz Hz1).
      * rewrite (R1 Hnz1). exact K2.
Qed.

(** X6.  A scroll under way runs to its end without interruption: during
    the [pending_frames] frames it still takes, at most 8, the loop handles
    no event (those that arrive wait in the queue, in order), runs no
    command, keeps the selection, the confirmation flag and the adjustable
    values, and it ends with the offset at 0 and the selected zone shown.  A
    scroll just started (offset 30 or -30) takes 7 more frames. *)
Theorem X6_scroll_runs_to_end
    (s : State) (queue : list SDL_Event) (frames rest : list (list SDL_Event)) :
  stop_menu_loop s = false ->
  loop_inv s ->
  scroll s <> 0 ->
  Z.of_nat (List.length frames) = pending_frames s ->
  (1 <= pending_frames s <= 8) /\
  (Z.abs (scroll s) = SCROLL_SPEED_PX -> pending_frames s = 7) /\
  exists s',
    menu_loop s queue (frames ++ rest)
      = menu_loop s' (queue ++ List.concat frames) rest /\
    scroll s' = 0 /\ prevItem s' = menuItem s /\
    menuItem s' = menuItem s /\ ncmd s' = ncmd s /\
    menu_confirmation s' = menu_confirmation s /\
    volume_percentage s' = volume_percentage s /\
    brightness_percentage s' = brightness_percentage s /\
    savestate_slot s' = savestate_slot s /\
    shell_commands (trace s') = shell_commands (trace s).
Proof.
  intros Hstop Hinv Hnz Hlen.
  assert (Hp : (1 <= pending_frames s <= 8) /\
               (Z.abs (scroll s) = SCROLL_SPEED_PX -> pending_frames s = 7)).
  { destruct Hinv as [Hb _].
    unfold pending_frames, MENU_ZONE_HEIGHT, SCROLL_SPEED_PX in *.
    destruct (Z.eqb_spec (scroll s) 0) as [|_]; [contradiction|].
    split; [split|].
    - apply Z.div_le_lower_bound; lia.
    - apply Z.lt_succ_r. apply Z.div_lt_upper_bound; lia.
    - intros ->. reflexivity. }
  destruct Hp as [Hp1 Hp2]. split; [exact Hp1|]. split; [exact Hp2|].
  destruct (scroll_runs_to_end frames s queue rest Hstop Hinv Hlen)
    as (s' & Em & _ & R1 & R2 & R3 & R4 & R5 & R6 & R7 & R8 & R9 & R10 & R11).
  exists s'. repeat split; auto.
Qed.

(** *** No input *)

Lemma loop_tail_rest s :
  scroll s = 0 -> start_scroll s = 0 ->
  loop_tail s
    = set_screen_refresh false
        (if screen_refresh s then menu_screen_refresh false s else s).
Proof.
  intros Hz Hz'. unfold loop_tail. rewrite scroll_effect_rest by assumption.
  reflexivity.
Qed.

(** X7.  The loop has no time-out: from a loop head at rest, any number of
    frames without events leaves the session open, and after the first of
    them (which redraws if a redraw was requested) a frame without events
    changes nothing at all. *)
Theorem X7_no_input_no_change (s : State) (n : nat) :
  stop_menu_loop s = false ->
  scroll s = 0 -> start_scroll s = 0 ->
  menu_loop s [] (repeat [] n) = None /\
  loop_body (loop_tail s) [] = (Running (loop_tail s), []) /\
  ncmd (loop_tail s) = ncmd s.
Proof.
  intros Hstop Hz Hz'. split; [|split].
  - revert s Hstop Hz Hz'. induction n as [|n IH]; intros s Hstop Hz Hz';
      cbn [repeat menu_loop]; rewrite Hstop; [reflexivity|].
    cbn [app]. rewrite loop_body_eq, Hz. cbn [Z.eqb poll_events].
    destruct (loop_tail_keeps s) as (_ & _ & _ & _ & _ & K6 & _).
    destruct (loop_tail_scroll s) as (K1 & K2 & _).
    rewrite scroll_effect_rest in K1, K2 by assumption.
    apply IH; congruence.
  - rewrite loop_body_eq.
    destruct (loop_tail_scroll s) as (K1 & K2 & _).
    rewrite scroll_effect_rest in K1, K2 by assumption.
    rewrite K1, Hz. cbn [Z.eqb poll_events]. f_equal. f_equal.
    rewrite (loop_tail_rest (loop_tail s)) by congruence.
    rewrite (loop_tail_rest s) by assumption.
    destruct (screen_refresh s); reflexivity.
  - destruct (loop_tail_keeps s) as (_ & _ & _ & _ & _ & _ & _ & K & _).
    exact K.
Qed.

(** *** Return codes *)

Lemma poll_events_returned queue : forall s rc s',
  poll_events s queue = Returned rc s' -> rc = MENU_RETURN_EXIT.
Proof.
  induction queue as [|e queue IH]; intros s rc s' E; [discriminate E|].
  cbn [poll_events] in E. destruct (handle_event s e) as [s1|rc1 s1] eqn:E1.
  - eauto.
  - injection E as <- _. eapply handle_event_returned; eassumption.
Qed.

Lemma handle_event_not_error s e :
  returnCode s <> MENU_RETURN_ERROR ->
  returnCode (flow_state (handle_event s e)) <> MENU_RETURN_ERROR.
Proof.
  intros H. destruct e as [|[]|]; unfold_handlers; break_ifs;
    cbn [flow_state]; fields; auto; discriminate.
Qed.

Lemma menu_loop_not_error arrivals : forall s queue rc s',
  returnCode s <> MENU_RETURN_ERROR ->
  menu_loop s queue arrivals = Some (rc, s') ->
  rc <> MENU_RETURN_ERROR.
Proof.
  induction arrivals as [|now rest IH]; intros s queue rc s' H E;
    cbn [menu_loop] in E; destruct (stop_menu_loop s);
    try (injection E as <- _; exact H); try discriminate E.
  destruct (loop_body s (queue ++ now)) as [[s1|rc1 s1] q1] eqn:Eb.
  - apply (IH _ _ _ _ (loop_body_invariant
                         (fun s => returnCode s <> MENU_RETURN_ERROR)
                         handle_event_not_error
                         (fun s1 H1 =>
                            eq_ind_r (fun r => r <> MENU_RETURN_ERROR) H1
                              (proj1 (proj2 (proj2 (proj2 (proj2 (proj2
                                 (proj2 (loop_tail_keeps s1)))))))))
                         _ _ _ _ H Eb) E).
  - injection E as <- _. rewrite loop_body_eq in Eb.
    destruct (scroll s =? 0); [|discriminate Eb].
    destruct (poll_events s (queue ++ now)) as [s2|rc2 s2] eqn:Ep;
      [discriminate Eb|].
    injection Eb as <- _. rewrite (poll_events_returned _ _ _ _ Ep).
    discriminate.
Qed.

(** X8.  When [FK_RunMenu] returns, its result is [MENU_RETURN_ERROR]
    exactly when the background surface could not be created; the loop
    itself only ever ends with [MENU_RETURN_OK] or [MENU_RETURN_EXIT].  In
    the error case no event has been handled and no command was run. *)
Theorem X8_error_only_without_background
    (s : State) (currentLayoutIdx_ : Z) (p : Probe)
    (background_screen_ok : bool) (arrivals : list (list SDL_Event))
    (rc : ReturnCode) (s' : State) :
  FK_RunMenu s currentLayoutIdx_ p background_screen_ok arrivals
    = Some (rc, s') ->
  (rc = MENU_RETURN_ERROR <-> background_screen_ok = false) /\
  (background_screen_ok = false ->
   shell_commands (trace s')
     = shell_commands (trace (FK_RunMenu_prologue s currentLayoutIdx_ p)) /\
   forget_log s'
     = forget_log (FK_RunMenu_prologue s currentLayoutIdx_ p)).
Proof.
  intros E. destruct background_screen_ok.
  - rewrite FK_RunMenu_loop in E. split; [|discriminate].
    split; [|discriminate]. intros ->. exfalso.
    apply (menu_loop_not_error _ _ _ _ _) in E; [auto|].
    destruct (FK_RunMenu_prologue_fields s currentLayoutIdx_ p)
      as (_ & _ & _ & _ & _ & -> & _). discriminate.
  - unfold FK_RunMenu in E. cbn [negb] in E. injection E as <- <-.
    split; [tauto|]. intros _. fold (FK_RunMenu_prologue s currentLayoutIdx_ p).
    unfold MENU_ERROR_PRINTF, emit, shell_commands, forget_log. fields.
    rewrite flat_map_app. cbn [flat_map app]. rewrite app_nil_r.
    split; reflexivity.
Qed.

(** *** Cancel *)

Lemma ask_then_cancel s :
  menu_confirmation s = false ->
  on_key_b (ask_confirmation s) = set_screen_refresh true s.
Proof.
  intros H. unfold on_key_b, ask_confirmation. destruct s. cbn in *.
  subst. reflexivity.
Qed.

(** X9.  Cancel undoes Confirm: on a zone whose action needs confirming,
    with no confirmation pending, Confirm followed by Cancel gives back the
    state it started from, but for the redraw request; nothing is run.
    Cancel with no confirmation pending changes nothing, and Cancel never
    stops the loop or moves the selection. *)
Theorem X9_cancel_undoes_confirm (s : State) (t : ENUM_MENU_TYPE) :
  current_zone s = Some t ->
  needs_confirmation t = true ->
  menu_confirmation s = false ->
  poll_events s [SDL_KEYDOWN SDLK_a; SDL_KEYDOWN SDLK_b]
    = Running (set_screen_refresh true s) /\
  handle_event s (SDL_KEYDOWN SDLK_b) = Running s /\
  (forall s1, stop_menu_loop (on_key_b s1) = stop_menu_loop s1 /\
              menuItem (on_key_b s1) = menuItem s1 /\
              trace (on_key_b s1) = trace s1 /\
              menu_confirmation (on_key_b s1) = false).
Proof.
  intros Hz Ht Hc. split; [|split].
  - cbn [poll_events handle_event].
    rewrite (on_key_return_unconfirmed s Hc), Hz, Ht.
    rewrite (ask_then_cancel s Hc). reflexivity.
  - cbn [handle_event]. unfold on_key_b. rewrite Hc. reflexivity.
  - intros s1. unfold on_key_b. destruct (menu_confirmation s1) eqn:E;
      fields; auto.
Qed.

(** *** Left and Right, there and back *)

Lemma zone_is_other t t' s :
  zone_is t s = true -> t' <> t -> zone_is t' s = false.
Proof.
  intros H Hn. destruct (zone_is t' s) eqn:E; [|reflexivity].
  elim Hn. exact (zone_is_unique _ _ _ E H).
Qed.

(** Left and Right on the Save zone or the Load zone. *)
Lemma on_key_slot s :
  zone_is MENU_TYPE_SAVE s = true \/ zone_is MENU_TYPE_LOAD s = true ->
  on_key_right s
    = set_screen_refresh true
        (set_savestate_slot (Z.rem (savestate_slot s + 1) MAX_SAVE_SLOTS) s)
  /\
  on_key_left s
    = set_screen_refresh true
        (set_savestate_slot
           (if savestate_slot s =? 0 then MAX_SAVE_SLOTS - 1
            else savestate_slot s - 1) s).
Proof.
  intros [Hz|Hz]; unfold on_key_right, on_key_left;
    rewrite (zone_is_other _ MENU_TYPE_VOLUME _ Hz),
      (zone_is_other _ MENU_TYPE_BRIGHTNESS _ Hz) by discriminate;
    rewrite ?Hz; try rewrite (zone_is_other _ MENU_TYPE_SAVE _ Hz)
      by discriminate; rewrite ?Hz; split; reflexivity.
Qed.

Lemma slot_keys_keep_zone s s' :
  idx_menus s' = idx_menus s -> menuItem s' = menuItem s ->
  zone_is MENU_TYPE_SAVE s = true \/ zone_is MENU_TYPE_LOAD s = true ->
  zone_is MENU_TYPE_SAVE s' = true \/ zone_is MENU_TYPE_LOAD s' = true.
Proof.
  intros E1 E2. rewrite !(zone_is_fields _ _ _ E1 E2). auto.
Qed.

Lemma right_presses_slot n : forall s,
  zone_is MENU_TYPE_SAVE s = true \/ zone_is MENU_TYPE_LOAD s = true ->
  0 <= savestate_slot s < MAX_SAVE_SLOTS ->
  exists s',
    poll_events s (repeat (SDL_KEYDOWN SDLK_RIGHT) n) = Running s' /\
    savestate_slot s' = (savestate_slot s + Z.of_nat n) mod MAX_SAVE_SLOTS.
Proof.
  unfold MAX_SAVE_SLOTS.
  induction n as [|n IH]; intros s Hz Hr.
  - exists s. split; [reflexivity|]. rewrite Z.add_0_r, Z.mod_small; lia.
  - cbn [repeat poll_events handle_event].
    destruct (on_key_slot s Hz) as [-> _]. unfold MAX_SAVE_SLOTS.
    rewrite Z.rem_mod_nonneg by lia.
    pose proof (Z.mod_pos_bound (savestate_slot s + 1) 9 ltac:(lia)) as Hb.
    match goal with
    | |- context [poll_events ?s1 _] =>
        destruct (IH s1) as (s' & E & Es);
        [ apply (slot_keys_keep_zone s); auto | exact Hb |]
    end.
    exists s'. split; [exact E|]. rewrite Es. fields.
    rewrite Zplus_mod_idemp_l. f_equal. lia.
Qed.

(** X10.  The save slot goes round: on the Save zone or the Load zone,
    with the slot in [0, MAX_SAVE_SLOTS), Right then Left and Left then
    Right give the slot back, [MAX_SAVE_SLOTS] presses of Right give it
    back too, and neither key runs a command or touches the confirmation
    flag. *)
Theorem X10_slot_goes_round (s : State) :
  zone_is MENU_TYPE_SAVE s = true \/ zone_is MENU_TYPE_LOAD s = true ->
  0 <= savestate_slot s < MAX_SAVE_SLOTS ->
  savestate_slot (on_key_left (on_key_right s)) = savestate_slot s /\
  savestate_slot (on_key_right (on_key_left s)) = savestate_slot s /\
  (exists s',
     poll_events s (repeat (SDL_KEYDOWN SDLK_RIGHT) 9) = Running s' /\
     savestate_slot s' = savestate_slot s) /\
  trace (on_key_right s) = trace s /\ trace (on_key_left s) = trace s /\
  menu_confirmation (on_key_right s) = menu_confirmation s /\
  menu_confirmation (on_key_left s) = menu_confirmation s.
Proof.
  intros Hz Hr. destruct (on_key_slot s Hz) as [Er El].
  assert (Hzr : zone_is MENU_TYPE_SAVE (on_key_right s) = true \/
                zone_is MENU_TYPE_LOAD (on_key_right s) = true)
    by (rewrite Er; apply (slot_keys_keep_zone s); auto).
  assert (Hzl : zone_is MENU_TYPE_SAVE (on_key_left s) = true \/
                zone_is MENU_TYPE_LOAD (on_key_left s) = true)
    by (rewrite El; apply (slot_keys_keep_zone s); auto).
  destruct (on_key_slot _ Hzr) as [_ Elr].
  destruct (on_key_slot _ Hzl) as [Erl _].
  unfold MAX_SAVE_SLOTS in *.
  split; [|split; [|split]].
  - rewrite Elr, Er. fields. rewrite Z.rem_mod_nonneg by lia.
    destruct (Z.eq_dec (savestate_slot s) 8) as [E|E].
    + rewrite E. reflexivity.
    + rewrite Z.mod_small by lia.
      destruct (Z.eqb_spec (savestate_slot s + 1) 0); lia.
  - rewrite Erl, El. fields.
    destruct (Z.eqb_spec (savestate_slot s) 0) as [E|E].
    + rewrite E. reflexivity.
    + rewrite Z.rem_mod_nonneg by lia. rewrite Z.mod_small; lia.
  - destruct (right_presses_slot 9 s Hz Hr) as (s' & E & Es).
    exists s'. split; [exact E|]. rewrite Es. unfold MAX_SAVE_SLOTS.
    change (Z.of_nat 9) with (1 * 9). rewrite Z.mod_add by lia.
    apply Z.mod_small. lia.
  - rewrite Er, El. repeat split.
Qed.

(** X11.  The volume does not always come back: on the volume zone, with
    the volume in [0,100] and a step in (0,100], Right then Left gives the
    volume back exactly when Right was not clamped (volume <= 100 - step),
    and Left then Right exactly when Left was not clamped
    (step <= volume). *)
Theorem X11_volume_round_trip (s : State) :
  zone_is MENU_TYPE_VOLUME s = true ->
  0 <= volume_percentage s <= 100 ->
  0 < STEP_CHANGE_VOLUME <= 100 ->
  (volume_percentage (on_key_left (on_key_right s)) = volume_percentage s
   <-> volume_percentage s <= 100 - STEP_CHANGE_VOLUME) /\
  (volume_percentage (on_key_right (on_key_left s)) = volume_percentage s
   <-> STEP_CHANGE_VOLUME <= volume_percentage s).
Proof.
  intros Hz Hv Hs.
  destruct (on_key_right_volume s Hz) as (R1 & _ & _ & R4).
  destruct (on_key_left_volume s Hz) as (L1 & _ & _ & L4).
  destruct (on_key_left_volume _ R4) as (LR & _).
  destruct (on_key_right_volume _ L4) as (RL & _).
  cbv zeta in *. rewrite LR, RL, R1, L1.
  split.
  - destruct (Z.gtb_spec (volume_percentage s) (100 - STEP_CHANGE_VOLUME)).
    + destruct (Z.ltb_spec 100 STEP_CHANGE_VOLUME); lia.
    + destruct (Z.ltb_spec (volume_percentage s + STEP_CHANGE_VOLUME)
                  STEP_CHANGE_VOLUME); lia.
  - destruct (Z.ltb_spec (volume_percentage s) STEP_CHANGE_VOLUME).
    + destruct (Z.gtb_spec 0 (100 - STEP_CHANGE_VOLUME)); lia.
    + destruct (Z.gtb_spec (volume_percentage s - STEP_CHANGE_VOLUME)
                  (100 - STEP_CHANGE_VOLUME)); lia.
Qed.

(** *** The confirmation flag and the other keys *)

Lemma left_right_keeps s k :
  left_right_key k = true ->
  exists s', handle_event s (SDL_KEYDOWN k) = Running s' /\
    menu_confirmation s' = menu_confirmation s /\
    menuItem s' = menuItem s /\ idx_menus s' = idx_menus s /\
    stop_menu_loop s' = stop_menu_loop s /\
    returnCode s' = returnCode s.
Proof.
  intros Hk. destruct k; try discriminate Hk; unfold_handlers; break_ifs;
    eexists; (split; [reflexivity|]); fields; repeat split.
Qed.

Lemma left_right_run_keeps keys : forall s,
  forallb left_right_key keys = true ->
  exists s', poll_events s (map SDL_KEYDOWN keys) = Running s' /\
    menu_confirmation s' = menu_confirmation s /\
    menuItem s' = menuItem s /\ idx_menus s' = idx_menus s /\
    stop_menu_loop s' = stop_menu_loop s /\
    returnCode s' = returnCode s.
Proof.
  induction keys as [|k keys IH]; intros s Hall.
  - exists s. repeat split.
  - cbn in Hall. apply andb_true_iff in Hall as [Hk Hks].
    destruct (left_right_keeps s k Hk) as (s1 & E & A1 & A2 & A3 & A4 & A5).
    destruct (IH s1 Hks) as (s' & E' & B1 & B2 & B3 & B4 & B5).
    exists s'. cbn [map poll_events]. rewrite E.
    repeat split; congruence.
Qed.

(** X12.  Left and Right do not withdraw a pending confirmation.  On the
    Save zone or the Load zone, once the question is up, any run of Left
    and Right presses changes the slot and leaves the question up, and the
    next Confirm ends the session for the slot as changed, without asking
    again. *)
Theorem X12_confirmation_survives_left_right
    (s : State) (keys : list SDLKey) :
  zone_is MENU_TYPE_SAVE s = true \/ zone_is MENU_TYPE_LOAD s = true ->
  menu_confirmation s = true ->
  forallb left_right_key keys = true ->
  exists s1 s2,
    poll_events s (map SDL_KEYDOWN keys) = Running s1 /\
    menu_confirmation s1 = true /\
    poll_events s (map SDL_KEYDOWN keys ++ [SDL_KEYDOWN SDLK_a])
      = Running s2 /\
    stop_menu_loop s2 = true /\
    savestate_slot s2 = savestate_slot s1 /\
    returnCode s2 = returnCode s.
Proof.
  intros Hz Hc Hall.
  destruct (left_right_run_keeps keys s Hall)
    as (s1 & E & A1 & A2 & A3 & A4 & A5).
  assert (Hz1 : zone_is MENU_TYPE_SAVE s1 = true \/
                zone_is MENU_TYPE_LOAD s1 = true)
    by (apply (slot_keys_keep_zone s); auto).
  exists s1. eexists. split; [exact E|]. split; [congruence|].
  rewrite poll_events_app, E. cbn [poll_events handle_event].
  unfold on_key_return. rewrite A1, Hc.
  destruct Hz1 as [Hz1|Hz1].
  - rewrite Hz1. split; [reflexivity|]. unfold menu_screen_refresh, emit.
    fields. repeat split. exact A5.
  - rewrite (zone_is_other _ MENU_TYPE_SAVE _ Hz1) by discriminate.
    rewrite Hz1. split; [reflexivity|]. unfold menu_screen_refresh, emit.
    fields. repeat split. exact A5.
Qed.

(** *** The two toggles *)

Lemma on_key_return_usb s :
  zone_is MENU_TYPE_USB s = true ->
  on_key_return s
    = if menu_confirmation s then
        let cmd := if usb_sharing s then SHELL_CMD_USB_UNMOUNT
                   else SHELL_CMD_USB_MOUNT in
        let s1 := set_ncmd (S (ncmd s))
                    (emit (call_executeRawPath cmd)
                       (menu_screen_refresh true s)) in
        let s2 := if world (ncmd s)
                  then set_usb_sharing (negb (usb_sharing s)) s1
                  else MENU_ERROR_PRINTF s1 in
        Running (set_screen_refresh true (set_menu_confirmation false s2))
      else Running (ask_confirmation s).
Proof.
  intros Hz. unfold on_key_return.
  rewrite (zone_is_other _ MENU_TYPE_SAVE _ Hz),
    (zone_is_other _ MENU_TYPE_LOAD _ Hz), Hz by discriminate.
  destruct (menu_confirmation s); [|reflexivity].
  unfold run_cmd, menu_screen_refresh, emit. fields.
  destruct (world (ncmd s)); reflexivity.
Qed.

(** X13.  A confirmed press on the USB zone runs the unmount command when
    a share is in progress and the mount command otherwise, flips
    [usb_sharing] exactly when the command succeeds, clears the
    confirmation and never ends the session.  With both commands
    succeeding, four Confirm presses mount and unmount (or unmount and
    mount) and leave [usb_sharing] as it was. *)
Theorem X13_usb_toggle (s : State) :
  zone_is MENU_TYPE_USB s = true ->
  let cmd := if usb_sharing s then SHELL_CMD_USB_UNMOUNT
             else SHELL_CMD_USB_MOUNT in
  let back := if usb_sharing s then SHELL_CMD_USB_MOUNT
              else SHELL_CMD_USB_UNMOUNT in
  (menu_confirmation s = true ->
   exists s', handle_event s (SDL_KEYDOWN SDLK_a) = Running s' /\
     usb_sharing s'
       = (if world (ncmd s) then negb (usb_sharing s) else usb_sharing s) /\
     menu_confirmation s' = false /\
     stop_menu_loop s' = stop_menu_loop s /\
     returnCode s' = returnCode s /\
     shell_commands (trace s') = shell_commands (trace s) ++ [cmd]) /\
  (menu_confirmation s = false ->
   world (ncmd s) = true -> world (S (ncmd s)) = true ->
   exists s', poll_events s (repeat (SDL_KEYDOWN SDLK_a) 4) = Running s' /\
     usb_sharing s' = usb_sharing s /\
     stop_menu_loop s' = stop_menu_loop s /\
     shell_commands (trace s')
       = shell_commands (trace s) ++ [cmd; back]).
Proof.
  intros Hz cmd back.
  assert (One : forall s1, zone_is MENU_TYPE_USB s1 = true ->
            menu_confirmation s1 = true ->
            exists s', on_key_return s1 = Running s' /\
              usb_sharing s'
                = (if world (ncmd s1) then negb (usb_sharing s1)
                   else usb_sharing s1) /\
              menu_confirmation s' = false /\
              stop_menu_loop s' = stop_menu_loop s1 /\
              returnCode s' = returnCode s1 /\
              shell_commands (trace s')
                = shell_commands (trace s1)
                  ++ [if usb_sharing s1 then SHELL_CMD_USB_UNMOUNT
                      else SHELL_CMD_USB_MOUNT] /\
              ncmd s' = S (ncmd s1) /\
              zone_is MENU_TYPE_USB s' = true).
  { intros s1 Hz1 Hc1. rewrite (on_key_return_usb s1 Hz1), Hc1. cbv zeta.
    eexists. split; [reflexivity|].
    unfold MENU_ERROR_PRINTF, menu_screen_refresh, emit, shell_commands.
    destruct (world (ncmd s1)); fields;
      rewrite ?flat_map_app; cbn [flat_map app]; rewrite ?app_nil_r;
      repeat split;
      try (rewrite <- Hz1; apply zone_is_fields; reflexivity). }
  assert (Ask : forall s1, zone_is MENU_TYPE_USB s1 = true ->
            menu_confirmation s1 = false ->
            on_key_return s1 = Running (ask_confirmation s1)).
  { intros s1 Hz1 Hc1. rewrite (on_key_return_usb s1 Hz1), Hc1.
    reflexivity. }
  split.
  - intros Hc. destruct (One s Hz Hc) as (s' & E & A).
    exists s'. split; [exact E|]. tauto.
  - intros Hc Hw1 Hw2.
    cbn [repeat poll_events handle_event].
    rewrite (Ask s Hz Hc).
    set (a1 := ask_confirmation s).
    assert (Hz1 : zone_is MENU_TYPE_USB a1 = true)
      by (rewrite <- Hz; apply zone_is_fields; reflexivity).
    destruct (One a1 Hz1 eq_refl)
      as (s2 & E2 & B1 & B2 & B3 & _ & B5 & B6 & B7).
    rewrite E2. rewrite (Ask s2 B7 B2).
    set (a3 := ask_confirmation s2).
    assert (Hz3 : zone_is MENU_TYPE_USB a3 = true)
      by (rewrite <- B7; apply zone_is_fields; reflexivity).
    destruct (One a3 Hz3 eq_refl)
      as (s4 & E4 & C1 & C2 & C3 & _ & C5 & _).
    rewrite E4. exists s4. split; [reflexivity|].
    unfold a3, a1, ask_confirmation in *. fields.
    rewrite Hw1 in B1. rewrite B6, Hw2 in C1.
    split; [rewrite C1, B1; apply negb_involutive|].
    split; [congruence|].
    rewrite C5, B5, B1, <- app_assoc. unfold cmd, back.
    destruct (usb_sharing s); reflexivity.
Qed.


(** *** The USB state read at session start *)

(** What [init_menu_system_values] stores does not depend on what the
    buffer [res] holds on entry, unless [fgets] leaves the buffer as it
    found it: on an empty answer to the volume query, or on an empty answer
    to the brightness query when the volume query could not be run. *)
Lemma probed_with_buffer (p : Probe) (res' : string) :
  volume_get p <> Some EmptyString ->
  (volume_get p = None -> brightness_get p <> Some EmptyString) ->
  probed_volume (with_buffer res' p) = probed_volume p /\
  probed_brightness (with_buffer res' p) = probed_brightness p.
Proof.
  unfold probed_volume, probed_brightness, with_buffer, read_percentage,
    fgets.
  cbn [volume_get brightness_get res_on_entry].
  intros Hv Hb.
  destruct (volume_get p) as [[|c out]|].
  - contradiction Hv. reflexivity.
  - split; reflexivity.
  - cbn [fst snd].
    destruct (brightness_get p) as [[|c out]|].
    + contradiction (Hb eq_refl). reflexivity.
    + split; reflexivity.
    + split; reflexivity.
Qed.

(** X14.  After [init_menu_system_values]: a share is recorded only
    together with a connection; a share with the USB zone registered
    selects the first USB zone; when USB is not connected the USB zone can
    be selected only if it is zone 0, where a selected USB zone is sent.
    Running the function again on the same answers, whatever the
    uninitialised buffer [res] then holds, changes nothing but the log,
    provided [fgets] does not leave the buffer as it found it: the answer
    to the volume query is not empty, and the answer to the brightness
    query is not empty either when the volume query could not be run. *)
Theorem X14_usb_state_after_probe (p : Probe) (s : State) :
  let s' := init_menu_system_values p s in
  (usb_sharing s' = true -> usb_data_connected s' = true) /\
  (usb_sharing s' = true -> In MENU_TYPE_USB (idx_menus s) ->
     zone_is MENU_TYPE_USB s' = true /\
     first_usb_zone (idx_menus s) 0 = Some (menuItem s')) /\
  (usb_data_connected s' = false -> zone_is MENU_TYPE_USB s' = true ->
     menuItem s' = 0) /\
  (forall res',
     volume_get p <> Some EmptyString ->
     (volume_get p = None -> brightness_get p <> Some EmptyString) ->
     forget_log (init_menu_system_values (with_buffer res' p) s')
     = forget_log s').
Proof.
  cbv zeta.
  destruct (init_menu_system_values_fields p s)
    as (E1 & E2 & E3 & E4 & _).
  cbv zeta in *.
  set (s' := init_menu_system_values p s) in *.
  assert (Hzone : forall i, menuItem s' = i ->
            zone_is MENU_TYPE_USB s'
            = match zone_at (idx_menus s) i with
              | Some t => menu_type_eqb t MENU_TYPE_USB
              | None => false
              end).
  { intros i <-. unfold zone_is, current_zone. rewrite E1. reflexivity. }
  split; [|split; [|split]].
  - rewrite E2, E3. intros H. apply andb_true_iff in H. tauto.
  - intros Hu Hin. rewrite E3 in Hu. apply andb_true_iff in Hu as [Hc Hs].
    rewrite Hc, Hs in E4. cbn [negb andb] in E4.
    destruct (first_usb_zone_found (idx_menus s) 0 Hin) as [i Ei].
    rewrite Ei in E4. rewrite E4. split; [|exact Ei].
    destruct (first_usb_zone_spec _ _ _ Ei) as [Hb Hn].
    rewrite (Hzone i E4). unfold zone_at.
    destruct (Z.ltb_spec i 0); [lia|]. rewrite Z.sub_0_r in Hn.
    rewrite Hn. reflexivity.
  - intros Hc Hz. rewrite E2 in Hc. rewrite Hc in E4. cbn [negb] in E4.
    destruct (zone_is MENU_TYPE_USB s) eqn:Hzs; [exact E4|].
    rewrite (Hzone _ E4) in Hz. unfold zone_is, current_zone in Hzs.
    congruence.
  - intros res' Hv Hb.
    rewrite (init_menu_system_values_eq (with_buffer res' p) s'). cbv zeta.
    destruct (probed_with_buffer p res' Hv Hb) as [-> ->].
    change (usb_data_connected_get (with_buffer res' p))
      with (usb_data_connected_get p).
    change (usb_check_is_sharing (with_buffer res' p))
      with (usb_check_is_sharing p).
    fold s'. rewrite E1.
    assert (Em : (if negb (usb_data_connected_get p)
                  then if zone_is MENU_TYPE_USB s' then 0 else menuItem s'
                  else
                    if usb_data_connected_get p && usb_check_is_sharing p
                    then match first_usb_zone (idx_menus s) 0 with
                         | Some cur_idx => cur_idx
                         | None => menuItem s'
                         end
                    else menuItem s') = menuItem s').
    { destruct (negb (usb_data_connected_get p)).
      - destruct (zone_is MENU_TYPE_USB s) eqn:Hzs.
        + rewrite E4. destruct (zone_is MENU_TYPE_USB s'); reflexivity.
        + rewrite (Hzone _ E4). unfold zone_is, current_zone in Hzs.
          rewrite Hzs. reflexivity.
      - destruct (usb_data_connected_get p && usb_check_is_sharing p);
          [|reflexivity].
        destruct (first_usb_zone (idx_menus s) 0); [|reflexivity].
        symmetry. exact E4. }
    rewrite Em. clear Em Hzone.
    pose proof (init_menu_system_values_eq p s) as E. cbv zeta in E.
    fold s' in E.
    assert (Ev : volume_percentage s' = probed_volume p)
      by (change (volume_percentage s')
            with (volume_percentage (forget_log s')); rewrite E;
          reflexivity).
    assert (Eb : brightness_percentage s' = probed_brightness p)
      by (change (brightness_percentage s')
            with (brightness_percentage (forget_log s')); rewrite E;
          reflexivity).
    rewrite <- Ev, <- Eb, <- E3, <- E2.
    unfold forget_log. destruct s'. reflexivity.
Qed.

(** *** A whole session *)

(** X15.  If the save slot is not negative when [FK_RunMenu] is entered
    and the percentages read from the probe are within [0,100], then
    whatever the events, the state in which [FK_RunMenu] returns has the
    volume and the brightness in [0,100] and the slot in
    [0, MAX_SAVE_SLOTS). *)
Theorem X15_session_keeps_ranges
    (s : State) (currentLayoutIdx_ : Z) (p : Probe)
    (background_screen_ok : bool) (arrivals : list (list SDL_Event))
    (rc : ReturnCode) (s' : State) :
  0 <= STEP_CHANGE_VOLUME -> 0 <= STEP_CHANGE_BRIGHTNESS ->
  0 <= savestate_slot s ->
  0 <= probed_volume p <= 100 ->
  0 <= probed_brightness p <= 100 ->
  FK_RunMenu s currentLayoutIdx_ p background_screen_ok arrivals
    = Some (rc, s') ->
  values_in_range s'.
Proof.
  intros Hsv Hsb Hslot Hv Hb E.
  assert (H0 : values_in_range (FK_RunMenu_prologue s currentLayoutIdx_ p)).
  { unfold FK_RunMenu_prologue, values_in_range.
    match goal with
    | |- context [init_menu_system_values p ?s1] =>
        pose proof (init_menu_system_values_eq p s1) as Ei;
        destruct (init_menu_system_values_locals p s1)
          as (_ & _ & _ & E4);
        set (si := init_menu_system_values p s1) in *
    end.
    cbv zeta in *. fields.
    change (volume_percentage si) with (volume_percentage (forget_log si)).
    change (brightness_percentage si)
      with (brightness_percentage (forget_log si)).
    rewrite Ei. fields. rewrite E4.
    split; [exact Hv|]. split; [exact Hb|].
    unfold MAX_SAVE_SLOTS. apply Z.rem_bound_pos; lia. }
  destruct background_screen_ok.
  - rewrite FK_RunMenu_loop in E.
    exact (menu_loop_values Hsv Hsb _ _ _ _ _ H0 E).
  - unfold FK_RunMenu in E. cbn [negb] in E. injection E as _ <-.
    exact H0.
Qed.

(** *** More on the progress bar *)

(** The clamped number of bars, as [draw_progress_bar] computes it. *)
Lemma draw_progress_bar_none surface x y width height percentage nb_bars :
  0 < surface_w surface <= 65536 ->
  0 <= x < 65536 -> 0 <= width < 65536 -> 0 <= nb_bars < 65536 ->
  let x' := Z.min x (surface_w surface - 1) in
  let width' := Z.min (Z.max width 3) (surface_w surface - x' - 1) in
  let nb_bars' := Z.min nb_bars ((width' + 1) / 4) in
  draw_progress_bar surface x y width height percentage nb_bars = None
  <-> nb_bars' = 0.
Proof.
  intros HW Hx Hw Hn x' width' nb_bars'.
  assert (Bw : 0 <= width' < 65536) by (unfold width', x'; lia).
  assert (Bm : 0 <= (width' + 1) / 4 < 65536).
  { split; [apply Z.div_pos; lia|]. apply Z.div_lt_upper_bound; lia. }
  unfold draw_progress_bar.
  rewrite (u16_small x), (u16_small width), (u16_small nb_bars)
    by assumption.
  cbv zeta. change (1 * 2 + 1) with 3. change (3 + 1) with 4.
  rewrite !gt_min, !lt_max.
  rewrite (u16_small (Z.min x _)) by lia.
  rewrite (u16_small (Z.max width 3)) by lia.
  fold x'. rewrite (u16_small (Z.min (Z.max width 3) _))
    by (fold width'; lia).
  fold width'.
  rewrite (Z.quot_div_nonneg (width' * 3) 3) by lia.
  rewrite Z.div_mul by lia.
  rewrite (Z.quot_div_nonneg (width' + 1) 4) by lia.
  rewrite (u16_small ((width' + 1) / 4)) by lia.
  fold nb_bars'. rewrite (u16_small nb_bars') by (unfold nb_bars'; lia).
  destruct (Z.eqb_spec nb_bars' 0) as [E|E].
  - split; intros _; [exact E | reflexivity].
  - split; intros H; [discriminate H | contradiction].
Qed.

(** X16.  [draw_progress_bar] divides by zero ([width / nb_bars] with no
    bar left) exactly when it is asked for no bar at all or when fewer than
    three columns remain between the clamped [x] and the last column of the
    surface. *)
Theorem X16_progress_bar_without_bars
    (surface : SDL_Surface) (x y width height percentage nb_bars : Z) :
  0 < surface_w surface <= 65536 ->
  0 <= x < 65536 -> 0 <= width < 65536 -> 0 <= nb_bars < 65536 ->
  (draw_progress_bar surface x y width height percentage nb_bars = None
   <-> nb_bars = 0 \/
       surface_w surface - Z.min x (surface_w surface - 1) - 1 < 3).
Proof.
  intros HW Hx Hw Hn.
  rewrite (draw_progress_bar_none surface x y width height percentage
             nb_bars HW Hx Hw Hn). cbv zeta.
  set (w' := Z.min (Z.max width 3)
               (surface_w surface - Z.min x (surface_w surface - 1) - 1)).
  assert (Bw : 0 <= w') by (unfold w'; lia).
  pose proof (Z.div_mod (w' + 1) 4 ltac:(lia)) as D.
  pose proof (Z.mod_pos_bound (w' + 1) 4 ltac:(lia)) as M.
  assert (Hq : (w' + 1) / 4 = 0 <-> w' < 3).
  { set (q := (w' + 1) / 4) in *. set (r := (w' + 1) mod 4) in *.
    clearbody q r. lia. }
  assert (Hq0 : 0 <= (w' + 1) / 4) by (apply Z.div_pos; lia).
  assert (Hw3 : w' < 3 <->
                surface_w surface - Z.min x (surface_w surface - 1) - 1 < 3)
    by (unfold w'; lia).
  set (q := (w' + 1) / 4) in *. clearbody q. lia.
Qed.

(** X17.  On the same surface and geometry, with at least one bar left,
    the number of bars drawn does not depend on the percentage, the number
    of solid bars grows with the percentage, the bar is all solid exactly
    from 100 percent on, and it has no solid bar exactly while
    [nb_bars * percentage < 100]. *)
Theorem X17_progress_bar_grows_with_percentage
    (surface : SDL_Surface) (x y width height nb_bars p1 p2 : Z) :
  0 < surface_w surface <= 65536 ->
  0 < surface_h surface <= 65536 ->
  0 <= x < 65536 -> 0 <= y < 65536 ->
  0 <= width < 65536 -> 0 <= height < 65536 ->
  0 <= nb_bars < 65536 ->
  0 <= p1 <= p2 -> p2 < 256 ->
  let x' := Z.min x (surface_w surface - 1) in
  let width' := Z.min (Z.max width 3) (surface_w surface - x' - 1) in
  let nb_bars' := Z.min nb_bars ((width' + 1) / 4) in
  0 < nb_bars' ->
  exists bars1 bars2,
    draw_progress_bar surface x y width height p1 nb_bars = Some bars1 /\
    draw_progress_bar surface x y width height p2 nb_bars = Some bars2 /\
    solid_bars bars1 + hollow_bars bars1 = nb_bars' /\
    solid_bars bars2 + hollow_bars bars2 = nb_bars' /\
    solid_bars bars1 <= solid_bars bars2 /\
    (hollow_bars bars2 = 0 <-> 100 <= p2) /\
    (solid_bars bars2 = 0 <-> nb_bars' * p2 < 100).
Proof.
  intros HW HH Hx Hy Hw Hh Hn Hp Hp2 x' width' nb_bars' Hpos.
  destruct (draw_progress_bar_spec surface x y width height p1 nb_bars
              HW HH Hx Hy Hw Hh ltac:(lia) Hn Hpos) as [E1 B1].
  destruct (draw_progress_bar_spec surface x y width height p2 nb_bars
              HW HH Hx Hy Hw Hh ltac:(lia) Hn Hpos) as [E2 B2].
  fold x' width' nb_bars' in E1, E2, B1, B2.
  set (f1 := nb_bars' * Z.min p1 100 / 100) in *.
  set (f2 := nb_bars' * Z.min p2 100 / 100) in *.
  eexists. eexists. split; [exact E1|]. split; [exact E2|].
  match goal with
  | |- context [solid_bars (flat_map (full_bar ?a ?b ?c ?d ?e) (counter f1)
                            ++ flat_map (empty_bar ?l ?a ?b ?c ?d ?e f1) _)]
    => destruct (bars_count l a b c d e f1 f1 (nb_bars' - f1)
                   ltac:(lia) ltac:(lia)) as [S1 H1]
  end.
  match goal with
  | |- context [solid_bars (flat_map (full_bar ?a ?b ?c ?d ?e) (counter f2)
                            ++ flat_map (empty_bar ?l ?a ?b ?c ?d ?e f2) _)]
    => destruct (bars_count l a b c d e f2 f2 (nb_bars' - f2)
                   ltac:(lia) ltac:(lia)) as [S2 H2]
  end.
  cbv zeta in S1, H1, S2, H2. rewrite S1, H1, S2, H2.
  assert (M1 : 100 * f1 <= nb_bars' * Z.min p1 100 < 100 * f1 + 100).
  { pose proof (Z.div_mod (nb_bars' * Z.min p1 100) 100 ltac:(lia)) as D.
    pose proof (Z.mod_pos_bound (nb_bars' * Z.min p1 100) 100 ltac:(lia)).
    fold f1 in D. lia. }
  assert (M2 : 100 * f2 <= nb_bars' * Z.min p2 100 < 100 * f2 + 100).
  { pose proof (Z.div_mod (nb_bars' * Z.min p2 100) 100 ltac:(lia)) as D.
    pose proof (Z.mod_pos_bound (nb_bars' * Z.min p2 100) 100 ltac:(lia)).
    fold f2 in D. lia. }
  assert (Hnb : 0 < nb_bars') by exact Hpos.
  assert (Hf2 : 0 <= f2 <= nb_bars') by exact B2.
  assert (Hf1 : 0 <= f1 <= nb_bars') by exact B1.
  clear E1 E2 S1 H1 S2 H2 B1 B2 Hpos.
  clearbody f1 f2 nb_bars'. clear width' x'.
  assert (Hm : nb_bars' * Z.min p1 100 <= nb_bars' * Z.min p2 100)
    by (apply Z.mul_le_mono_nonneg_l; lia).
  split; [lia|]. split; [lia|]. split; [lia|].
  destruct (Z.le_gt_cases 100 p2) as [Hge|Hlt].
  - rewrite Z.min_r in M2 by lia.
    assert (Hmul : nb_bars' * 100 <= nb_bars' * p2)
      by (apply Z.mul_le_mono_nonneg_l; lia).
    split; split; intros H; lia.
  - rewrite Z.min_l in M2 by lia.
    assert (Hmul : nb_bars' * p2 <= nb_bars' * 99)
      by (apply Z.mul_le_mono_nonneg_l; lia).
    split; split; intros H; lia.
Qed.

(** *** The registry of zones *)

Lemma filter_cons_app (A : Type) (f : A -> bool) a l :
  filter f (a :: l) = (if f a then [a] else []) ++ filter f l.
Proof. cbn. destruct (f a); reflexivity. Qed.

Lemma add_menu_zone_if (has : ENUM_MENU_TYPE -> bool) t s :
  idx_menus (if has t then add_menu_zone t s else s)
    = idx_menus s ++ (if has t then [t] else []) /\
  menuItem (if has t then add_menu_zone t s else s) = menuItem s /\
  trace (if has t then add_menu_zone t s else s) = trace s.
Proof.
  destruct (has t); unfold add_menu_zone; fields;
    rewrite ?app_nil_r; repeat split.
Qed.

Lemma init_menu_zones_of_idx (has : ENUM_MENU_TYPE -> bool) s :
  idx_menus (init_menu_zones_of has s)
    = idx_menus s ++ filter has init_menu_zones /\
  menuItem (init_menu_zones_of has s) = menuItem s /\
  trace (init_menu_zones_of has s) = trace s.
Proof.
  unfold init_menu_zones_of, init_menu_zones. cbv zeta.
  rewrite !filter_cons_app. cbn [filter]. rewrite app_nil_r.
  repeat match goal with
  | |- context [if has ?t then add_menu_zone ?t ?s1 else ?s1] =>
      destruct (add_menu_zone_if has t s1) as (-> & -> & ->)
  end.
  rewrite <- !app_assoc. repeat split.
Qed.

Lemma system_ro_logged_fields s :
  idx_menus (system_ro_logged s) = idx_menus s /\
  menuItem (system_ro_logged s) = menuItem s /\
  shell_commands (trace (system_ro_logged s))
    = shell_commands (trace s) ++ [SHELL_CMD_RO].
Proof.
  unfold system_ro_logged, run_cmd, MENU_ERROR_PRINTF, emit, shell_commands.
  destruct (world (ncmd s)); fields; rewrite ?flat_map_app;
    cbn [flat_map app]; rewrite ?app_nil_r; repeat split.
Qed.

Lemma init_menu_zones_NoDup (has : ENUM_MENU_TYPE -> bool) : NoDup (filter has init_menu_zones).
Proof.
  apply NoDup_filter. unfold init_menu_zones.
  repeat (constructor; [cbn; intuition discriminate|]). constructor.
Qed.

Lemma FK_InitMenu_idx (has : ENUM_MENU_TYPE -> bool) s :
  idx_menus (FK_InitMenu has s) = idx_menus s ++ filter has init_menu_zones
  /\ menuItem (FK_InitMenu has s) = menuItem s.
Proof.
  unfold FK_InitMenu.
  match goal with
  | |- context [init_menu_zones_of has ?s1] =>
      destruct (init_menu_zones_of_idx has s1) as (-> & -> & _)
  end.
  destruct (has MENU_TYPE_RO_RW); [|split; reflexivity].
  destruct (system_ro_logged_fields s) as (-> & -> & _). split; reflexivity.
Qed.

Lemma FK_EndMenu_idx (has : ENUM_MENU_TYPE -> bool) s :
  idx_menus (FK_EndMenu has s) = [] /\
  menuItem (FK_EndMenu has s) = menuItem s.
Proof.
  unfold FK_EndMenu. destruct (has MENU_TYPE_RO_RW); [|split; reflexivity].
  match goal with
  | |- context [system_ro_logged ?s1] =>
      destruct (system_ro_logged_fields s1) as (-> & -> & _)
  end.
  split; reflexivity.
Qed.

(** X18.  [FK_InitMenu] appends to the registry the zone types whose
    feature is enabled, in the fixed order of [init_menu_zones], and
    [FK_EndMenu] empties the registry; neither touches [menuItem].  So
    after [FK_EndMenu], [FK_InitMenu] registers each enabled zone once
    (all eleven, in order, when every feature is enabled), while a second
    [FK_InitMenu] without [FK_EndMenu] in between registers every zone a
    second time. *)
Theorem X18_registry (has : ENUM_MENU_TYPE -> bool) (s : State) :
  idx_menus (FK_InitMenu has s) = idx_menus s ++ filter has init_menu_zones /\
  idx_menus (FK_EndMenu has s) = [] /\
  menuItem (FK_InitMenu has s) = menuItem s /\
  menuItem (FK_EndMenu has s) = menuItem s /\
  idx_menus (FK_InitMenu has (FK_EndMenu has s))
    = filter has init_menu_zones /\
  NoDup (idx_menus (FK_InitMenu has (FK_EndMenu has s))) /\
  idx_menus (FK_InitMenu (fun _ => true) (FK_EndMenu (fun _ => true) s))
    = init_menu_zones /\
  idx_menus (FK_InitMenu has (FK_InitMenu has (FK_EndMenu has s)))
    = filter has init_menu_zones ++ filter has init_menu_zones.
Proof.
  destruct (FK_InitMenu_idx has s) as [I1 I2].
  destruct (FK_EndMenu_idx has s) as [E1 E2].
  destruct (FK_InitMenu_idx has (FK_EndMenu has s)) as [J1 _].
  rewrite E1 in J1. cbn [app] in J1.
  repeat split; try assumption.
  - rewrite J1. apply init_menu_zones_NoDup.
  - destruct (FK_InitMenu_idx (fun _ => true) (FK_EndMenu (fun _ => true) s))
      as [K1 _].
    destruct (FK_EndMenu_idx (fun _ => true) s) as [K2 _].
    rewrite K1, K2. reflexivity.
  - destruct (FK_InitMenu_idx has (FK_InitMenu has (FK_EndMenu has s)))
      as [K1 _].
    rewrite K1, J1. reflexivity.
Qed.

(** *** What a redraw shows *)

Lemma status_caption_question s :
  status_caption s false = Some "Are you sure?"%string <->
  scroll s = 0 /\ menu_confirmation s = true /\
  exists t, current_zone s = Some t /\ needs_confirmation t = true.
Proof.
  unfold status_caption, status_line.
  destruct (Z.gtb_spec (scroll s) 0) as [Hgt|Hle];
    [split; [discriminate|lia]|].
  destruct (Z.ltb_spec (scroll s) 0) as [Hlt|Hge];
    [split; [discriminate|lia]|].
  assert (Hz : scroll s = 0) by lia.
  destruct (current_zone s) as [t|].
  - destruct t, (menu_confirmation s); cbn;
      (split;
       [ intros H; try discriminate H;
         (split; [exact Hz|]); (split; [reflexivity|]);
         eexists; split; reflexivity
       | intros (_ & Hc & t' & Ht & Hn); try discriminate Hc;
         try (injection Ht as <-; discriminate Hn); reflexivity ]).
  - split; [discriminate|]. intros (_ & _ & t' & Ht & _). discriminate Ht.
Qed.

(** X19.  At every loop head of a session, a redraw would show the
    question "Are you sure?" exactly when the offset is 0 and a
    confirmation is pending, the two arrows exactly when the offset is 0
    and no share is in progress (the case in which Up and Down are handled),
    and no status line at all while a scroll is under way. *)
Theorem X19_screen_matches_state
    (s0 : State) (currentLayoutIdx_ : Z) (p : Probe) (s : State) :
  loop_head (FK_RunMenu_prologue s0 currentLayoutIdx_ p) s ->
  (status_caption s false = Some "Are you sure?"%string <->
   scroll s = 0 /\ menu_confirmation s = true) /\
  (print_arrows s = true <-> scroll s = 0 /\ usb_sharing s = false) /\
  (scroll s <> 0 ->
   status_caption s false = None /\ status_caption s true = None).
Proof.
  intros Hs.
  assert (Hi : confirmation_ok s).
  { revert s Hs. apply loop_head_invariant.
    - intros Hc.
      destruct (FK_RunMenu_prologue_fields s0 currentLayoutIdx_ p)
        as (_ & _ & _ & _ & E & _).
      cbv zeta in E. congruence.
    - apply loop_body_invariant.
      + apply handle_event_confirmation_ok.
      + intros s1 H1 Hc.
        destruct (loop_tail_keeps s1) as (E1 & E2 & _ & _ & E3 & _).
        rewrite (current_zone_fields _ _ E1 E2). apply H1. congruence. }
  split; [|split].
  - rewrite status_caption_question. split.
    + tauto.
    + intros [Hz Hc]. auto.
  - unfold print_arrows.
    destruct (Z.eqb_spec (scroll s) 0), (usb_sharing s); cbn;
      split; try discriminate; try tauto; intros [? ?];
      try contradiction; discriminate.
  - intros Hnz. unfold status_caption.
    destruct (Z.gtb_spec (scroll s) 0); [split; reflexivity|].
    destruct (Z.ltb_spec (scroll s) 0); [split; reflexivity|]. lia.
Qed.

(** *** The font library *)

(** X20.  [initTTF] followed by [deinitTTF] leaves the font library as it
    was found: still initialised, as often, if the application had
    initialised it, and shut down again if it had not (also when
    [TTF_Init] fails).  The pair does not nest: of two [initTTF] and then
    two [deinitTTF] on an uninitialised library, the second [initTTF]
    overwrites [wasTTFInit] and the library stays initialised. *)
Theorem X20_fonts_round_trip (init_ok : bool) (f : Fonts) :
  TTF_initialized (deinitTTF (initTTF init_ok f)) = TTF_initialized f /\
  (TTF_initialized f = 0%nat ->
   TTF_initialized
     (deinitTTF (deinitTTF (initTTF true (initTTF true f)))) = 1%nat).
Proof.
  unfold deinitTTF, initTTF. destruct f as [n w]. cbn.
  destruct n as [|n]; cbn.
  - split; [destruct init_ok; reflexivity | reflexivity].
  - split; [reflexivity | discriminate].
Qed.

(** *** [FK_StopMenu] *)

(** X21.  A stop requested with [FK_StopMenu] before a session is lost:
    [FK_RunMenu] clears [stop_menu_loop] before its loop, so the session
    runs as if no stop had been requested.  A stop requested at a loop
    head ends the session at that test: the events still queued are not
    handled, no command is run, and the return code is the pending one. *)
Theorem X21_stop_request
    (s : State) (currentLayoutIdx_ : Z) (p : Probe)
    (background_screen_ok : bool) (queue : list SDL_Event)
    (arrivals : list (list SDL_Event)) :
  FK_RunMenu (FK_StopMenu s) currentLayoutIdx_ p background_screen_ok arrivals
    = FK_RunMenu s currentLayoutIdx_ p background_screen_ok arrivals /\
  menu_loop (FK_StopMenu s) queue arrivals
    = Some (returnCode s, FK_StopMenu s) /\
  trace (FK_StopMenu s) = trace s.
Proof.
  split; [|split].
  - unfold FK_RunMenu, FK_StopMenu. destruct s. reflexivity.
  - unfold FK_StopMenu. destruct arrivals; reflexivity.
  - reflexivity.
Qed.

(** *** The quit event, from its arrival to the return *)




End Menu.

(** ** The model at work on concrete inputs

    The macros are instantiated with a step of 10 for both bars, three
    aspect ratios and a [size_t] of 32 bits. *)

(** C1 on the Save zone: the first Confirm press only raises the flag. *)
Lemma C1_confirm_gate_witness :
  menu_confirmation (state_on 2 50 false) = false /\
  exists s',
    handle_event 10 10 3 4294967295 (fun _ => true) (state_on 2 50 false)
      (SDL_KEYDOWN SDLK_RETURN) = Running s' /\
    trace s' = [] /\ stop_menu_loop s' = false /\
    menu_confirmation s' = true.
Proof.
  split; [reflexivity|].
  destruct (C1_confirm_gate 10 10 3 4294967295
      (fun _ => true) (state_on 2 50 false)
              eq_refl)
    as (_ & s' & E & Ht & _ & Hs & _ & _ & _ & Hz).
  exists s'. specialize (Hz MENU_TYPE_SAVE eq_refl).
  cbn in Hz. destruct Hz as (_ & Hc & _). auto.
Defined.

(** C2 as stated fails: the volume is 40, the command fails, and the stored
    volume has changed all the same. *)
Lemma C2_counterexample :
  ~ (zone_is MENU_TYPE_VOLUME (state_on 0 40 false) = true ->
     (fun _ : nat => false) (ncmd (state_on 0 40 false)) = false ->
     volume_percentage
       (on_key_right 10 10 3 4294967295 (fun _ => false) (state_on 0 40 false))
     = volume_percentage (state_on 0 40 false)).
Proof.
  intros H. specialize (H eq_refl eq_refl). vm_compute in H. discriminate H.
Qed.

(** C2 (amended) on the scenario: both commands fail, the volume is 60. *)
Lemma C2_volume_stored_before_command_witness :
  zone_is MENU_TYPE_VOLUME (state_on 0 40 false) = true /\
  volume_percentage
    (on_key_right 10 10 3 4294967295 (fun _ => false)
       (on_key_right 10 10 3 4294967295 (fun _ => false) (state_on 0 40 false)))
  = 60.
Proof.
  split; [reflexivity|].
  destruct (C2_volume_stored_before_command 10 10 3 4294967295 (fun _ => false)
              (state_on 0 40 false) eq_refl) as (_ & _ & H).
  destruct (H eq_refl eq_refl) as (_ & H60 & _). exact H60.
Defined.

(** C3 on the last frame of a scroll down from zone 0 to zone 1. *)
Lemma C3_scroll_step_witness :
  let s := set_prevItem 0 (set_scroll 210 (state_on 1 50 false)) in
  scroll_inv s /\ scroll s <> 0 /\
  scroll (scroll_effect s) = 0 /\ prevItem (scroll_effect s) = 1.
Proof.
  cbv zeta.
  assert (Hi : scroll_inv (set_prevItem 0 (set_scroll 210
                                            (state_on 1 50 false))))
    by (split; [split; reflexivity | intros _; reflexivity]).
  assert (Hn : scroll (set_prevItem 0 (set_scroll 210
                                        (state_on 1 50 false))) <> 0)
    by (cbn; lia).
  split; [exact Hi|]. split; [exact Hn|].
  destruct (C3_scroll_step _ Hi (or_introl Hn)) as (_ & _ & _ & Hc & _).
  apply Hc. reflexivity.
Defined.

(** C4 on the last zone: Down wraps to zone 0. *)
Lemma C4_wrap_and_skip_witness :
  usb_sharing (state_on 10 50 true) = false /\
  0 <= menuItem (state_on 10 50 true) < nb_menu_zones (state_on 10 50 true) /\
  menuItem (on_key_down (state_on 10 50 true)) = 0 /\
  menuItem (on_key_up (state_on 8 50 true)) = 6.
Proof.
  assert (H10 : 0 <= menuItem (state_on 10 50 true)
                < nb_menu_zones (state_on 10 50 true)) by (cbn; lia).
  assert (H8 : 0 <= menuItem (state_on 8 50 true)
               < nb_menu_zones (state_on 8 50 true)) by (cbn; lia).
  split; [reflexivity|]. split; [exact H10|]. split.
  - destruct (C4_wrap_and_skip 10 10 3 4294967295
      (fun _ => true) (state_on 10 50 true)
                eq_refl H10) as (_ & (H & _) & _).
    exact H.
  - destruct (C4_wrap_and_skip 10 10 3 4294967295
      (fun _ => true) (state_on 8 50 true)
                eq_refl H8) as (_ & _ & (H & _) & _).
    exact H.
Defined.

(** C5 on three presses from a volume of 95. *)
Lemma C5_values_stay_in_range_witness :
  values_in_range (state_on 0 95 false) /\
  exists s',
    poll_events 10 10 3 4294967295 (fun _ => true) (state_on 0 95 false)
      (map SDL_KEYDOWN [SDLK_RIGHT; SDLK_r; SDLK_LEFT]) = Running s' /\
    values_in_range s'.
Proof.
  assert (Hr : values_in_range (state_on 0 95 false))
    by (unfold values_in_range, MAX_SAVE_SLOTS; cbn; lia).
  split; [exact Hr|].
  apply (C5_values_stay_in_range 10 10 3 4294967295 (fun _ => true));
    [lia | lia | exact Hr | reflexivity].
Defined.

(** The truncated count can be less than the rounded one: at 46 percent
    and a step of 10 the volume zone shows 4 solid bars, and 46 / 10 rounds
    to 5. *)
Example volume_bar_truncates :
  exists bars,
    volume_overlay 10 (mkSurface 240 240) (mkSurface 240 240)
      (state_on 0 46 false) = Some bars /\
    solid_bars bars = 4 /\
    solid_bars bars <> round_div 46 10.
Proof.
  eexists. split; [vm_compute; reflexivity|].
  split; [reflexivity | vm_compute; discriminate].
Qed.




(** C9 on the USB zone with a share in progress. *)
Lemma C9_usb_sharing_locks_navigation_witness :
  let s := set_usb_sharing true (state_on 7 50 false) in
  usb_sharing s = true /\
  poll_events 10 10 3 4294967295 (fun _ => true) s
    (map SDL_KEYDOWN [SDLK_UP; SDLK_DOWN; SDLK_ESCAPE; SDLK_q]) = Running s.
Proof.
  cbv zeta. split; [reflexivity|].
  destruct (C9_usb_sharing_locks_navigation 10 10 3 4294967295 (fun _ => true)
              (set_usb_sharing true (state_on 7 50 false)) eq_refl)
    as [_ H].
  apply H. reflexivity.
Defined.


(** An empty answer takes its value from the buffer: the same answers give
    a volume of 50 over an empty buffer and of 70 over a buffer that holds
    "70". *)
Example empty_answer_reads_buffer :
  let p := {| volume_get := Some EmptyString;
              brightness_get := None;
              usb_data_connected_get := false;
              usb_check_is_sharing := false;
              res_on_entry := EmptyString |} in
  let s' := init_menu_system_values p (state_on 0 0 false) in
  volume_percentage s' = 50 /\
  volume_percentage (init_menu_system_values (with_buffer "70" p) s') = 70.
Proof. split; reflexivity. Qed.

(** Right on the theme zone with an index of -2 and three layouts: the sum
    -1 is converted to [size_t] before the remainder is taken, which gives
    0 with a [size_t] of 32 bits and of 64 bits alike. *)
Example theme_right_from_negative_index :
  let s := {| idx_menus := init_menu_zones; menuItem := 8;
              stop_menu_loop := false;
              volume_percentage := 50; brightness_percentage := 50;
              aspect_ratio := 0; indexChooseLayout := -2; layouts_size := 3;
              savestate_slot := 0;
              usb_data_connected := false; usb_sharing := false;
              read_write := false;
              scroll := 0; start_scroll := 0; screen_refresh := false;
              menu_confirmation := false; prevItem := 8;
              returnCode := MENU_RETURN_OK; ncmd := 0; trace := [] |} in
  zone_is MENU_TYPE_THEME s = true /\
  indexChooseLayout (on_key_right 10 10 3 4294967295 (fun _ => true) s) = 0 /\
  indexChooseLayout
    (on_key_right 10 10 3 18446744073709551615 (fun _ => true) s) = 0.
Proof. repeat split. Qed.

(** ** Two sessions run from start to end *)

(** Down once from zone 0: eight frames of 30 pixels, the last of which
    commits; a quit event then ends the session. *)
Example scroll_down_session :
  option_map
    (fun r => (fst r, menuItem (snd r), prevItem (snd r), scroll (snd r),
               trace (snd r)))
    (menu_loop 10 10 3 4294967295 (fun _ => true) (state_on 0 50 false) []
       [[SDL_KEYDOWN SDLK_DOWN]; []; []; []; []; []; []; []; [SDL_QUIT]])
  = Some (MENU_RETURN_EXIT, 1, 1, 0,
          [ call_menu_screen_refresh 1 0 30 false false;
            call_menu_screen_refresh 1 0 60 false false;
            call_menu_screen_refresh 1 0 90 false false;
            call_menu_screen_refresh 1 0 120 false false;
            call_menu_screen_refresh 1 0 150 false false;
            call_menu_screen_refresh 1 0 180 false false;
            call_menu_screen_refresh 1 0 210 false false;
            call_menu_screen_refresh 1 1 0 false false ]).
Proof. vm_compute. reflexivity. Qed.

(** On the Save zone: Confirm asks, Cancel withdraws, Confirm twice ends
    the session with [MENU_RETURN_OK] after the "Saving..." redraw. *)
Example save_session :
  option_map
    (fun r => (fst r, trace (snd r)))
    (menu_loop 10 10 3 4294967295 (fun _ => true) (state_on 2 50 false) []
       [[SDL_KEYDOWN SDLK_a]; [SDL_KEYDOWN SDLK_b];
        [SDL_KEYDOWN SDLK_a; SDL_KEYDOWN SDLK_a]])
  = Some (MENU_RETURN_OK,
          [ call_menu_screen_refresh 2 2 0 true false;
            call_menu_screen_refresh 2 2 0 false false;
            call_menu_screen_refresh 2 2 0 true true;
            call_menu_screen_refresh 2 2 0 true false ]).
Proof. vm_compute. reflexivity. Qed.

(** ** The session properties on concrete inputs *)

(** X1 at the start of a session entered on the last zone: Down wraps
    inside the registry. *)
Lemma X1_selection_stays_in_registry_witness :
  index_ok (state_on 10 50 false) /\
  index_ok
    (flow_state
       (poll_events 10 10 3 4294967295 (fun _ => true)
          (FK_RunMenu_prologue (state_on 10 50 false) 0 (probe_on true false))
          [SDL_KEYDOWN SDLK_DOWN])).
Proof.
  assert (H0 : index_ok (state_on 10 50 false))
    by (unfold index_ok; cbn; lia).
  split; [exact H0|].
  destruct (X1_selection_stays_in_registry 10 10 3 4294967295 (fun _ => true)
              (state_on 10 50 false) 0 (probe_on true false) _
              [SDL_KEYDOWN SDLK_DOWN] H0
              (loop_head_start 10 10 3 4294967295
                  (fun _ => true) _)) as (_ & H & _).
  exact H.
Defined.

(** X2 at the start of a session on the Save zone: after Confirm the
    pending confirmation belongs to a zone with an action. *)
Lemma X2_confirmation_belongs_to_zone_witness :
  confirmation_ok
    (flow_state
       (handle_event 10 10 3 4294967295 (fun _ => true)
          (FK_RunMenu_prologue (state_on 2 50 false) 0 (probe_on true false))
          (SDL_KEYDOWN SDLK_a))).
Proof.
  destruct (X2_confirmation_belongs_to_zone 10 10 3 4294967295 (fun _ => true)
              (state_on 2 50 false) 0 (probe_on true false) _
              (SDL_KEYDOWN SDLK_a)
              (loop_head_start 10 10 3 4294967295
                  (fun _ => true) _)) as (_ & H & _).
  exact H.
Defined.

(** X3 on a session entered while a share is in progress. *)
Lemma X3_share_keeps_usb_zone_witness :
  In MENU_TYPE_USB (idx_menus (state_on 0 50 false)) /\
  usb_sharing
    (FK_RunMenu_prologue (state_on 0 50 false) 0 (probe_on true true))
  = true /\
  zone_is MENU_TYPE_USB
    (FK_RunMenu_prologue (state_on 0 50 false) 0 (probe_on true true))
  = true.
Proof.
  assert (Hin : In MENU_TYPE_USB (idx_menus (state_on 0 50 false)))
    by (cbn; auto 20).
  split; [exact Hin|]. split; [reflexivity|].
  destruct (X3_share_keeps_usb_zone 10 10 3 4294967295 (fun _ => true)
              (state_on 0 50 false) 0 (probe_on true true) _
              (SDL_KEYDOWN SDLK_DOWN) Hin
              (loop_head_start 10 10 3 4294967295 (fun _ => true) _) eq_refl)
    as [H _].
  exact H.
Defined.

(** X4 at the start of a session. *)
Lemma X4_shown_zone_is_selected_at_rest_witness :
  prevItem (FK_RunMenu_prologue (state_on 3 50 false) 0 (probe_on true false))
  = menuItem
      (FK_RunMenu_prologue (state_on 3 50 false) 0 (probe_on true false)).
Proof.
  destruct (X4_shown_zone_is_selected_at_rest 10 10 3 4294967295 (fun _ => true)
              (state_on 3 50 false) 0 (probe_on true false) _
              (loop_head_start 10 10 3 4294967295 (fun _ => true) _))
    as (_ & _ & H & _).
  apply H. reflexivity.
Defined.

(** X5 with USB unplugged: seven Down presses from zone 0 pass the USB
    zone, which is the eighth. *)
Lemma X5_unconnected_usb_zone_never_selected_witness :
  NoDup (idx_menus (state_on 0 50 false)) /\
  usb_data_connected
    (FK_RunMenu_prologue (state_on 0 50 false) 0 (probe_on false false))
  = false /\
  zone_is MENU_TYPE_USB
    (flow_state
       (poll_events 10 10 3 4294967295 (fun _ => true)
          (FK_RunMenu_prologue (state_on 0 50 false) 0
             (probe_on false false))
          (repeat (SDL_KEYDOWN SDLK_DOWN) 7)))
  = false.
Proof.
  assert (Hnd : NoDup (idx_menus (state_on 0 50 false))).
  { cbn. repeat (constructor; [cbn; intuition discriminate|]). constructor. }
  assert (H0 : index_ok (state_on 0 50 false))
    by (unfold index_ok; cbn; lia).
  assert (Hz : zone_at (idx_menus (state_on 0 50 false)) 0
               <> Some MENU_TYPE_USB) by (cbn; discriminate).
  split; [exact Hnd|]. split; [reflexivity|].
  destruct (X5_unconnected_usb_zone_never_selected 10 10 3 4294967295
      (fun _ => true)
              (state_on 0 50 false) 0 (probe_on false false) _
              (repeat (SDL_KEYDOWN SDLK_DOWN) 7) Hnd H0 Hz
              (loop_head_start 10 10 3 4294967295 (fun _ => true) _) eq_refl)
    as [_ H].
  exact H.
Defined.

(** X6 on the last frame of a scroll down from zone 0 to zone 1. *)
Lemma X6_scroll_runs_to_end_witness :
  let s := set_prevItem 0 (set_scroll 210 (state_on 1 50 false)) in
  loop_inv s /\ pending_frames s = 1 /\
  exists s',
    menu_loop 10 10 3 4294967295 (fun _ => true) s [] ([[SDL_QUIT]] ++ [[]])
    = menu_loop 10 10 3 4294967295
        (fun _ => true) s' ([] ++ List.concat [[SDL_QUIT]])
        [[]] /\
    scroll s' = 0 /\ prevItem s' = 1.
Proof.
  cbv zeta.
  assert (Hi : loop_inv (set_prevItem 0 (set_scroll 210
                                           (state_on 1 50 false))))
    by (split; [split; reflexivity | reflexivity]).
  assert (Hn : scroll (set_prevItem 0 (set_scroll 210
                                        (state_on 1 50 false))) <> 0)
    by (cbn; lia).
  split; [exact Hi|]. split; [reflexivity|].
  destruct (X6_scroll_runs_to_end 10 10 3 4294967295 (fun _ => true)
              (set_prevItem 0 (set_scroll 210 (state_on 1 50 false)))
              [] [[SDL_QUIT]] [[]] eq_refl Hi Hn eq_refl)
    as (_ & _ & s' & E & Hs & Hp & _).
  exists s'. split; [exact E|]. split; [exact Hs | exact Hp].
Defined.

(** X7 on three frames without input. *)
Lemma X7_no_input_no_change_witness :
  menu_loop 10 10 3 4294967295
      (fun _ => true) (state_on 0 50 false) [] [[]; []; []]
  = None.
Proof.
  destruct (X7_no_input_no_change 10 10 3 4294967295 (fun _ => true)
              (state_on 0 50 false) 3 eq_refl eq_refl eq_refl) as [H _].
  exact H.
Defined.

(** X8 on a session ended by a quit event. *)
Lemma X8_error_only_without_background_witness :
  exists rc s',
    FK_RunMenu 10 10 3 4294967295 (fun _ => true) (state_on 0 50 false) 0
      (probe_on true false) true [[SDL_QUIT]] = Some (rc, s') /\
    rc <> MENU_RETURN_ERROR.
Proof.
  destruct (FK_RunMenu 10 10 3 4294967295
      (fun _ => true) (state_on 0 50 false) 0
              (probe_on true false) true [[SDL_QUIT]])
    as [[rc s']|] eqn:E.
  - exists rc, s'. split; [reflexivity|].
    destruct (X8_error_only_without_background 10 10 3 4294967295
        (fun _ => true)
                (state_on 0 50 false) 0 (probe_on true false) true
                [[SDL_QUIT]] rc s' E) as [H _].
    intros Hrc. apply H in Hrc. discriminate Hrc.
  - vm_compute in E. discriminate E.
Defined.

(** X9 on the Save zone. *)
Lemma X9_cancel_undoes_confirm_witness :
  current_zone (state_on 2 50 false) = Some MENU_TYPE_SAVE /\
  poll_events 10 10 3 4294967295 (fun _ => true) (state_on 2 50 false)
    [SDL_KEYDOWN SDLK_a; SDL_KEYDOWN SDLK_b]
  = Running (set_screen_refresh true (state_on 2 50 false)).
Proof.
  split; [reflexivity|].
  destruct (X9_cancel_undoes_confirm 10 10 3 4294967295 (fun _ => true)
              (state_on 2 50 false) MENU_TYPE_SAVE eq_refl eq_refl eq_refl)
    as [H _].
  exact H.
Defined.

(** X10 on the Load zone, slot 0: Left goes to slot 8 and Right back. *)
Lemma X10_slot_goes_round_witness :
  zone_is MENU_TYPE_LOAD (state_on 3 50 false) = true /\
  savestate_slot
    (on_key_right 10 10 3 4294967295 (fun _ => true)
       (on_key_left 10 10 3 (fun _ => true) (state_on 3 50 false)))
  = 0.
Proof.
  split; [reflexivity|].
  assert (Hs : 0 <= savestate_slot (state_on 3 50 false) < MAX_SAVE_SLOTS)
    by (unfold MAX_SAVE_SLOTS; cbn; lia).
  destruct (X10_slot_goes_round 10 10 3 4294967295 (fun _ => true)
              (state_on 3 50 false) (or_intror eq_refl) Hs)
    as (_ & H & _).
  exact H.
Defined.

(** X11 at a volume of 50 with a step of 10. *)
Lemma X11_volume_round_trip_witness :
  zone_is MENU_TYPE_VOLUME (state_on 0 50 false) = true /\
  volume_percentage
    (on_key_left 10 10 3 (fun _ => true)
       (on_key_right 10 10 3 4294967295 (fun _ => true) (state_on 0 50 false)))
  = 50.
Proof.
  split; [reflexivity|].
  assert (Hv : 0 <= volume_percentage (state_on 0 50 false) <= 100)
    by (cbn; lia).
  assert (Hstep : 0 < 10 <= 100) by lia.
  destruct (X11_volume_round_trip 10 10 3 4294967295 (fun _ => true)
              (state_on 0 50 false) eq_refl Hv Hstep) as [H _].
  apply H. cbn. lia.
Defined.

(** X12 on the Save zone with a confirmation pending: Left, Right, then
    Confirm saves. *)
Lemma X12_confirmation_survives_left_right_witness :
  menu_confirmation (state_on 2 50 true) = true /\
  exists s2,
    poll_events 10 10 3 4294967295 (fun _ => true) (state_on 2 50 true)
      (map SDL_KEYDOWN [SDLK_LEFT; SDLK_r] ++ [SDL_KEYDOWN SDLK_a])
    = Running s2 /\
    stop_menu_loop s2 = true.
Proof.
  split; [reflexivity|].
  destruct (X12_confirmation_survives_left_right 10 10 3 4294967295
      (fun _ => true)
              (state_on 2 50 true) [SDLK_LEFT; SDLK_r]
              (or_introl eq_refl) eq_refl eq_refl)
    as (s1 & s2 & _ & _ & E & Hs & _).
  exists s2. split; [exact E | exact Hs].
Defined.

(** X13 on the USB zone: four Confirm presses mount and unmount. *)
Lemma X13_usb_toggle_witness :
  zone_is MENU_TYPE_USB (state_on 7 50 false) = true /\
  exists s',
    poll_events 10 10 3 4294967295 (fun _ => true) (state_on 7 50 false)
      (repeat (SDL_KEYDOWN SDLK_a) 4) = Running s' /\
    shell_commands (trace s') = [SHELL_CMD_USB_MOUNT; SHELL_CMD_USB_UNMOUNT].
Proof.
  split; [reflexivity|].
  destruct (X13_usb_toggle 10 10 3 4294967295
      (fun _ => true) (state_on 7 50 false)
              eq_refl) as [_ H].
  destruct (H eq_refl eq_refl eq_refl) as (s' & E & _ & _ & Hc).
  exists s'. split; [exact E | exact Hc].
Defined.

(** X15 on a session with three presses on the volume zone. *)
Lemma X15_session_keeps_ranges_witness :
  (0 <= probed_volume (probe_on true false) <= 100) /\
  (0 <= probed_brightness (probe_on true false) <= 100) /\
  exists rc s',
    FK_RunMenu 10 10 3 4294967295 (fun _ => true) (state_on 0 50 false) 0
      (probe_on true false) true
      [map SDL_KEYDOWN [SDLK_LEFT; SDLK_LEFT; SDLK_RIGHT]; [SDL_QUIT]]
    = Some (rc, s') /\
    values_in_range s'.
Proof.
  assert (Hv : 0 <= probed_volume (probe_on true false) <= 100)
    by (vm_compute; split; discriminate).
  assert (Hb : 0 <= probed_brightness (probe_on true false) <= 100)
    by (vm_compute; split; discriminate).
  split; [exact Hv|]. split; [exact Hb|].
  destruct (FK_RunMenu 10 10 3 4294967295
      (fun _ => true) (state_on 0 50 false) 0
              (probe_on true false) true
              [map SDL_KEYDOWN [SDLK_LEFT; SDLK_LEFT; SDLK_RIGHT];
               [SDL_QUIT]])
    as [[rc s']|] eqn:E.
  - exists rc, s'. split; [reflexivity|].
    apply (X15_session_keeps_ranges 10 10 3 4294967295 (fun _ => true)
             (state_on 0 50 false) 0 (probe_on true false) true
             [map SDL_KEYDOWN [SDLK_LEFT; SDLK_LEFT; SDLK_RIGHT];
              [SDL_QUIT]] rc s');
      [lia | lia | cbn; lia | exact Hv | exact Hb | exact E].
  - vm_compute in E. discriminate E.
Defined.

(** X16 on a bar asked with no division. *)
Lemma X16_progress_bar_without_bars_witness :
  draw_progress_bar (mkSurface 240 240) 20 100 200 20 50 0 = None.
Proof.
  apply (proj2 (X16_progress_bar_without_bars (mkSurface 240 240)
                  20 100 200 20 50 0
                  ltac:(cbn; lia) ltac:(lia) ltac:(lia) ltac:(lia))).
  left. reflexivity.
Defined.

(** X17 on a bar of ten divisions at 30 and at 60 percent. *)
Lemma X17_progress_bar_grows_with_percentage_witness :
  exists bars1 bars2,
    draw_progress_bar (mkSurface 240 240) 20 100 200 20 30 10 = Some bars1 /\
    draw_progress_bar (mkSurface 240 240) 20 100 200 20 60 10 = Some bars2 /\
    solid_bars bars1 <= solid_bars bars2.
Proof.
  destruct (X17_progress_bar_grows_with_percentage (mkSurface 240 240)
              20 100 200 20 10 30 60
              ltac:(cbn; lia) ltac:(cbn; lia) ltac:(lia) ltac:(lia)
              ltac:(lia) ltac:(lia) ltac:(lia) ltac:(lia) ltac:(lia)
              eq_refl)
    as (bars1 & bars2 & E1 & E2 & _ & _ & H & _).
  exists bars1, bars2. split; [exact E1|]. split; [exact E2 | exact H].
Defined.

(** X19 at the start of a session: the arrows are shown. *)
Lemma X19_screen_matches_state_witness :
  print_arrows
    (FK_RunMenu_prologue (state_on 2 50 true) 0 (probe_on true false))
  = true.
Proof.
  destruct (X19_screen_matches_state 10 10 3 4294967295 (fun _ => true)
              (state_on 2 50 true) 0 (probe_on true false) _
              (loop_head_start 10 10 3 4294967295 (fun _ => true) _))
    as (_ & H & _).
  apply H. split; reflexivity.
Defined.
